(** * WhatsApp integration core: webhook normalisation and outbound dispatch

    A shallow embedding of the Python sources of the WhatsApp app
    (models/contact.py, models/message.py, models/phone_number.py,
    services/waha.py, views/official_api_webhook.py, views/waha_webhook.py,
    signals/send_outgoing_message.py) together with the properties the
    design specification states about them.

    Conventions of the embedding.
    - A Python [str] is a [string]; one [ascii] stands for one code point
      below 256.  [None] is made explicit with [option] (for attributes) or
      [JNull] (inside JSON payloads).
    - Exceptions are values of type [exn]; a function that can raise returns
      a [result].  Code that mutates model instances, writes database rows,
      logs or talks to the network runs in the monad [M] of module
      [Effects], whose state survives a raised exception exactly as Python
      heap and database updates survive one.
    - Database tables are lists of rows in insertion order. *)

From Stdlib Require Import String Ascii List ZArith NArith Bool Arith Lia.
From Stdlib Require Import DecimalString.
Import ListNotations.

Local Open Scope list_scope.
Local Open Scope string_scope.

Set Warnings "-register-all".

(* ===================================================================== *)
(** * Python values *)
(* ===================================================================== *)

Module Py.

(** The exception classes the sources raise or catch. Every one of them
    is a subclass of [Exception]. *)
Inductive exn_kind : Type :=
| ValueError
| TypeError
| AttributeError
| IndexError
| KeyError
| ValidationError
| DoesNotExist
| MultipleObjectsReturned
| IntegrityError
| JSONDecodeError
| UnicodeDecodeError
| RecursionError
| RequestException
| DatabaseError
| OverflowError
| OSError
| PlainException.

Record exn : Type := Exn { exn_class : exn_kind; exn_text : string }.

Inductive result (A : Type) : Type :=
| Ok (a : A)
| Raise (e : exn).
Arguments Ok {A} a.
Arguments Raise {A} e.

Definition result_map {A B} (f : A -> B) (r : result A) : result B :=
  match r with
  | Ok a => Ok (f a)
  | Raise e => Raise e
  end.

Definition exn_kind_eqb (a b : exn_kind) : bool :=
  match a, b with
  | ValueError, ValueError | TypeError, TypeError
  | AttributeError, AttributeError | IndexError, IndexError
  | KeyError, KeyError
  | ValidationError, ValidationError | DoesNotExist, DoesNotExist
  | MultipleObjectsReturned, MultipleObjectsReturned
  | IntegrityError, IntegrityError | JSONDecodeError, JSONDecodeError
  | UnicodeDecodeError, UnicodeDecodeError
  | RecursionError, RecursionError
  | RequestException, RequestException
  | DatabaseError, DatabaseError | OverflowError, OverflowError
  | OSError, OSError
  | PlainException, PlainException => true
  | _, _ => false
  end.

(** JSON documents as [json.loads] builds them: [None], [bool], [int],
    [str], [list] and [dict] (insertion ordered, hence an association
    list).  Floating point numbers do not occur in the fields the
    handlers inspect and are left out. *)
Inductive json : Type :=
| JNull
| JBool (b : bool)
| JNum (z : Z)
| JStr (s : string)
| JList (l : list json)
| JDict (d : list (string * json)).

(** Truth value of a string: [''] is falsy. *)
Definition nonempty (s : string) : bool := negb (s =? "").

(** Python truth value of a JSON document ([bool(x)]). *)
Definition truthy (v : json) : bool :=
  match v with
  | JNull => false
  | JBool b => b
  | JNum z => negb (z =? 0)%Z
  | JStr s => nonempty s
  | JList l => match l with [] => false | _ => true end
  | JDict d => match d with [] => false | _ => true end
  end.

(** [a or b]. *)
Definition py_or (a b : json) : json := if truthy a then a else b.

(** Truth value of an optional string attribute ([None] and [''] are
    falsy). *)
Definition str_truthy (s : option string) : bool :=
  match s with
  | None => false
  | Some s => nonempty s
  end.

Fixpoint assoc (k : string) (d : list (string * json)) : option json :=
  match d with
  | [] => None
  | (k', v) :: d' => if k' =? k then Some v else assoc k d'
  end.

(** [d[k] = v] on a dict keeps the position of an existing key and
    appends a new one. *)
Fixpoint assoc_set (k : string) (v : json) (d : list (string * json))
  : list (string * json) :=
  match d with
  | [] => [(k, v)]
  | (k', v') :: d' =>
      if k' =? k then (k', v) :: d' else (k', v') :: assoc_set k v d'
  end.

(** [x.get(k, default)]: only a dict has the method. *)
Definition get_default (x : json) (k : string) (default : json)
  : result json :=
  match x with
  | JDict d =>
      match assoc k d with
      | Some v => Ok v
      | None => Ok default
      end
  | _ => Raise (Exn AttributeError "object has no attribute 'get'")
  end.

(** [x.get(k)]. *)
Definition get (x : json) (k : string) : result json :=
  get_default x k JNull.

(** [k in x] for a string [k]: a key of a dict, an element of a list, a
    substring of a string. *)
Definition py_in (k : string) (x : json) : result bool :=
  match x with
  | JDict d => Ok (match assoc k d with Some _ => true | None => false end)
  | JList l =>
      Ok (existsb (fun v => match v with JStr s => s =? k | _ => false end) l)
  | JStr s => Ok (match index 0 k s with Some _ => true | None => false end)
  | _ => Raise (Exn TypeError "argument is not iterable")
  end.

(** [''.join(filter(pred, s))]. *)
Fixpoint filter_chars (pred : ascii -> bool) (s : string) : string :=
  match s with
  | EmptyString => EmptyString
  | String c s' =>
      if pred c then String c (filter_chars pred s') else filter_chars pred s'
  end.

(** [c in s] for a one-character string [c]. *)
Fixpoint contains_char (c : ascii) (s : string) : bool :=
  match s with
  | EmptyString => false
  | String a s' => Ascii.eqb a c || contains_char c s'
  end.

(** [s.replace(c, '')] for a one-character string [c]. *)
Definition remove_char (c : ascii) (s : string) : string :=
  filter_chars (fun a => negb (Ascii.eqb a c)) s.

(** [s.rstrip(c)] for a one-character string [c]. *)
Fixpoint rstrip_char (c : ascii) (s : string) : string :=
  match s with
  | EmptyString => EmptyString
  | String a s' =>
      let r := rstrip_char c s' in
      if Ascii.eqb a c && (r =? "") then EmptyString else String a r
  end.

(** Decimal rendering of an integer, as [str(n)] and f-strings give it. *)
Definition str_of_Z (z : Z) : string :=
  NilZero.string_of_int (Z.to_int z).

(** What the Python runtime and the Django settings provide and the
    sources only use: the API base URL of the settings, the name the file
    storage saves an uploaded file under and the URL it gives a stored
    file, [str] of a list or dict, [json.dumps], [int] of a string
    ([None] when it raises [ValueError]), the conversion of a time stamp
    to local time, which outside the platform's range fails with
    [OverflowError], [OSError] or [ValueError], and the clock
    ([timezone.now]).  A point in time is its number of seconds since
    the epoch. *)
Inductive time_error : Type := TimeOverflow | TimeOSError | TimeValueError.

Record Platform : Type := mkPlatform {
  WHATSAPP_API_URL : string;
  storage_name : string -> string;
  storage_url : string -> string;
  repr : json -> string;
  json_dumps : json -> string;
  int_of_str : string -> option Z;
  localtime : Z -> Z + time_error;
  now : Z
}.

(** [datetime.fromtimestamp(z)] (made aware in the current time zone). *)
Definition fromtimestamp (pf : Platform) (z : Z) : result Z :=
  match localtime pf z with
  | inl t => Ok t
  | inr TimeOverflow =>
      Raise (Exn OverflowError "timestamp out of range for platform time_t")
  | inr TimeOSError => Raise (Exn OSError "Value too large for defined data type")
  | inr TimeValueError => Raise (Exn ValueError "year is out of range")
  end.

(** An optional string inside an f-string. *)
Definition opt_str_text (s : option string) : string :=
  match s with
  | Some s => s
  | None => "None"
  end.

Definition json_of_opt_str (s : option string) : json :=
  match s with
  | Some s => JStr s
  | None => JNull
  end.

(** [str(v)]. *)
Definition py_str (pf : Platform) (v : json) : string :=
  match v with
  | JNull => "None"
  | JBool true => "True"
  | JBool false => "False"
  | JNum z => str_of_Z z
  | JStr s => s
  | JList _ | JDict _ => repr pf v
  end.

(** The value a [CharField] column receives for an attribute value
    ([CharField.get_prep_value]): [None] stays [None] (SQL NULL), a
    string is kept, anything else goes through [str]. *)
Definition to_char (pf : Platform) (v : json) : option string :=
  match v with
  | JNull => None
  | _ => Some (py_str pf v)
  end.

(** [int(v)]. *)
Definition py_int (pf : Platform) (v : json) : result Z :=
  match v with
  | JNum z => Ok z
  | JBool b => Ok (if b then 1 else 0)%Z
  | JStr s =>
      match int_of_str pf s with
      | Some z => Ok z
      | None => Raise (Exn ValueError "invalid literal for int()")
      end
  | _ => Raise (Exn TypeError "int() argument must be a string or a number")
  end.

(** [v[0]]. *)
Definition item0 (v : json) : result json :=
  match v with
  | JList (x :: _) => Ok x
  | JList [] => Raise (Exn IndexError "list index out of range")
  | JStr (String c _) => Ok (JStr (String c EmptyString))
  | JStr EmptyString => Raise (Exn IndexError "string index out of range")
  | JDict _ => Raise (Exn KeyError "0")
  | _ => Raise (Exn TypeError "object is not subscriptable")
  end.

(** [{**a, **b}] for dict bodies: the keys of [b] are set in order. *)
Definition dict_update (a b : list (string * json)) : list (string * json) :=
  fold_left (fun acc kv => assoc_set (fst kv) (snd kv) acc) b a.

(** [s.split(sep)[-1]] for a one-character separator. *)
Fixpoint last_segment (sep : ascii) (s : string) : string :=
  match s with
  | EmptyString => EmptyString
  | String a s' => if contains_char sep s then last_segment sep s' else s
  end.

(** [s.split(sep)[0]] for a one-character separator. *)
Fixpoint first_segment (sep : ascii) (s : string) : string :=
  match s with
  | EmptyString => EmptyString
  | String a s' =>
      if Ascii.eqb a sep then EmptyString
      else String a (first_segment sep s')
  end.

(** [s.split(sep)[-1]] for a separator of any length: what follows the
    last occurrence of [sep] found scanning from the left. *)
Fixpoint after_last_fuel (fuel : nat) (sep s : string) : string :=
  match fuel with
  | O => s
  | S fuel' =>
      match index 0 sep s with
      | None => s
      | Some i =>
          let k := (i + String.length sep)%nat in
          after_last_fuel fuel' sep (substring k (String.length s - k) s)
      end
  end.

Definition after_last (sep s : string) : string :=
  after_last_fuel (S (String.length s)) sep s.

(** A [str] method called on a value: only a string has it. *)
Definition as_str (v : json) : result string :=
  match v with
  | JStr s => Ok s
  | _ => Raise (Exn AttributeError "object has no such attribute")
  end.

(** [len(v)]. *)
Definition py_len (v : json) : result nat :=
  match v with
  | JStr s => Ok (String.length s)
  | JList l => Ok (List.length l)
  | JDict d => Ok (List.length d)
  | _ => Raise (Exn TypeError "object has no len()")
  end.

(** [v == s] for a string literal [s]. *)
Definition is_str (v : json) (s : string) : bool :=
  match v with
  | JStr x => x =? s
  | _ => false
  end.

(** [container[k] = v]. *)
Definition set_item (container : json) (k : string) (v : json)
  : result json :=
  match container with
  | JDict d => Ok (JDict (assoc_set k v d))
  | _ => Raise (Exn TypeError "object does not support item assignment")
  end.

End Py.
Export Py.

(* ===================================================================== *)
(** * models/contact.py *)
(* ===================================================================== *)

Module ContactModel.

(** [str.isdigit] on one character.  Below code point 256 the characters
    with Unicode property Numeric_Type Digit or Decimal are the ASCII
    digits and the superscripts U+00B2, U+00B3 and U+00B9. *)
Definition isdigit_char (c : ascii) : bool :=
  let n := N_of_ascii c in
  (((48 <=? n) && (n <=? 57)) || (n =? 178) || (n =? 179) || (n =? 185))%N.

Fixpoint all_digits (s : string) : bool :=
  match s with
  | EmptyString => true
  | String c s' => isdigit_char c && all_digits s'
  end.

(** [value.isdigit()]: every character is a digit and there is at least
    one character. *)
Definition str_isdigit (value : string) : bool :=
  match value with
  | EmptyString => false
  | _ => all_digits value
  end.

Definition validate_phone_number (value : string) : result unit :=
  if negb (str_isdigit value) then
    Raise (Exn ValidationError "Phone number must contain only digits")
  else if ((String.length value <? 7) || (15 <? String.length value))%nat then
    Raise (Exn ValidationError "Phone number must be between 7 and 15 digits")
  else if (String.length value <? 3)%nat then
    Raise (Exn ValidationError "Phone number must include country code")
  else Ok tt.

(** [\d] of a regular expression on one character: a decimal digit.
    Below code point 256 these are the ASCII digits. *)
Definition decimal_char (c : ascii) : bool :=
  let n := N_of_ascii c in
  ((48 <=? n) && (n <=? 57))%N.

Fixpoint all_decimal (s : string) : bool :=
  match s with
  | EmptyString => true
  | String c s' => decimal_char c && all_decimal s'
  end.

(** The string without the newline at its end, if it ends in one: in a
    regular expression [$] also matches just before that newline. *)
Fixpoint drop_final_newline (s : string) : string :=
  match s with
  | EmptyString => EmptyString
  | String c EmptyString =>
      if (N_of_ascii c =? 10)%N then EmptyString else s
  | String c s' => String c (drop_final_newline s')
  end.

(** [RegexValidator(regex=r'^\d+$')], the validator that precedes
    [validate_phone_number] in the validators of
    [Contact.phone_number]. *)
Definition regex_validator (value : string) : result unit :=
  match drop_final_newline value with
  | EmptyString =>
      Raise (Exn ValidationError "Phone number must contain only digits")
  | digits =>
      if all_decimal digits then Ok tt
      else Raise (Exn ValidationError
                      "Phone number must contain only digits")
  end.

(** The argument is a [str] or [None]; a falsy argument is handed back
    as it is. *)
Definition normalize_phone_number (phone_number : option string)
  : option string :=
  if negb (str_truthy phone_number) then phone_number
  else
    match phone_number with
    | Some s => Some (filter_chars isdigit_char s)
    | None => None
    end.

(** A row of the Contact table ([pk] is [None] until the first save). *)
Record Contact : Type := mkContact {
  contact_pk : option nat;
  contact_name : string;
  contact_phone_number : option string;
  contact_whatsapp_chat_id : option string
}.

Definition set_contact_phone (c : Contact) (p : option string) : Contact :=
  mkContact (contact_pk c) (contact_name c) p (contact_whatsapp_chat_id c).

Definition set_contact_pk (c : Contact) (pk : option nat) : Contact :=
  mkContact pk (contact_name c) (contact_phone_number c)
            (contact_whatsapp_chat_id c).

Definition table := list Contact.

Definition opt_nat_eqb (a b : option nat) : bool :=
  match a, b with
  | Some x, Some y => Nat.eqb x y
  | None, None => true
  | _, _ => false
  end.

Definition opt_str_eqb (a b : option string) : bool :=
  match a, b with
  | Some x, Some y => x =? y
  | None, None => true
  | _, _ => false
  end.

Definition fresh_pk (t : table) : nat :=
  S (fold_right (fun c acc =>
                   match contact_pk c with
                   | Some k => Nat.max k acc
                   | None => acc
                   end) 0 t).

(** [Contact.objects.filter(phone_number=p)]. *)
Definition filter_by_phone (t : table) (p : string) : list Contact :=
  filter (fun c => opt_str_eqb (contact_phone_number c) (Some p)) t.

(** [Contact.objects.get(phone_number=p)]. A lookup by [None] matches no
    row (SQL [= NULL]). *)
Definition objects_get (t : table) (p : option string) : result Contact :=
  match p with
  | None => Raise (Exn DoesNotExist "Contact matching query does not exist.")
  | Some p =>
      match filter_by_phone t p with
      | [] => Raise (Exn DoesNotExist "Contact matching query does not exist.")
      | [c] => Ok c
      | _ => Raise (Exn MultipleObjectsReturned
                        "get() returned more than one Contact")
      end
  end.

Fixpoint replace_row (c : Contact) (t : table) : table :=
  match t with
  | [] => [c]
  | r :: t' =>
      if opt_nat_eqb (contact_pk r) (contact_pk c) then c :: t'
      else r :: replace_row c t'
  end.

(** [r] is the stored row of the instance [c]. *)
Definition same_row (r c : Contact) : bool :=
  match contact_pk c with
  | Some k => opt_nat_eqb (contact_pk r) (Some k)
  | None => false
  end.

(** [models.Model.save]: no validator runs here (validators only run in
    [full_clean]); the database enforces NOT NULL and UNIQUE on
    [phone_number].  A row without primary key is inserted under a fresh
    one, a row with one replaces the stored row. *)
Definition model_save (c : Contact) (t : table) : result (Contact * table) :=
  match contact_phone_number c with
  | None => Raise (Exn IntegrityError "NOT NULL constraint failed")
  | Some p =>
      if existsb (fun r => negb (same_row r c)) (filter_by_phone t p)
      then Raise (Exn IntegrityError "UNIQUE constraint failed")
      else
        match contact_pk c with
        | None =>
            let c' := set_contact_pk c (Some (fresh_pk t)) in
            Ok (c', (t ++ [c'])%list)
        | Some _ => Ok (c, replace_row c t)
        end
  end.

(** [Contact.save]. *)
Definition save (self : Contact) (t : table) : result (Contact * table) :=
  let self := set_contact_phone self
                (normalize_phone_number (contact_phone_number self)) in
  model_save self t.

(** [Contact.find_by_phone]: the result is the contact or [None]. *)
Definition find_by_phone (t : table) (phone_number : option string)
  : result (option Contact) :=
  let normalized := normalize_phone_number phone_number in
  match objects_get t normalized with
  | Ok c => Ok (Some c)
  | Raise e =>
      if exn_kind_eqb (exn_class e) DoesNotExist then Ok None else Raise e
  end.

End ContactModel.

(* ===================================================================== *)
(** * Effects: state that survives exceptions *)
(* ===================================================================== *)

Module Effects.

(** A computation over a state [S] returns a value or raises, and in
    both cases leaves a state behind. *)
Definition M (S A : Type) : Type := S -> result A * S.

Definition ret {S A} (a : A) : M S A := fun s => (Ok a, s).

Definition raise {S A} (e : exn) : M S A := fun s => (Raise e, s).

Definition bind {S A B} (c : M S A) (k : A -> M S B) : M S B :=
  fun s =>
    match c s with
    | (Ok a, s') => k a s'
    | (Raise e, s') => (Raise e, s')
    end.

(** [try: c  except Exception as e: handler e]. *)
Definition try_except {S A} (c : M S A) (handler : exn -> M S A) : M S A :=
  fun s =>
    match c s with
    | (Ok a, s') => (Ok a, s')
    | (Raise e, s') => handler e s'
    end.

(** [try: c  except K as e: handler e], other exceptions pass. *)
Definition try_except_only {S A} (k : exn_kind) (c : M S A)
           (handler : exn -> M S A) : M S A :=
  try_except c (fun e => if exn_kind_eqb (exn_class e) k then handler e
                         else raise e).

(** [try: c  except (K1, K2, ...) as e: handler e]. *)
Definition try_except_kinds {S A} (ks : list exn_kind) (c : M S A)
           (handler : exn -> M S A) : M S A :=
  try_except c (fun e => if existsb (exn_kind_eqb (exn_class e)) ks
                         then handler e else raise e).

Definition get_state {S} : M S S := fun s => (Ok s, s).

Definition modify {S} (f : S -> S) : M S unit := fun s => (Ok tt, f s).

(** A pure fallible step. *)
Definition lift_result {S A} (r : result A) : M S A := fun s => (r, s).

(** Run a computation on a component of a larger state. *)
Definition zoom {S T A} (proj : T -> S) (inj : S -> T -> T) (c : M S A)
  : M T A :=
  fun t => let (r, s') := c (proj t) in (r, inj s' t).

Declare Scope eff_scope.
Delimit Scope eff_scope with eff.
Notation "x <- c ;; k" := (bind c (fun x => k))
  (at level 100, c at next level, right associativity) : eff_scope.
Notation "c ;; k" := (bind c (fun _ => k))
  (at level 100, right associativity) : eff_scope.

End Effects.
Export Effects.

(* ===================================================================== *)
(** * The outside world: logger and HTTP *)
(* ===================================================================== *)

Module Outside.

Inductive log_level : Type := INFO | WARNING | ERROR.

(** One record per logging call: the level and the constant part of the
    message (interpolated values are left out). [logger.exception] logs
    at level [ERROR]. *)
Definition log_record : Type := (log_level * string)%type.

(** A header value is a literal, or Basic credentials, which stand for
    ["Basic " + base64(credentials)]. *)
Inductive header_value : Type :=
| Literal (s : string)
| Basic (credentials : string)
| Bearer (token : string).

Record http_request : Type := mkRequest {
  req_method : string;
  req_url : string;
  req_headers : list (string * header_value);
  req_json : option json
}.

(** What [requests.get/post/put] does: it returns a response (status
    code, text, and the body parsed as JSON when it parses) or raises. *)
Record http_response : Type := mkResponse {
  status_code : Z;
  text : string;
  parsed : option json
}.

Inductive http_outcome : Type :=
| Responds (r : http_response)
| Fails (e : exn).

(** The network answers a request knowing the requests made before. *)
Definition network : Type := list http_request -> http_request -> http_outcome.

(** The part of the state every component shares: the log and the
    requests sent so far, oldest first. *)
Record Wire : Type := mkWire {
  wire_log : list log_record;
  wire_requests : list http_request
}.

Definition logger (lvl : log_level) (msg : string) : M Wire unit :=
  modify (fun w => mkWire (wire_log w ++ [(lvl, msg)])%list (wire_requests w)).

Definition requests_send (net : network) (r : http_request)
  : M Wire http_response :=
  fun w =>
    let w' := mkWire (wire_log w) (wire_requests w ++ [r])%list in
    match net (wire_requests w) r with
    | Responds resp => (Ok resp, w')
    | Fails e => (Raise e, w')
    end.

(** [response.json()]. *)
Definition response_json {S} (resp : http_response) : M S json :=
  match parsed resp with
  | Some v => ret v
  | None => raise (Exn JSONDecodeError "Expecting value")
  end.

End Outside.
Export Outside.

(* ===================================================================== *)
(** * services/waha.py *)
(* ===================================================================== *)

Module Waha.
Local Open Scope eff_scope.

Record WAHAService : Type := mkWAHAService {
  endpoint : string;
  username : string;
  password : string;
  session : string
}.

(** [WAHAService.__init__]. *)
Definition init (endpoint username password session : string)
  : WAHAService :=
  mkWAHAService (rstrip_char "/" endpoint) username password session.

Definition _get_auth_header (self : WAHAService) : header_value :=
  Basic (username self ++ ":" ++ password self).

Definition error_dict (reason : string) : json :=
  JDict [("success", JBool false); ("error", JStr reason)].

Section Client.
Variable net : network.

Definition _make_request (self : WAHAService) (endpoint_ : string)
           (method : string) (data : option json) : M Wire json :=
  let url := endpoint self ++ "/api/" ++ endpoint_ in
  let headers := [("Content-Type", Literal "application/json");
                  ("Authorization", _get_auth_header self)] in
  try_except
    (response <-
       (if method =? "GET" then
          requests_send net (mkRequest "GET" url headers None)
        else if method =? "POST" then
          requests_send net (mkRequest "POST" url headers data)
        else if method =? "PUT" then
          requests_send net (mkRequest "PUT" url headers data)
        else raise (Exn ValueError ("Unsupported HTTP method: " ++ method)));;
     if ((status_code response =? 200) || (status_code response =? 201))%Z
     then response_json response
     else
       (logger ERROR "WAHA API error";;
        ret (error_dict ("HTTP " ++ str_of_Z (status_code response)
                                 ++ ": " ++ text response))))
    (fun e =>
       logger ERROR "Error making WAHA API request";;
       ret (error_dict (exn_text e))).

(** The chat id every send method computes first: a bare number gets
    ["+"] and blanks removed and ["@c.us"] appended. *)
Definition format_chat_id (chat_id : option string) : option string :=
  match chat_id with
  | Some c =>
      if nonempty c && negb (contains_char "@" c)
      then Some (remove_char " " (remove_char "+" c) ++ "@c.us")
      else chat_id
  | None => None
  end.

(** [s or default] for an optional string. *)
Definition str_or (s : option string) (default : string) : string :=
  match s with
  | Some s => if s =? "" then default else s
  | None => default
  end.

Definition send_text (self : WAHAService) (chat_id : option string)
           (text_ : string) (link_preview : bool) : M Wire json :=
  let chat_id := format_chat_id chat_id in
  let data := JDict [("chatId", json_of_opt_str chat_id);
                     ("text", JStr text_);
                     ("linkPreview", JBool link_preview);
                     ("session", JStr (session self))] in
  _make_request self "sendText" "POST" (Some data).

Definition send_image (self : WAHAService) (chat_id : option string)
           (image_url : string) (caption : option string) : M Wire json :=
  let chat_id := format_chat_id chat_id in
  let data := JDict [("chatId", json_of_opt_str chat_id);
                     ("image", JStr image_url);
                     ("caption", JStr (str_or caption ""));
                     ("session", JStr (session self))] in
  _make_request self "sendImage" "POST" (Some data).

Definition send_document (self : WAHAService) (chat_id : option string)
           (document_url : string) (filename : option string)
  : M Wire json :=
  let chat_id := format_chat_id chat_id in
  let data := JDict [("chatId", json_of_opt_str chat_id);
                     ("document", JStr document_url);
                     ("filename", JStr (str_or filename "document"));
                     ("session", JStr (session self))] in
  _make_request self "sendDocument" "POST" (Some data).

Definition send_video (self : WAHAService) (chat_id : option string)
           (video_url : string) (caption : option string) : M Wire json :=
  let chat_id := format_chat_id chat_id in
  let data := JDict [("chatId", json_of_opt_str chat_id);
                     ("video", JStr video_url);
                     ("caption", JStr (str_or caption ""));
                     ("session", JStr (session self))] in
  _make_request self "sendVideo" "POST" (Some data).

Definition send_audio (self : WAHAService) (chat_id : option string)
           (audio_url : string) : M Wire json :=
  let chat_id := format_chat_id chat_id in
  let data := JDict [("chatId", json_of_opt_str chat_id);
                     ("audio", JStr audio_url);
                     ("session", JStr (session self))] in
  _make_request self "sendAudio" "POST" (Some data).

Definition configure_webhooks (self : WAHAService) (webhook_url : string)
           (events : option (list string)) : M Wire json :=
  let events := match events with
                | None => ["message"]
                | Some ev => ev
                end in
  let data :=
    JDict [("config",
            JDict [("webhooks",
                    JList [JDict [("url", JStr webhook_url);
                                  ("events", JList (map JStr events))]])])]
  in
  _make_request self ("sessions/" ++ session self) "PUT" (Some data).

End Client.

End Waha.

(** The methods of [WAHAService] that query and control the session. *)
Module WahaSession.
Import Waha.

Section Client.
Variable net : network.

Definition get_chats (self : WAHAService) : M Wire json :=
  _make_request net self ("getChats?session=" ++ session self) "GET" None.

Definition get_contacts (self : WAHAService) : M Wire json :=
  _make_request net self ("getContacts?session=" ++ session self) "GET" None.

(** The chat id goes out as it was given. *)
Definition get_profile_picture (self : WAHAService) (chat_id : json)
  : M Wire json :=
  let data := JDict [("chatId", chat_id);
                     ("session", JStr (session self))] in
  _make_request net self "getProfilePicture" "POST" (Some data).

Definition get_session_status (self : WAHAService) : M Wire json :=
  _make_request net self ("sessions/" ++ session self ++ "/status") "GET"
                None.

Definition start_session (self : WAHAService) : M Wire json :=
  _make_request net self ("sessions/" ++ session self ++ "/start") "POST"
                None.

Definition stop_session (self : WAHAService) : M Wire json :=
  _make_request net self ("sessions/" ++ session self ++ "/stop") "POST"
                None.

End Client.

End WahaSession.

(* ===================================================================== *)
(** * The stored entities (models/phone_number.py, models/message.py) *)
(* ===================================================================== *)

Module Store.
Import ContactModel.

Record PhoneNumber : Type := mkPhoneNumber {
  pn_pk : nat;
  display_name : string;
  phone_number : string;
  api_type : string;
  phone_number_id : option string;
  business_account_id : string;
  access_token : string;
  waha_endpoint : option string;
  waha_username : option string;
  waha_password : option string;
  waha_session : string;
  is_active : bool;
  is_configured : bool;
  verify_token : string;
  webhook_token : string
}.

Definition is_waha_api (self : PhoneNumber) : bool := api_type self =? "waha".

Definition is_official_api (self : PhoneNumber) : bool :=
  api_type self =? "official".

(** Of a template only the name takes part in sending. *)
Record Template : Type := mkTemplate { template_name : string }.

(** A Message instance, in memory or as a table row.  [msg_phone_number]
    is the related row the NOT NULL foreign key points to;
    [msg_media_file] is the name of the stored file, [None] when there is
    none. *)
Record Message : Type := mkMessage {
  msg_pk : option nat;
  msg_phone_number : PhoneNumber;
  msg_contact : option nat;
  msg_template : option Template;
  msg_template_variables : json;
  msg_message_id : option string;
  msg_conversation_id : option string;
  msg_from_number : option string;
  msg_to_number : option string;
  msg_direction : string;
  msg_message_type : string;
  msg_content : option string;
  msg_media_file : option string;
  msg_media_id : option string;
  msg_metadata : json;
  msg_timestamp : option Z;
  msg_status : string;
  msg_raw_message : json;
  msg_delivered_at : option Z;
  msg_read_at : option Z;
  msg_error_code : option string;
  msg_error_message : option string
}.

Definition set_pk (v : option nat) (m : Message) : Message :=
  mkMessage v (msg_phone_number m) (msg_contact m) (msg_template m)
    (msg_template_variables m) (msg_message_id m) (msg_conversation_id
    m) (msg_from_number m) (msg_to_number m) (msg_direction m)
    (msg_message_type m) (msg_content m) (msg_media_file m)
    (msg_media_id m) (msg_metadata m) (msg_timestamp m) (msg_status m)
    (msg_raw_message m) (msg_delivered_at m) (msg_read_at m)
    (msg_error_code m) (msg_error_message m).

Definition set_message_id (v : option string) (m : Message) : Message :=
  mkMessage (msg_pk m) (msg_phone_number m) (msg_contact m)
    (msg_template m) (msg_template_variables m) v (msg_conversation_id
    m) (msg_from_number m) (msg_to_number m) (msg_direction m)
    (msg_message_type m) (msg_content m) (msg_media_file m)
    (msg_media_id m) (msg_metadata m) (msg_timestamp m) (msg_status m)
    (msg_raw_message m) (msg_delivered_at m) (msg_read_at m)
    (msg_error_code m) (msg_error_message m).

Definition set_conversation_id (v : option string) (m : Message) : Message :=
  mkMessage (msg_pk m) (msg_phone_number m) (msg_contact m)
    (msg_template m) (msg_template_variables m) (msg_message_id m) v
    (msg_from_number m) (msg_to_number m) (msg_direction m)
    (msg_message_type m) (msg_content m) (msg_media_file m)
    (msg_media_id m) (msg_metadata m) (msg_timestamp m) (msg_status m)
    (msg_raw_message m) (msg_delivered_at m) (msg_read_at m)
    (msg_error_code m) (msg_error_message m).

Definition set_media_file (v : option string) (m : Message) : Message :=
  mkMessage (msg_pk m) (msg_phone_number m) (msg_contact m)
    (msg_template m) (msg_template_variables m) (msg_message_id m)
    (msg_conversation_id m) (msg_from_number m) (msg_to_number m)
    (msg_direction m) (msg_message_type m) (msg_content m) v
    (msg_media_id m) (msg_metadata m) (msg_timestamp m) (msg_status m)
    (msg_raw_message m) (msg_delivered_at m) (msg_read_at m)
    (msg_error_code m) (msg_error_message m).

Definition set_metadata (v : json) (m : Message) : Message :=
  mkMessage (msg_pk m) (msg_phone_number m) (msg_contact m)
    (msg_template m) (msg_template_variables m) (msg_message_id m)
    (msg_conversation_id m) (msg_from_number m) (msg_to_number m)
    (msg_direction m) (msg_message_type m) (msg_content m)
    (msg_media_file m) (msg_media_id m) v (msg_timestamp m) (msg_status
    m) (msg_raw_message m) (msg_delivered_at m) (msg_read_at m)
    (msg_error_code m) (msg_error_message m).

Definition set_status (v : string) (m : Message) : Message :=
  mkMessage (msg_pk m) (msg_phone_number m) (msg_contact m)
    (msg_template m) (msg_template_variables m) (msg_message_id m)
    (msg_conversation_id m) (msg_from_number m) (msg_to_number m)
    (msg_direction m) (msg_message_type m) (msg_content m)
    (msg_media_file m) (msg_media_id m) (msg_metadata m) (msg_timestamp
    m) v (msg_raw_message m) (msg_delivered_at m) (msg_read_at m)
    (msg_error_code m) (msg_error_message m).

Definition set_delivered_at (v : option Z) (m : Message) : Message :=
  mkMessage (msg_pk m) (msg_phone_number m) (msg_contact m)
    (msg_template m) (msg_template_variables m) (msg_message_id m)
    (msg_conversation_id m) (msg_from_number m) (msg_to_number m)
    (msg_direction m) (msg_message_type m) (msg_content m)
    (msg_media_file m) (msg_media_id m) (msg_metadata m) (msg_timestamp
    m) (msg_status m) (msg_raw_message m) v (msg_read_at m)
    (msg_error_code m) (msg_error_message m).

Definition set_read_at (v : option Z) (m : Message) : Message :=
  mkMessage (msg_pk m) (msg_phone_number m) (msg_contact m)
    (msg_template m) (msg_template_variables m) (msg_message_id m)
    (msg_conversation_id m) (msg_from_number m) (msg_to_number m)
    (msg_direction m) (msg_message_type m) (msg_content m)
    (msg_media_file m) (msg_media_id m) (msg_metadata m) (msg_timestamp
    m) (msg_status m) (msg_raw_message m) (msg_delivered_at m) v
    (msg_error_code m) (msg_error_message m).

Definition set_error_code (v : option string) (m : Message) : Message :=
  mkMessage (msg_pk m) (msg_phone_number m) (msg_contact m)
    (msg_template m) (msg_template_variables m) (msg_message_id m)
    (msg_conversation_id m) (msg_from_number m) (msg_to_number m)
    (msg_direction m) (msg_message_type m) (msg_content m)
    (msg_media_file m) (msg_media_id m) (msg_metadata m) (msg_timestamp
    m) (msg_status m) (msg_raw_message m) (msg_delivered_at m)
    (msg_read_at m) v (msg_error_message m).

Definition set_error_message (v : option string) (m : Message) : Message :=
  mkMessage (msg_pk m) (msg_phone_number m) (msg_contact m)
    (msg_template m) (msg_template_variables m) (msg_message_id m)
    (msg_conversation_id m) (msg_from_number m) (msg_to_number m)
    (msg_direction m) (msg_message_type m) (msg_content m)
    (msg_media_file m) (msg_media_id m) (msg_metadata m) (msg_timestamp
    m) (msg_status m) (msg_raw_message m) (msg_delivered_at m)
    (msg_read_at m) (msg_error_code m) v.


(** The columns [save(update_fields=...)] is called with. *)
Inductive field : Type :=
| F_status
| F_message_id
| F_metadata
| F_delivered_at
| F_read_at
| F_conversation_id
| F_error_code
| F_error_message.

(** Copy one column of the instance [src] into the row [dst]. *)
Definition copy_field (src : Message) (f : field) (dst : Message) : Message :=
  match f with
  | F_status => set_status (msg_status src) dst
  | F_message_id => set_message_id (msg_message_id src) dst
  | F_metadata => set_metadata (msg_metadata src) dst
  | F_delivered_at => set_delivered_at (msg_delivered_at src) dst
  | F_read_at => set_read_at (msg_read_at src) dst
  | F_conversation_id => set_conversation_id (msg_conversation_id src) dst
  | F_error_code => set_error_code (msg_error_code src) dst
  | F_error_message => set_error_message (msg_error_message src) dst
  end.

Definition copy_fields (src : Message) (fs : list field) (dst : Message)
  : Message :=
  fold_left (fun row f => copy_field src f row) fs dst.

Definition is_message_id (f : field) : bool :=
  match f with
  | F_message_id => true
  | _ => false
  end.

Definition has_pk (pk : nat) (r : Message) : bool :=
  opt_nat_eqb (msg_pk r) (Some pk).

(** [Message.objects.filter(message_id=mid)]. *)
Definition filter_by_message_id (rows : list Message) (mid : string)
  : list Message :=
  filter (fun r => opt_str_eqb (msg_message_id r) (Some mid)) rows.

(** [instance.save(update_fields=fs)]: an UPDATE of the named columns of
    the row with the instance's primary key.  Django raises [ValueError]
    for an instance without primary key and [DatabaseError] when no row
    was updated; the database raises [IntegrityError] when [message_id]
    would become NULL or stop being unique. *)
Definition save_update_fields (fs : list field) (inst : Message)
           (rows : list Message) : result (list Message) :=
  match msg_pk inst with
  | None =>
      Raise (Exn ValueError
                 "Cannot force an update in save() with no primary key.")
  | Some pk =>
      if negb (existsb (has_pk pk) rows) then
        Raise (Exn DatabaseError
                   "Save with update_fields did not affect any rows.")
      else if existsb is_message_id fs then
        match msg_message_id inst with
        | None => Raise (Exn IntegrityError "NOT NULL constraint failed")
        | Some mid =>
            if existsb (fun r => negb (has_pk pk r))
                       (filter_by_message_id rows mid)
            then Raise (Exn IntegrityError "UNIQUE constraint failed")
            else Ok (map (fun r => if has_pk pk r
                                   then copy_fields inst fs r else r) rows)
        end
      else Ok (map (fun r => if has_pk pk r
                             then copy_fields inst fs r else r) rows)
  end.

Definition fresh_message_pk (rows : list Message) : nat :=
  S (fold_right (fun r acc =>
                   match msg_pk r with
                   | Some k => Nat.max k acc
                   | None => acc
                   end) 0 rows).

(** [Message.objects.create(...)] for the instance [m] built from the
    keyword arguments: an INSERT under a fresh primary key.  The NOT NULL
    columns [message_id], [from_number] and [to_number] and the
    uniqueness of [message_id] are enforced by the database. *)
Definition objects_create (m : Message) (rows : list Message)
  : result (Message * list Message) :=
  match msg_message_id m, msg_from_number m, msg_to_number m with
  | Some mid, Some _, Some _ =>
      match filter_by_message_id rows mid with
      | [] =>
          let m' := set_pk (Some (fresh_message_pk rows)) m in
          Ok (m', (rows ++ [m'])%list)
      | _ => Raise (Exn IntegrityError "UNIQUE constraint failed")
      end
  | _, _, _ => Raise (Exn IntegrityError "NOT NULL constraint failed")
  end.

(** [Message.objects.get(message_id=mid)]. *)
Definition objects_get_by_message_id (rows : list Message) (mid : string)
  : result Message :=
  match filter_by_message_id rows mid with
  | [] => Raise (Exn DoesNotExist "Message matching query does not exist.")
  | [m] => Ok m
  | _ => Raise (Exn MultipleObjectsReturned
                    "get() returned more than one Message")
  end.

(** The database, the log and the network traffic. *)
Record World : Type := mkWorld {
  w_phone_numbers : list PhoneNumber;
  w_contacts : ContactModel.table;
  w_messages : list Message;
  w_wire : Wire
}.

Definition set_w_messages (rows : list Message) (w : World) : World :=
  mkWorld (w_phone_numbers w) (w_contacts w) rows (w_wire w).

Definition set_w_contacts (t : ContactModel.table) (w : World) : World :=
  mkWorld (w_phone_numbers w) t (w_messages w) (w_wire w).

Definition set_w_wire (wire : Wire) (w : World) : World :=
  mkWorld (w_phone_numbers w) (w_contacts w) (w_messages w) wire.

(** Wire effects seen from the world. *)
Definition on_wire {A} (c : M Wire A) : M World A :=
  zoom w_wire set_w_wire c.

End Store.
Export Store.

(* ===================================================================== *)
(** * Outbound dispatch (models/phone_number.py, models/message.py,
      signals/send_outgoing_message.py) *)
(* ===================================================================== *)

Module Dispatch.
Import ContactModel Waha.
Local Open Scope eff_scope.

(** The Message object the caller and the callee share ([instance],
    [message_instance], [self]) next to the world. Assignments to its
    attributes stay in memory until a save writes them. *)
Record Frame : Type := mkFrame {
  instance : Message;
  world : World
}.

Definition on_world {A} (c : M World A) : M Frame A :=
  zoom world (fun w fr => mkFrame (instance fr) w) c.

Definition log (lvl : log_level) (msg : string) : M Frame unit :=
  on_world (on_wire (logger lvl msg)).

(** [instance.attr = v]. *)
Definition assign (setter : Message -> Message) : M Frame unit :=
  modify (fun fr => mkFrame (setter (instance fr)) (world fr)).

(** [instance.save(update_fields=fs)]. *)
Definition save (fs : list field) : M Frame unit :=
  fun fr =>
    match save_update_fields fs (instance fr) (w_messages (world fr)) with
    | Ok rows => (Ok tt, mkFrame (instance fr) (set_w_messages rows (world fr)))
    | Raise e => (Raise e, fr)
    end.

Section Sending.
Variable pf : Platform.
Variable net : network.

(** [PhoneNumber._send_official_api_message]. [with_instance] tells
    that the [instance] argument is the shared Message (it is in every
    call of this module) and not [None]. *)
Definition _send_official_api_message (self : PhoneNumber)
           (to_number message_text template_name : option string)
           (template_params : json) (media_url media_type : option string)
           (with_instance : bool) : M Frame json :=
  if negb (nonempty (access_token self)) then
    raise (Exn ValueError "Access token is required to send messages")
  else
    let api_url := WHATSAPP_API_URL pf ++ "/"
                   ++ opt_str_text (phone_number_id self) ++ "/messages" in
    let headers := [("Authorization", Bearer (access_token self));
                    ("Content-Type", Literal "application/json")] in
    let payload := [("messaging_product", JStr "whatsapp");
                    ("recipient_type", JStr "individual");
                    ("to", json_of_opt_str to_number)] in
    payload <-
      (if str_truthy message_text then
         ret (assoc_set "text"
                        (JDict [("body", json_of_opt_str message_text)])
                        (assoc_set "type" (JStr "text") payload))
       else if str_truthy template_name then
         let payload := assoc_set "type" (JStr "template") payload in
         if negb (str_truthy template_name) then
           raise (Exn ValueError "Template name is required")
         else
           template_data <-
             (match py_or template_params (JDict []) with
              | JDict params =>
                  ret (dict_update
                         [("name", json_of_opt_str template_name)] params)
              | _ => raise (Exn TypeError
                                "argument after ** must be a mapping")
              end);;
           ret (assoc_set "template" (JDict template_data) payload)
       else if str_truthy media_url && str_truthy media_type then
         let payload := assoc_set "type" (json_of_opt_str media_type)
                                  payload in
         let media_payload := [("link", json_of_opt_str media_url)] in
         let media_payload :=
           if existsb (String.eqb (opt_str_text media_type))
                      ["image"; "video"; "document"]
              && str_truthy message_text
           then assoc_set "caption" (json_of_opt_str message_text)
                          media_payload
           else media_payload in
         let media_payload :=
           if (opt_str_text media_type =? "document")
              && str_truthy media_url
           then assoc_set "filename"
                          (JStr (last_segment "/" (opt_str_text media_url)))
                          media_payload
           else media_payload in
         ret (assoc_set (opt_str_text media_type) (JDict media_payload)
                        payload)
       else
         raise (Exn ValueError
                    "Either message_text, template_name, or media_url must be provided"));;
    try_except
      (response <- on_world (on_wire
                     (requests_send net
                        (mkRequest "POST" api_url headers
                                   (Some (JDict payload)))));;
       response_data <- response_json response;;
       if (status_code response =? 200)%Z then
         (if with_instance then
            messages <- lift_result
                          (get_default response_data "messages"
                                       (JList [JDict []]));;
            first <- lift_result (item0 messages);;
            id <- lift_result (get_default first "id" (JStr ""));;
            assign (set_message_id (to_char pf id));;
            assign (set_status "sent");;
            save [F_message_id; F_status]
          else ret tt);;
         ret response_data
       else
         (log ERROR "Failed to send WhatsApp message";;
          (if with_instance then
             assign (set_status "failed");;
             save [F_status]
           else ret tt);;
          error <- lift_result (get_default response_data "error" (JDict []));;
          message <- lift_result
                       (get_default error "message" (JStr "Unknown error"));;
          raise (Exn PlainException
                     ("Failed to send WhatsApp message: "
                        ++ py_str pf message))))
      (fun e =>
         log ERROR "Error sending WhatsApp message";;
         (if with_instance then
            assign (set_status "failed");;
            save [F_status]
          else ret tt);;
         raise e).

(** [a and b and c] being truthy for the three WAHA credentials. *)
Definition waha_credentials (self : PhoneNumber) : bool :=
  str_truthy (waha_endpoint self) && str_truthy (waha_username self)
  && str_truthy (waha_password self).

(** [Contact.objects.get(phone_number=to_number)] in the world. *)
Definition contact_get (to_number : option string) : M Frame Contact :=
  fun fr => (ContactModel.objects_get (w_contacts (world fr)) to_number, fr).

(** [a or b] on optional strings. *)
Definition opt_str_or (a b : option string) : option string :=
  if str_truthy a then a else b.

(** [PhoneNumber._send_waha_api_message]. *)
Definition _send_waha_api_message (self : PhoneNumber)
           (to_number message_text template_name : option string)
           (template_params : json) (media_url media_type : option string)
           (with_instance : bool) : M Frame json :=
  if negb (waha_credentials self) then
    raise (Exn ValueError
               "WAHA API endpoint, username and password are required")
  else
    chat_id <-
      try_except_only DoesNotExist
        (contact <- contact_get to_number;;
         ret (opt_str_or (contact_whatsapp_chat_id contact) to_number))
        (fun _ => ret to_number);;
    let waha_service :=
      Waha.init (opt_str_text (waha_endpoint self))
                (opt_str_text (waha_username self))
                (opt_str_text (waha_password self))
                (waha_session self) in
    try_except
      (response_data <-
         (if str_truthy message_text then
            on_world (on_wire (send_text net waha_service chat_id
                                         (opt_str_text message_text) true))
          else if str_truthy media_url && str_truthy media_type then
            let url := opt_str_text media_url in
            let kind := opt_str_text media_type in
            if kind =? "image" then
              on_world (on_wire (send_image net waha_service chat_id url None))
            else if kind =? "document" then
              on_world (on_wire (send_document net waha_service chat_id url
                                               None))
            else if kind =? "video" then
              on_world (on_wire (send_video net waha_service chat_id url None))
            else if kind =? "audio" then
              on_world (on_wire (send_audio net waha_service chat_id url))
            else
              raise (Exn ValueError
                         ("Unsupported media type for WAHA API: " ++ kind))
          else
            raise (Exn ValueError
                       "WAHA API only supports text and media messages"));;
       success <- lift_result (get response_data "success");;
       if truthy success then
         (if with_instance then
            id <- lift_result (get_default response_data "id" (JStr ""));;
            assign (set_message_id (to_char pf id));;
            assign (set_status "sent");;
            save [F_message_id; F_status]
          else ret tt);;
         ret response_data
       else
         (log ERROR "Failed to send WAHA message";;
          (if with_instance then
             assign (set_status "failed");;
             save [F_status]
           else ret tt);;
          error <- lift_result
                     (get_default response_data "error"
                                  (JStr "Unknown error"));;
          raise (Exn PlainException
                     ("Failed to send WAHA message: " ++ py_str pf error))))
      (fun e =>
         log ERROR "Error sending WAHA message";;
         (if with_instance then
            assign (set_status "failed");;
            save [F_status]
          else ret tt);;
         raise e).

(** [PhoneNumber._send_message_without_record]. *)
Definition _send_message_without_record (self : PhoneNumber)
           (to_number message_text template_name : option string)
           (template_params : json) (media_url media_type : option string)
           (with_instance : bool) : M Frame json :=
  if is_official_api self then
    _send_official_api_message self to_number message_text template_name
                               template_params media_url media_type
                               with_instance
  else if is_waha_api self then
    _send_waha_api_message self to_number message_text template_name
                           template_params media_url media_type
                           with_instance
  else raise (Exn ValueError ("Unsupported API type: " ++ api_type self)).

(** The three early exits and the unsupported cases share these three
    statements. *)
Definition fail_message (why : string) : M Frame bool :=
  log WARNING why;;
  assign (set_status "failed");;
  save [F_status];;
  ret false.

(** [PhoneNumber.process_message_for_sending]. *)
Definition process_message_for_sending (self : PhoneNumber) : M Frame bool :=
  if negb (is_active self) then
    fail_message "Cannot send message: Phone number is not active"
  else if is_official_api self && negb (nonempty (access_token self)) then
    fail_message "Cannot send message: Phone number has no access token"
  else if is_waha_api self && negb (waha_credentials self) then
    fail_message "Cannot send message: Phone number missing WAHA API credentials"
  else
    try_except
      (fr <- get_state;;
       let message_instance := instance fr in
       if msg_message_type message_instance =? "text" then
         _send_message_without_record
           self (msg_to_number message_instance)
           (msg_content message_instance) None JNull None None true;;
         ret true
       else if msg_message_type message_instance =? "template" then
         if is_waha_api self then
           fail_message
             "Cannot send template message: WAHA API doesn't support templates"
         else
           template_name <-
             (match msg_template message_instance with
              | Some t => ret (template_name t)
              | None =>
                  raise (Exn AttributeError
                             "'NoneType' object has no attribute 'name'")
              end);;
           let template_params := msg_template_variables message_instance in
           if template_name =? "" then
             fail_message
               "Cannot send template message: No template name provided"
           else
             _send_message_without_record
               self (msg_to_number message_instance) None
               (Some template_name) template_params None None true;;
             ret true
       else if existsb (String.eqb (msg_message_type message_instance))
                       ["image"; "audio"; "video"; "document"] then
         _send_message_without_record
           self (msg_to_number message_instance) None None JNull
           (match msg_media_file message_instance with
            | Some name => if name =? "" then None
                           else Some (storage_url pf name)
            | None => None
            end)
           (Some (msg_message_type message_instance)) true;;
         ret true
       else
         fail_message "Unsupported message type")
      (fun e =>
         log ERROR "Error sending message";;
         assign (set_status "failed");;
         save [F_status];;
         ret false).

(** [Message.retry_send]; [self] is the shared instance. A model
    instance is always truthy, so the second early exit is never
    taken. *)
Definition retry_send : M Frame bool :=
  self <- get_state;;
  if negb (msg_direction (instance self) =? "outgoing") then
    log WARNING "Cannot retry message: Not an outgoing message";;
    ret false
  else if negb true then
    log WARNING "Cannot retry message: No phone number associated";;
    ret false
  else
    try_except
      (assign (set_status "pending");;
       save [F_status];;
       process_message_for_sending (msg_phone_number (instance self)))
      (fun e =>
         log ERROR "Error retrying message";;
         assign (set_status "failed");;
         save [F_status];;
         ret false).


End Sending.

End Dispatch.

(* ===================================================================== *)
(** * Creating outgoing messages (models/message.py,
      models/phone_number.py) *)
(* ===================================================================== *)

Module Outgoing.
Import ContactModel Dispatch.
Local Open Scope eff_scope.

(** [Contact.objects.get(phone_number=p)] in the world. *)
Definition contacts_get (p : option string) : M World Contact :=
  w <- get_state;;
  lift_result (ContactModel.objects_get (w_contacts w) p).

(** [Contact.objects.create(phone_number=p, name=name)]: the instance is
    saved through [Contact.save], which normalises the number. *)
Definition contacts_create (p : option string) (name : string)
  : M World Contact :=
  fun w =>
    match ContactModel.save (mkContact None name p None) (w_contacts w) with
    | Ok (c, t) => (Ok c, set_w_contacts t w)
    | Raise e => (Raise e, w)
    end.

(** [Contact.objects.get_or_create(phone_number=p, defaults={'name':
    name})] as Django defines it: look the row up, create it when there
    is none, and look it up once more when the creation runs into an
    [IntegrityError], which is raised again when that lookup finds
    nothing. *)
Definition contacts_get_or_create (p : option string) (name : string)
  : M World (Contact * bool) :=
  try_except_only DoesNotExist
    (c <- contacts_get p;; ret (c, false))
    (fun _ =>
       try_except_only IntegrityError
         (c <- contacts_create p name;; ret (c, true))
         (fun e =>
            try_except_only DoesNotExist
              (c <- contacts_get p;; ret (c, false))
              (fun _ => raise e))).

Section Creating.
Variable pf : Platform.
Variable net : network.





(** [PhoneNumber.send_message]. The call of
    [Message.create_outgoing_message] passes the keyword [media_url],
    which that method does not have: Python raises [TypeError] when it
    binds the arguments, before the body of the method runs. *)
Definition send_message (self : PhoneNumber) (to_number : option string)
           (message_text template_name : option string)
           (template_params : json) (media_url media_type : option string)
           (template : option Template) : M World Message :=
  if is_official_api self && negb (nonempty (access_token self)) then
    raise (Exn ValueError
               "Access token is required to send messages with official WhatsApp API")
  else if is_waha_api self && negb (waha_credentials self) then
    raise (Exn ValueError
               "WAHA API endpoint, username and password are required")
  else
    found <- contacts_get_or_create to_number (opt_str_text to_number);;
    raise (Exn TypeError
               "create_outgoing_message() got an unexpected keyword argument 'media_url'").

End Creating.

End Outgoing.

(* ===================================================================== *)
(** * HTTP views: requests and responses *)
(* ===================================================================== *)

Module Http.

Inductive content : Type :=
| Text (s : string)
| Json (v : json).

(** [HttpResponse(content, status=...)] and [JsonResponse]. *)
Record HttpResponse : Type := mkHttpResponse {
  resp_content : content;
  resp_status : Z
}.

(** A request: the method, the query parameters in the order of the
    query string, and what [json.loads(request.body)] gives: the document,
    or the exception that raises ([JSONDecodeError] for text that is not
    JSON, [UnicodeDecodeError] for bytes that are not UTF-8,
    [RecursionError] for a document nested deeper than the interpreter
    allows, or what the read of the body itself raises). *)
Record HttpRequest : Type := mkHttpRequest {
  method : string;
  GET : list (string * string);
  body : result json
}.

(** [QueryDict.get(k)]: the last value given for [k], or [None]. *)
Fixpoint query_get (k : string) (q : list (string * string))
  : option string :=
  match q with
  | [] => None
  | (k', v) :: q' =>
      match query_get k q' with
      | Some v' => Some v'
      | None => if k' =? k then Some v else None
      end
  end.

(** [PhoneNumber.objects.get(<filter>)]. *)
Definition phone_numbers_get (matches : PhoneNumber -> bool)
           (rows : list PhoneNumber) : result PhoneNumber :=
  match filter matches rows with
  | [] => Raise (Exn DoesNotExist
                     "PhoneNumber matching query does not exist.")
  | [p] => Ok p
  | _ => Raise (Exn MultipleObjectsReturned
                    "get() returned more than one PhoneNumber")
  end.

(** An update of the named columns of a message fetched from the
    table. *)
Definition message_save (fs : list field) (message : Message)
  : M World unit :=
  fun w =>
    match save_update_fields fs message (w_messages w) with
    | Ok rows => (Ok tt, set_w_messages rows w)
    | Raise e => (Raise e, w)
    end.

End Http.
Export Http.

(* ===================================================================== *)
(** * views/official_api_webhook.py *)
(* ===================================================================== *)

Module OfficialWebhook.
Local Open Scope eff_scope.

Section Views.
Variable pf : Platform.

(** The four lines that put [v] under key [k] of [message.metadata],
    creating the dict when the metadata is empty or [None]. *)
Definition store_in_metadata (k : string) (v : json) (message : Message)
  : result Message :=
  if truthy (msg_metadata message) then
    match set_item (msg_metadata message) k v with
    | Ok metadata => Ok (set_metadata metadata message)
    | Raise e => Raise e
    end
  else Ok (set_metadata (JDict [(k, v)]) message).

(** ['error_code' in locals()]: the function has no local variable of
    that name. *)
Definition error_code_in_locals : bool := false.

Definition process_status_update (phone_number : PhoneNumber)
           (status_data : json) : M World unit :=
  message_id <- lift_result (get status_data "id");;
  status <- lift_result (get status_data "status");;
  timestamp <- lift_result (get status_data "timestamp");;
  recipient_id <- lift_result (get status_data "recipient_id");;
  if negb (forallb truthy [message_id; status; timestamp]) then
    on_wire (logger WARNING "Status data missing required fields")
  else
    try_except_only DoesNotExist
      (w <- get_state;;
       message <- lift_result
                    (objects_get_by_message_id (w_messages w)
                                               (py_str pf message_id));;
       let message := set_status (py_str pf status) message in
       message <-
         try_except_kinds [ValueError; TypeError]
           (seconds <- lift_result (py_int pf timestamp);;
            status_timestamp <- lift_result (fromtimestamp pf seconds);;
            let message :=
              set_delivered_at (if is_str status "delivered"
                                then Some status_timestamp
                                else msg_delivered_at message) message in
            let message :=
              set_read_at (if is_str status "read"
                           then Some status_timestamp
                           else msg_read_at message) message in
            ret message)
           (fun _ =>
              on_wire (logger WARNING "Invalid timestamp in status update");;
              ret message);;
       conversation <- lift_result
                         (get_default status_data "conversation" (JDict []));;
       bound <-
         (if truthy conversation then
            conversation_id <- lift_result (get conversation "id");;
            expiration <- lift_result
                            (get conversation "expiration_timestamp");;
            origin <- lift_result
                        (get_default conversation "origin" (JDict []));;
            origin_type <- lift_result (get origin "type");;
            let message :=
              if truthy conversation_id
              then set_conversation_id (to_char pf conversation_id) message
              else message in
            message <- lift_result
                         (store_in_metadata "conversation" conversation
                                            message);;
            ret (message, true)
          else ret (message, false));;
       let message := fst bound in
       let conversation_id_in_locals := snd bound in
       pricing <- lift_result (get_default status_data "pricing" (JDict []));;
       message <-
         (if truthy pricing
          then lift_result (store_in_metadata "pricing" pricing message)
          else ret message);;
       has_errors <- lift_result (py_in "errors" status_data);;
       message <-
         (if has_errors : bool then
            errors <- lift_result
                        (get_default status_data "errors" (JList []));;
            message <- lift_result
                         (store_in_metadata "errors" errors message);;
            match errors with
            | JList (first_error :: _) =>
                code <- lift_result (get_default first_error "code" (JNum 0));;
                let message := set_error_code (to_char pf code) message in
                title <- lift_result
                           (get_default first_error "title" (JStr ""));;
                ret (set_error_message (to_char pf title) message)
            | _ => ret message
            end
          else ret message);;
       let update_fields :=
         ([F_status; F_metadata]
            ++ (match msg_delivered_at message with
                | Some _ => [F_delivered_at]
                | None => []
                end)
            ++ (match msg_read_at message with
                | Some _ => [F_read_at]
                | None => []
                end)
            ++ (if conversation_id_in_locals
                   && str_truthy (msg_conversation_id message)
                then [F_conversation_id] else [])
            ++ (if error_code_in_locals
                   && str_truthy (msg_error_code message)
                then [F_error_code; F_error_message] else []))%list in
       message_save update_fields message;;
       on_wire (logger INFO "Updated message status"))
      (fun _ =>
         on_wire (logger WARNING "Message not found for status update")).

(** What the view does with the body of a POST is a parameter here:
    the verification handshake never reaches it. *)
Variable process_webhook_data : json -> PhoneNumber -> M World unit.

(** The view [webhook(request, webhook_token)]; the path argument is
    called [url_token] to keep it apart from the model field. *)
Definition webhook (request : HttpRequest) (url_token : string)
  : M World HttpResponse :=
  found <-
    try_except_only DoesNotExist
      (w <- get_state;;
       phone_number <-
         lift_result
           (phone_numbers_get
              (fun p => (webhook_token p =? url_token)
                        && (api_type p =? "official"))
              (w_phone_numbers w));;
       on_wire (logger INFO "Found phone number");;
       ret (inl phone_number))
      (fun _ =>
         on_wire (logger WARNING "No phone number found with webhook_token");;
         ret (inr (mkHttpResponse (Text "Invalid webhook token") 403)));;
  match found with
  | inr response => ret response
  | inl phone_number =>
      if method request =? "GET" then
        let mode := query_get "hub.mode" (GET request) in
        let token := query_get "hub.verify_token" (GET request) in
        let challenge := query_get "hub.challenge" (GET request) in
        if negb (ContactModel.opt_str_eqb
                   token (Some (verify_token phone_number))) then
          on_wire (logger WARNING "Verification failed: Token mismatch");;
          ret (mkHttpResponse (Text "Verification failed: invalid token")
                              403)
        else if ContactModel.opt_str_eqb mode (Some "subscribe") then
          ret (mkHttpResponse (Text (opt_str_text challenge)) 200)
        else
          on_wire (logger WARNING "Invalid mode in webhook verification");;
          ret (mkHttpResponse (Text "Verification failed: invalid mode")
                              403)
      else if method request =? "POST" then
        try_except
          (data <- lift_result (body request);;
           on_wire (logger INFO "Received WhatsApp webhook");;
           process_webhook_data data phone_number;;
           ret (mkHttpResponse (Text "OK") 200))
          (fun e =>
             if exn_kind_eqb (exn_class e) JSONDecodeError then
               on_wire (logger ERROR "Invalid JSON in webhook payload");;
               ret (mkHttpResponse (Text "Invalid JSON") 400)
             else
               on_wire (logger ERROR "Error processing webhook");;
               ret (mkHttpResponse (Text (exn_text e)) 500))
      else ret (mkHttpResponse (Text "Method not allowed") 405)
  end.

End Views.

End OfficialWebhook.

(** The body of a POST: [process_webhook_data]. *)
Module OfficialEvents.
Import OfficialWebhook.
Local Open Scope eff_scope.

(** The elements a [for] loop takes from a value: the elements of a
    list, the keys of a dict, the characters of a string. *)
Definition py_iter (v : json) : result (list json) :=
  match v with
  | JList l => Ok l
  | JDict d => Ok (map (fun kv => JStr (fst kv)) d)
  | JStr s =>
      Ok (map (fun c => JStr (String c EmptyString)) (list_ascii_of_string s))
  | _ => Raise (Exn TypeError "object is not iterable")
  end.

(** [for x in l: body(x)]. *)
Fixpoint for_each {S A} (l : list A) (body : A -> M S unit) : M S unit :=
  match l with
  | [] => ret tt
  | x :: l' => body x;; for_each l' body
  end.

(** [a != v] for an optional string attribute and a value of the
    payload. *)
Definition differs (a : option string) (v : json) : bool :=
  negb (match a, v with
        | Some s, JStr x => s =? x
        | None, JNull => true
        | _, _ => false
        end).

Section Processing.
Variable pf : Platform.

(** The handlers of contacts and messages and the template import of
    the phone number are parameters; [fetch_templates] gives the list of
    templates or [None]. *)
Variable process_contact : json -> M World unit.
Variable process_message : PhoneNumber -> json -> M World unit.
Variable fetch_templates : PhoneNumber -> M World json.

(** The body of the inner loop: one change of one entry. The view
    always passes the phone number, so [phone_number] is truthy. *)
Definition process_change (phone_number : PhoneNumber) (change : json)
  : M World unit :=
  field <- lift_result (get change "field");;
  value <- lift_result (get_default change "value" (JDict []));;
  if is_str field "messages" then
    metadata <- lift_result (get_default value "metadata" (JDict []));;
    phone_number_id <- lift_result (get metadata "phone_number_id");;
    if true && differs (Store.phone_number_id phone_number) phone_number_id
    then on_wire (logger WARNING "Phone number ID mismatch")
    else
      contacts <- lift_result (get_default value "contacts" (JList []));;
      contacts <- lift_result (py_iter contacts);;
      for_each contacts process_contact;;
      messages <- lift_result (get_default value "messages" (JList []));;
      messages <- lift_result (py_iter messages);;
      for_each messages (process_message phone_number);;
      statuses <- lift_result (get_default value "statuses" (JList []));;
      statuses <- lift_result (py_iter statuses);;
      for_each statuses (process_status_update pf phone_number)
  else if existsb (is_str field)
                  ["message_template_status_update";
                   "message_template_quality_update";
                   "message_template_components_update"] then
    on_wire (logger INFO "Received template event");;
    try_except
      (templates <- fetch_templates phone_number;;
       if truthy templates then
         n <- lift_result (py_len templates);;
         on_wire (logger INFO "Successfully fetched templates")
       else on_wire (logger WARNING "No templates fetched"))
      (fun e => on_wire (logger ERROR "Error fetching templates"))
  else on_wire (logger INFO "Skipping unhandled field change").

Definition process_webhook_data (data : json) (phone_number : PhoneNumber)
  : M World unit :=
  object <- lift_result (get data "object");;
  if negb (is_str object "whatsapp_business_account") then
    on_wire (logger WARNING "Received webhook for unsupported object type")
  else
    entries <- lift_result (get_default data "entry" (JList []));;
    entries <- lift_result (py_iter entries);;
    for_each entries
      (fun entry =>
         business_account_id <- lift_result (get entry "id");;
         changes <- lift_result (get_default entry "changes" (JList []));;
         changes <- lift_result (py_iter changes);;
         for_each changes (process_change phone_number)).

End Processing.

End OfficialEvents.

(* ===================================================================== *)
(** * views/waha_webhook.py *)
(* ===================================================================== *)

Module WahaWebhook.
Import ContactModel.
Local Open Scope eff_scope.

(** [''.join(filter(str.isdigit, v))] for an iterable [v]: the elements
    have to be strings. *)
Fixpoint join_digit_strings (l : list json) : result string :=
  match l with
  | [] => Ok ""
  | JStr s :: l' =>
      match join_digit_strings l' with
      | Ok rest => Ok (if str_isdigit s then s ++ rest else rest)
      | Raise e => Raise e
      end
  | _ :: _ => Raise (Exn TypeError "descriptor 'isdigit' requires a 'str'")
  end.

(** [normalize_phone_number] on whatever value the payload held. *)
Definition normalize_value (v : json) : result json :=
  if negb (truthy v) then Ok v
  else
    match v with
    | JStr s => Ok (JStr (filter_chars isdigit_char s))
    | JList l =>
        match join_digit_strings l with
        | Ok s => Ok (JStr s)
        | Raise e => Raise e
        end
    | JDict d =>
        match join_digit_strings (map (fun kv => JStr (fst kv)) d) with
        | Ok s => Ok (JStr s)
        | Raise e => Raise e
        end
    | _ => Raise (Exn TypeError "object is not iterable")
    end.

(** [Contact.objects.create(phone_number=..., name=...)]: the instance is
    saved through [Contact.save], which normalises the number. *)
Definition contact_create (pf : Platform) (phone name : json)
  : M World Contact :=
  normalized <- lift_result (normalize_value phone);;
  fun w =>
    match model_save (mkContact None (py_str pf name)
                                (to_char pf normalized) None)
                     (w_contacts w) with
    | Ok (c, t) => (Ok c, set_w_contacts t w)
    | Raise e => (Raise e, w)
    end.

(** [Message.objects.create(...)] in the world. The [post_save] receiver
    that sends pending outgoing messages does nothing here, because the
    view creates messages with status "received" or "sent" only. *)
Definition message_create (m : Message) : M World Message :=
  fun w =>
    match objects_create m (w_messages w) with
    | Ok (m', rows) => (Ok m', set_w_messages rows w)
    | Raise e => (Raise e, w)
    end.

(** [message.media_file.save(name, content, save=True)]. The field first
    builds the path of the file, [posixpath.join] of its upload directory
    and [name], which raises [TypeError] when [name] is not a string;
    then the field checks the path and the storage writes the file, and
    [storage_error] is the exception that raises for a name, if any (a
    name with a [..] component, an absolute or empty name, a write that
    fails). Only after that the name is set and the whole row written
    back: when the save raises, the row is as it was created. *)
Definition media_file_save (pf : Platform)
           (storage_error : string -> option exn)
           (name : json) (m : Message) : M World Message :=
  match name with
  | JStr s =>
      match storage_error s with
      | Some e => raise e
      | None =>
          let m' := set_media_file (Some (storage_name pf s)) m in
          fun w =>
            (Ok m',
             set_w_messages
               (map (fun r => if opt_nat_eqb (msg_pk r) (msg_pk m')
                              then m' else r)
                    (w_messages w)) w)
      end
  | _ => raise (Exn TypeError
                    "expected str, bytes or os.PathLike object")
  end.

Section Views.
Variable pf : Platform.
Variable net : network.

(** The exception the save of a downloaded file under a given name
    raises, if it raises: see [media_file_save]. *)
Variable storage_error : string -> option exn.

(** The download of the media file of a message, the body of the inner
    [try] of the view. It gives the file name and the content. *)
Definition download_media (phone_number : PhoneNumber)
           (media_info message_id original_url filename : json)
  : M World (json * string) :=
  url <- lift_result (as_str original_url);;
  let file_path := after_last "/api/files/" url in
  waha_service <-
    (match waha_endpoint phone_number with
     | Some e =>
         ret (Waha.init e (opt_str_text (waha_username phone_number))
                        (opt_str_text (waha_password phone_number))
                        (waha_session phone_number))
     | None => raise (Exn AttributeError
                          "'NoneType' object has no attribute 'rstrip'")
     end);;
  let full_url := Waha.endpoint waha_service ++ "/api/files/" ++ file_path in
  on_wire (logger INFO "Downloading media");;
  filename <-
    (if negb (truthy filename) then
       if contains_char "." file_path then
         ret (JStr (last_segment "/" file_path))
       else
         mimetype <- lift_result (get_default media_info "mimetype" (JStr ""));;
         mimetype <- lift_result (as_str mimetype);;
         ret (JStr (py_str pf message_id ++ "."
                           ++ last_segment "/" mimetype))
     else ret filename);;
  let headers := [("Authorization", Waha._get_auth_header waha_service)] in
  response <- on_wire (requests_send net
                         (mkRequest "GET" full_url headers None));;
  if (status_code response =? 200)%Z then
    on_wire (logger INFO "Successfully downloaded media file");;
    ret (filename, text response)
  else
    on_wire (logger ERROR "Failed to download media file");;
    raise (Exn PlainException
               ("Failed to download media file: "
                  ++ str_of_Z (status_code response))).

Definition _handle_incoming_message (payload : json)
           (phone_number : PhoneNumber) : M World HttpResponse :=
  try_except
    (message_data <- lift_result (get_default payload "payload" (JDict []));;
     message_id <- lift_result (get message_data "id");;
     from_number <- lift_result (get message_data "from");;
     to_number <- lift_result (get message_data "to");;
     to_number <-
       (if truthy to_number then ret to_number
        else
          me <- lift_result (get_default payload "me" (JDict []));;
          lift_result (get me "id"));;
     from_me <- lift_result (get_default message_data "fromMe" (JBool false));;
     let direction := if truthy from_me then "outgoing" else "incoming" in
     let swapped := direction =? "outgoing" in
     let from_number' := if swapped then to_number else from_number in
     let to_number := if swapped then from_number else to_number in
     let from_number := from_number' in
     message_body <- lift_result (get_default message_data "body" (JStr ""));;
     has_media <- lift_result
                    (get_default message_data "hasMedia" (JBool false));;
     media <- lift_result (get message_data "media");;
     media_part <-
       (if truthy has_media && truthy media then
          media_info <- lift_result
                          (get_default message_data "media" (JDict []));;
          mimetype <- lift_result
                        (get_default media_info "mimetype" (JStr ""));;
          mimetype <- lift_result (as_str mimetype);;
          let media_type := first_segment "/" mimetype in
          original_url <- lift_result
                            (get_default media_info "url" (JStr ""));;
          filename <- lift_result
                        (get_default media_info "filename" (JStr ""));;
          wanted <-
            (if truthy original_url
             then lift_result (py_in "/api/files/" original_url)
             else ret false);;
          download <-
            (if wanted : bool then
               try_except
                 (file <- download_media phone_number media_info message_id
                                         original_url filename;;
                  ret (fst file, Some (snd file)))
                 (fun e =>
                    on_wire (logger ERROR "Error downloading media file");;
                    raise (Exn PlainException
                               ("Error downloading media file: "
                                  ++ exn_text e)))
             else ret (filename, None));;
          let filename := fst download in
          let downloaded_file := snd download in
          if media_type =? "image" then
            ret ("image", py_or message_body (JStr "Image received"),
                 filename, downloaded_file)
          else if media_type =? "video" then
            ret ("video", py_or message_body (JStr "Video received"),
                 filename, downloaded_file)
          else if media_type =? "audio" then
            ret ("audio", JStr "Audio received", filename, downloaded_file)
          else if (media_type =? "application") || truthy filename then
            ret ("document", py_or filename (JStr "Document received"),
                 filename, downloaded_file)
          else
            mimetype <- lift_result (get media_info "mimetype");;
            ret ("document",
                 JStr ("Media of type " ++ py_str pf mimetype ++ " received"),
                 filename, downloaded_file)
        else ret ("text", message_body, JNull, None));;
     let message_type := fst (fst (fst media_part)) in
     let message_body := snd (fst (fst media_part)) in
     let filename := snd (fst media_part) in
     let downloaded_file : option string := snd media_part in
     location <- lift_result (get message_data "location");;
     located <-
       (if truthy location then
          description <- lift_result
                           (get_default location "description" (JStr ""));;
          latitude <- lift_result
                        (get_default location "latitude" (JStr ""));;
          longitude <- lift_result
                         (get_default location "longitude" (JStr ""));;
          ret ("location",
               JStr ("Location: " ++ py_str pf description ++ " ("
                       ++ py_str pf latitude ++ ", "
                       ++ py_str pf longitude ++ ")"))
        else ret (message_type, message_body));;
     let message_type := fst located in
     let message_body := snd located in
     vcards <- lift_result (get message_data "vCards");;
     carded <-
       (if truthy vcards then
          n <- lift_result (py_len vcards);;
          if (0 <? n)%nat then
            ret ("interactive",
                 JStr ("Contact card received: "
                         ++ str_of_Z (Z.of_nat n) ++ " contact(s)"))
          else ret (message_type, message_body)
        else ret (message_type, message_body));;
     let message_type := fst carded in
     let message_body := snd carded in
     reply <- lift_result (get message_data "replyTo");;
     (if truthy reply then
        id <- lift_result (get reply "id");;
        body_ <- lift_result (get reply "body");;
        participant <- lift_result (get reply "participant");;
        ret tt
      else ret tt);;
     on_wire (logger INFO "Received message");;
     has_at <- lift_result (py_in "@" from_number);;
     clean_phone_number <-
       (if has_at : bool then
          s <- lift_result (as_str from_number);;
          ret (JStr (first_segment "@" s))
        else ret from_number);;
     contact <-
       try_except_only DoesNotExist
         (w <- get_state;;
          c <- lift_result (ContactModel.objects_get
                              (w_contacts w)
                              (to_char pf clean_phone_number));;
          ret (Some c))
         (fun _ =>
            if direction =? "incoming" then
              author <- lift_result (get message_data "author");;
              let contact_name := py_or author clean_phone_number in
              c <- contact_create pf clean_phone_number contact_name;;
              on_wire (logger INFO "Created new contact");;
              ret (Some c)
            else ret None);;
     stamp <- lift_result (get message_data "timestamp");;
     (* The value computed here is passed to [create], but the column is
        [auto_now_add]: the row gets the time of the clock. *)
     timestamp <-
       (if truthy stamp then
          try_except_kinds [ValueError; TypeError]
            (match stamp with
             | JNum z => lift_result (fromtimestamp pf z)
             | JBool b => lift_result (fromtimestamp pf (if b then 1 else 0))
             | _ => raise (Exn TypeError "an integer is required")
             end)
            (fun _ => ret (now pf))
        else ret (now pf));;
     message <-
       message_create
         (mkMessage None phone_number
                    (match contact with
                     | Some c => contact_pk c
                     | None => None
                     end)
                    None (JDict [])
                    (to_char pf message_id) None
                    (to_char pf from_number) (to_char pf to_number)
                    direction message_type (to_char pf message_body)
                    None None JNull (Some (now pf))
                    (if direction =? "incoming" then "received" else "sent")
                    (JStr (json_dumps pf message_data))
                    None None None None);;
     message <-
       (match downloaded_file with
        | Some _ =>
            message <- media_file_save pf storage_error filename message;;
            on_wire (logger INFO "Saved media file to message");;
            ret message
        | None => ret message
        end);;
     on_wire (logger INFO "Saved message to database");;
     ret (mkHttpResponse
            (Json (JDict [("status", JStr "success");
                          ("message", JStr "Message received and saved");
                          ("message_id", message_id);
                          ("message_type", JStr message_type);
                          ("db_id", match msg_pk message with
                                    | Some k => JNum (Z.of_nat k)
                                    | None => JNull
                                    end)]))
            200))
    (fun e =>
       on_wire (logger ERROR "Error handling incoming message");;
       ret (mkHttpResponse
              (Json (JDict [("status", JStr "error");
                            ("message", JStr (exn_text e))]))
              500)).

(** The view [waha_webhook(request)], with [require_POST] around it. *)
Definition waha_webhook (request : HttpRequest) : M World HttpResponse :=
  if negb (method request =? "POST") then
    ret (mkHttpResponse (Text "") 405)
  else
    try_except
      (payload <- lift_result (body request);;
       event_type <- lift_result (get payload "event");;
       session_id <- lift_result (get payload "session");;
       on_wire (logger INFO "Received WAHA webhook event");;
       if negb (truthy session_id) then
         on_wire (logger WARNING "No session ID provided in webhook payload");;
         ret (mkHttpResponse
                (Json (JDict [("status", JStr "error");
                              ("message", JStr "No session ID provided")]))
                400)
       else
         found <-
           try_except_only DoesNotExist
             (w <- get_state;;
              p <- lift_result
                     (phone_numbers_get
                        (fun p => (waha_session p =? py_str pf session_id)
                                  && (api_type p =? "waha"))
                        (w_phone_numbers w));;
              ret (Some p))
             (fun _ =>
                on_wire (logger WARNING
                                "No phone number found for WAHA session");;
                ret None);;
         match found with
         | None =>
             ret (mkHttpResponse
                    (Json (JDict [("status", JStr "error");
                                  ("message", JStr "Unknown session")]))
                    404)
         | Some phone_number =>
             if is_str event_type "message" then
               _handle_incoming_message payload phone_number
             else
               on_wire (logger INFO "Unhandled WAHA event type");;
               ret (mkHttpResponse
                      (Json (JDict
                               [("status", JStr "success");
                                ("message",
                                 JStr "Event received but not processed")]))
                      200)
         end)
      (fun e =>
         if exn_kind_eqb (exn_class e) JSONDecodeError then
           on_wire (logger ERROR "Invalid JSON in webhook payload");;
           ret (mkHttpResponse
                  (Json (JDict [("status", JStr "error");
                                ("message", JStr "Invalid JSON")]))
                  400)
         else
           on_wire (logger ERROR "Error processing WAHA webhook");;
           ret (mkHttpResponse
                  (Json (JDict [("status", JStr "error");
                                ("message", JStr (exn_text e))]))
                  500)).

End Views.

End WahaWebhook.

(* ===================================================================== *)
(** * Vocabulary of the specification *)
(* ===================================================================== *)

Module Spec.
Import ContactModel Waha Dispatch.

(** [wp c Q R s]: run from [s], the computation [c] ends in a state
    satisfying [Q] with its value, or raises into a state satisfying [R]
    with its exception. *)
Definition wp {S A} (c : M S A) (Q : A -> S -> Prop) (R : exn -> S -> Prop)
           (s : S) : Prop :=
  match c s with
  | (Ok a, s') => Q a s'
  | (Raise e, s') => R e s'
  end.

(** The uniform failure value [{success: False, error: reason}]. *)
Definition uniform_failure (v : json) : Prop :=
  exists reason, v = error_dict reason.

(** The backend did not answer with a 2xx status: it answered with
    another status, or the transport raised. *)
Definition refused (o : http_outcome) : Prop :=
  match o with
  | Responds r => ~ (200 <= status_code r < 300)%Z
  | Fails _ => True
  end.

(** What is promised of one client call [c]: from every state it returns
    a value (it does not raise), it has sent exactly one request, and the
    value is the uniform failure whenever that request was refused. *)
Definition client_contract (net : network) (c : M Wire json) : Prop :=
  forall w : Wire,
  exists (v : json) (r : http_request) (w' : Wire),
    c w = (Ok v, w')
    /\ wire_requests w' = (wire_requests w ++ [r])%list
    /\ (refused (net (wire_requests w) r) -> uniform_failure v).

(** The shared instance is a stored message: it has a primary key and
    the Message table has a row under that key. *)
Definition persisted (fr : Frame) : Prop :=
  exists pk, msg_pk (instance fr) = Some pk
             /\ existsb (has_pk pk) (w_messages (world fr)) = true.

(** The instance and its stored row(s) both carry the status [s]. *)
Definition status_is (s : string) (fr : Frame) : Prop :=
  msg_status (instance fr) = s
  /\ forall r, In r (w_messages (world fr)) ->
               msg_pk r = msg_pk (instance fr) -> msg_status r = s.

(** The HTTP requests made so far. *)
Definition requests_of (fr : Frame) : list http_request :=
  wire_requests (w_wire (world fr)).

(** Where a dispatch that returned [b] leaves the message. *)
Definition dispatched (b : bool) (fr : Frame) : Prop :=
  persisted fr /\ status_is (if b then "sent" else "failed") fr.



(** The value [d.get(k)] gives for a dict body [d]. *)
Definition field_of (d : list (string * json)) (k : string) : json :=
  match assoc k d with
  | Some v => v
  | None => JNull
  end.

(** The world [w] after one more record in the log. *)
Definition logged (lvl : log_level) (msg : string) (w : World) : World :=
  set_w_wire (mkWire (wire_log (w_wire w) ++ [(lvl, msg)])%list
                     (wire_requests (w_wire w))) w.

(** The status a lookup by message id finds in a Message table. *)
Definition stored_status (rows : list Message) (mid : string)
  : result string :=
  result_map msg_status (objects_get_by_message_id rows mid).

(** The attributes a later step of a view must not disturb. *)
Definition keeps (m m' : Message) : Prop :=
  msg_pk m' = msg_pk m /\ msg_status m' = msg_status m.

(** The message object of a WAHA event, [payload.get('payload', {})]. *)
Definition waha_message_data (payload : json) : json :=
  match payload with
  | JDict pd =>
      match assoc "payload" pd with
      | Some v => v
      | None => JDict []
      end
  | _ => JNull
  end.

(** A raw field of the message object ([None] when it is missing). *)
Definition waha_field (payload : json) (k : string) : json :=
  match waha_message_data payload with
  | JDict md => field_of md k
  | _ => JNull
  end.

(** [payload.get('me', {}).get('id')], the id of the account itself. *)
Definition waha_me_id (payload : json) : json :=
  match payload with
  | JDict pd =>
      match (match assoc "me" pd with Some v => v | None => JDict [] end)
      with
      | JDict me => field_of me "id"
      | _ => JNull
      end
  | _ => JNull
  end.

(** The answer that goes with a stored message: 200, or 500 when the
    save of the downloaded file raised after the row was created, which
    leaves the row without file. *)
Definition stored_answer (resp : HttpResponse) (m : Message) : Prop :=
  resp_status resp = 200%Z
  \/ (resp_status resp = 500%Z /\ msg_media_file m = None).


(** The body the WAHA client takes from an answer: the parsed JSON of
    an answer with status 200 or 201, and nothing otherwise. *)
Definition accepted_body (o : http_outcome) : option json :=
  match o with
  | Responds r =>
      if ((status_code r =? 200) || (status_code r =? 201))%Z
      then parsed r else None
  | Fails _ => None
  end.

(** One call [c] of the client [self]: from every state it returns, it
    has sent exactly one request, with the given method, to the given
    path under [/api/] of the endpoint and with the Basic credentials of
    the client, and its value is the accepted body, or the uniform
    failure when there is none. *)
Definition client_call (net : network) (self : WAHAService)
           (method path : string) (c : M Wire json) : Prop :=
  forall w : Wire,
  exists (v : json) (r : http_request) (w' : Wire),
    c w = (Ok v, w')
    /\ wire_requests w' = (wire_requests w ++ [r])%list
    /\ req_method r = method
    /\ req_url r = endpoint self ++ "/api/" ++ path
    /\ In ("Authorization", Basic (username self ++ ":" ++ password self))
          (req_headers r)
    /\ match accepted_body (net (wire_requests w) r) with
       | Some b => v = b
       | None => uniform_failure v
       end.

(** Whether a response body tells the WAHA sender that the message went
    out: it is a dict whose entry [success] is truthy. *)
Definition reports_success (v : json) : bool :=
  match get v "success" with
  | Ok flag => truthy flag
  | Raise _ => false
  end.

(** The computation [c] keeps the property [P] of the state, whether it
    returns or raises. *)
Definition preserves {S A} (P : S -> Prop) (c : M S A) : Prop :=
  forall s, P s -> wp c (fun _ => P) (fun _ => P) s.

(** Every value the computation [c] returns satisfies [Q]. *)
Definition yields {S A} (Q : A -> Prop) (c : M S A) : Prop :=
  forall s, wp c (fun a _ => Q a) (fun _ _ => True) s.

(** [message_data.get('fromMe', False)] of a WAHA event. *)
Definition waha_from_me (payload : json) : json :=
  match waha_message_data payload with
  | JDict md =>
      match assoc "fromMe" md with
      | Some v => v
      | None => JBool false
      end
  | _ => JBool false
  end.

(** From [w] to [w'] the Message table is the same, and so is the
    Contact table when [fm] holds. *)
Definition event_frame (fm : bool) (w w' : World) : Prop :=
  w_messages w' = w_messages w
  /\ (fm = true -> w_contacts w' = w_contacts w).

(** The row the WAHA view stores for a "message" event, under the id
    [mid] of the event, which was not stored before: it belongs to the
    phone number of the session and has the direction and status the
    [fromMe] flag decides and the two numbers in the order the flag
    decides. *)
Definition event_row (pf : Platform) (payload : json)
           (phone_number : PhoneNumber) (w : World) (m : Message)
           (mid : string) : Prop :=
  msg_message_id m = Some mid
  /\ to_char pf (waha_field payload "id") = Some mid
  /\ filter_by_message_id (w_messages w) mid = []
  /\ msg_phone_number m = phone_number
  /\ msg_direction m
     = (if truthy (waha_from_me payload)
        then "outgoing" else "incoming")
  /\ msg_status m
     = (if truthy (waha_from_me payload)
        then "sent" else "received")
  /\ msg_from_number m
     = to_char pf
         (if truthy (waha_from_me payload)
          then py_or (waha_field payload "to")
                     (waha_me_id payload)
          else waha_field payload "from")
  /\ msg_to_number m
     = to_char pf
         (if truthy (waha_from_me payload)
          then waha_field payload "from"
          else py_or (waha_field payload "to")
                     (waha_me_id payload)).

(** What the WAHA view leaves behind for a "message" event: nothing
    (answer 500), or one more message, the row of the event (answer 200,
    or 500 when the save of its file raised). An event of the account
    itself never changes the Contact table. *)
Definition stored_event (pf : Platform) (payload : json)
           (phone_number : PhoneNumber) (w : World) (resp : HttpResponse)
           (w' : World) : Prop :=
  (truthy (waha_from_me payload) = true -> w_contacts w' = w_contacts w)
  /\ ((resp_status resp = 500%Z /\ w_messages w' = w_messages w)
      \/ (exists (m : Message) (mid : string),
              w_messages w' = (w_messages w ++ [m])%list
              /\ stored_answer resp m
              /\ event_row pf payload phone_number w m mid)).

(** Where the body of the view can be when it raises: before the row
    of the event is created, or after it, with the row stored without
    file. *)
Definition event_raised (pf : Platform) (payload : json)
           (phone_number : PhoneNumber) (fm : bool) (w w' : World)
  : Prop :=
  event_frame fm w w'
  \/ ((fm = true -> w_contacts w' = w_contacts w)
      /\ exists (m : Message) (mid : string),
          w_messages w' = (w_messages w ++ [m])%list
          /\ msg_media_file m = None
          /\ event_row pf payload phone_number w m mid).

(** The answer of the official webhook to a POST whose handling raised
    [e]: 400 for a [json.JSONDecodeError], 500 with the text of the
    exception for any other. *)
Definition post_error_answer (e : exn) : HttpResponse :=
  if exn_kind_eqb (exn_class e) JSONDecodeError
  then mkHttpResponse (Text "Invalid JSON") 400
  else mkHttpResponse (Text (exn_text e)) 500.

(** From [w] to [w'] only the log grew: the three tables and the HTTP
    traffic are the same. *)
Definition same_database (w w' : World) : Prop :=
  w_messages w' = w_messages w
  /\ w_contacts w' = w_contacts w
  /\ w_phone_numbers w' = w_phone_numbers w
  /\ wire_requests (w_wire w') = wire_requests (w_wire w).

(** A change of the field [messages] whose metadata name another phone
    number id than that of [p]. *)
Definition foreign_change (p : PhoneNumber) (change : json) : Prop :=
  exists c v md,
    change = JDict c
    /\ field_of c "field" = JStr "messages"
    /\ assoc "value" c = Some (JDict v)
    /\ assoc "metadata" v = Some (JDict md)
    /\ field_of md "phone_number_id" <> json_of_opt_str (phone_number_id p).

(** An entry all of whose changes are of that kind. *)
Definition foreign_entry (p : PhoneNumber) (entry : json) : Prop :=
  exists e changes,
    entry = JDict e
    /\ assoc "changes" e = Some (JList changes)
    /\ Forall (foreign_change p) changes.

(** The columns a status update may write. *)
Definition status_column (f : field) : bool :=
  match f with
  | F_status | F_metadata | F_delivered_at | F_read_at
  | F_conversation_id => true
  | F_message_id | F_error_code | F_error_message => false
  end.

(** A message with those columns blanked. *)
Definition clear_status_columns (m : Message) : Message :=
  set_status ""
    (set_metadata JNull
       (set_delivered_at None
          (set_read_at None (set_conversation_id None m)))).

(** From [w] to [w'] nothing changed but the log and, in the rows of the
    Message table, the columns a status update may write: no row came or
    went, every other column, the contacts, the phone numbers and the
    HTTP traffic are the same. *)
Definition status_frame (w w' : World) : Prop :=
  map clear_status_columns (w_messages w')
  = map clear_status_columns (w_messages w)
  /\ w_contacts w' = w_contacts w
  /\ w_phone_numbers w' = w_phone_numbers w
  /\ wire_requests (w_wire w') = wire_requests (w_wire w).

(** The time of a status update, when the platform can convert it. *)
Definition status_time (pf : Platform) (timestamp : json) : option Z :=
  match py_int pf timestamp with
  | Ok seconds =>
      match fromtimestamp pf seconds with
      | Ok t => Some t
      | Raise _ => None
      end
  | Raise _ => None
  end.

(** The value of a time column after a status update: the time of the
    update when the update has the status of the column ([hit]) and its
    time can be converted, and the old value otherwise. *)
Definition stamped (pf : Platform) (timestamp : json) (hit : bool)
           (old : option Z) : option Z :=
  match status_time pf timestamp with
  | Some t => if hit then Some t else old
  | None => old
  end.

(** The message [message] in memory stands for the row [pk] with status
    [st] and the two time columns [da] and [ra]. *)
Definition carries (pk : nat) (st : string) (da ra : option Z)
           (message : Message) : Prop :=
  msg_pk message = Some pk
  /\ msg_status message = st
  /\ msg_delivered_at message = da
  /\ msg_read_at message = ra.

(** The last character of a string. *)
Fixpoint last_char (s : string) : option ascii :=
  match s with
  | EmptyString => None
  | String a EmptyString => Some a
  | String _ s' => last_char s'
  end.

(** The string of [k] characters [c]. *)
Fixpoint replicate (k : nat) (c : ascii) : string :=
  match k with
  | O => EmptyString
  | S k' => String c (replicate k' c)
  end.

End Spec.
Export Spec.

(* ===================================================================== *)
(** * Sample data *)
(* ===================================================================== *)

Module Samples.
Import ContactModel Dispatch.

(** [int] of a string of ASCII digits with an optional sign. *)
Definition int_of_digits (s : string) : option Z :=
  match NilZero.int_of_string s with
  | Some i => Some (Z.of_int i)
  | None => None
  end.

(** A platform whose clock stands at 1700000000 and which converts every
    time stamp. *)
Definition sample_platform : Platform :=
  mkPlatform "https://graph.facebook.com/v22.0"
             (fun name => "whatsapp_media/" ++ name)
             (fun name => "/media/" ++ name)
             (fun _ => "[...]")
             (fun _ => "{...}")
             int_of_digits
             (fun z => inl z)
             1700000000.

(** A backend that answers every request with status 500. *)
Definition net_500 : network :=
  fun _ _ => Responds (mkResponse 500 "Internal Server Error" None).


Definition official_number : PhoneNumber :=
  mkPhoneNumber 1 "Support" "40700000001" "official" (Some "1055")
                "2001" "token-abc" None None None "default" true true
                "verify-me" "hook-1".

Definition waha_number : PhoneNumber :=
  mkPhoneNumber 2 "Bridge" "40700000002" "waha" None "" ""
                (Some "http://localhost:3000") (Some "admin")
                (Some "secret") "default" true true "verify-2" "hook-2".

(** An outgoing message of [phone] to 40777777777. *)
Definition outgoing (pk : nat) (phone : PhoneNumber) (message_id kind : string)
           (content : option string) (status : string) : Message :=
  mkMessage (Some pk) phone None None (JDict []) (Some message_id) None
            (Some (phone_number phone)) (Some "40777777777") "outgoing"
            kind content None None JNull None status JNull None None
            None None.


Definition pending_template : Message :=
  outgoing 8 waha_number "tmp-8" "template" (Some "welcome") "pending".

Definition read_text : Message :=
  set_read_at (Some 1700000050%Z)
    (outgoing 9 official_number "wamid.9" "text" (Some "hello") "read").

Definition quiet : Wire := mkWire [] [].

Definition world_of (rows : list Message) : World :=
  mkWorld [official_number; waha_number] [] rows quiet.

Definition frame_of (m : Message) : Frame := mkFrame m (world_of [m]).

(** The status update "delivered" for message wamid.9. *)
Definition delivered_update : list (string * json) :=
  [("id", JStr "wamid.9"); ("status", JStr "delivered");
   ("timestamp", JStr "1700000100"); ("recipient_id", JStr "40777777777")].

(** A status update for a message nobody stored. *)
Definition stray_update : list (string * json) :=
  [("id", JStr "wamid.404"); ("status", JStr "read");
   ("timestamp", JStr "1700000100"); ("recipient_id", JStr "40777777777")].

(** The verification request of the provider for the official number. *)
Definition handshake : HttpRequest :=
  mkHttpRequest "GET"
                [("hub.mode", "subscribe"); ("hub.verify_token", "verify-me");
                 ("hub.challenge", "1158201444")]
                (Raise (Exn JSONDecodeError "Expecting value")).

(** A WAHA event for a message the account itself sent, as the bridge
    reports it: [from] is the account, [to] the recipient. *)
Definition echo_event : json :=
  JDict [("event", JStr "message"); ("session", JStr "default");
         ("payload",
          JDict [("id", JStr "true_40777777777@c.us_AAAA");
                 ("timestamp", JNum 1666943582);
                 ("from", JStr "40700000002@c.us"); ("fromMe", JBool true);
                 ("to", JStr "40777777777@c.us"); ("body", JStr "hello");
                 ("hasMedia", JBool false)]);
         ("me", JDict [("id", JStr "40700000002@c.us");
                       ("pushName", JStr "Bridge")])].

(** The same event with an empty [to]. *)
Definition echo_event_empty_to : json :=
  JDict [("event", JStr "message"); ("session", JStr "default");
         ("payload",
          JDict [("id", JStr "true_40777777777@c.us_BBBB");
                 ("timestamp", JNum 1666943582);
                 ("from", JStr "40777777777@c.us"); ("fromMe", JBool true);
                 ("to", JStr ""); ("body", JStr "hello");
                 ("hasMedia", JBool false)]);
         ("me", JDict [("id", JStr "40700000002@c.us");
                       ("pushName", JStr "Bridge")])].

(** A WAHA client for the bridge on this machine. *)
Definition sample_service : Waha.WAHAService :=
  Waha.init "http://localhost:3000/" "admin" "secret" "default".

(** The official number, switched off. *)
Definition inactive_number : PhoneNumber :=
  mkPhoneNumber 1 "Support" "40700000001" "official" (Some "1055")
                "2001" "token-abc" None None None "default" false true
                "verify-me" "hook-1".

Definition pending_location : Message :=
  outgoing 10 official_number "tmp-10" "location" (Some "Piata Unirii")
           "pending".

Definition pending_text : Message :=
  outgoing 12 official_number "tmp-12" "text" (Some "hello") "pending".

Definition pending_waha_text : Message :=
  outgoing 13 waha_number "tmp-13" "text" (Some "hello") "pending".

(** A message received from 40777777777. *)
Definition received_text : Message :=
  mkMessage (Some 11) official_number None None (JDict [])
            (Some "wamid.11") None (Some "40777777777")
            (Some "40700000001") "incoming" "text" (Some "hi") None None
            JNull None "received" JNull None None None None.

(** The official backend accepting a message under the id wamid.NEW. *)
Definition net_official_ok : network :=
  fun _ _ =>
    Responds
      (mkResponse 200 "{...}"
         (Some (JDict [("messaging_product", JStr "whatsapp");
                       ("messages",
                        JList [JDict [("id", JStr "wamid.NEW")]])]))).

(** A bridge that accepts every request and answers with the message it
    sent, which has no [success] entry. *)
Definition net_bridge_ok : network :=
  fun _ _ =>
    Responds
      (mkResponse 201 "{...}"
         (Some (JDict [("id", JStr "true_40777777777@c.us_CCCC");
                       ("timestamp", JNum 1666943582)]))).

(** The status update "delivered" for message wamid.9 without its
    time, and with a time that is no number. *)
Definition update_without_time : list (string * json) :=
  [("id", JStr "wamid.9"); ("status", JStr "delivered");
   ("recipient_id", JStr "40777777777")].

Definition update_with_bad_time : list (string * json) :=
  [("id", JStr "wamid.9"); ("status", JStr "delivered");
   ("timestamp", JStr "soon"); ("recipient_id", JStr "40777777777")].

Definition post_of (payload : json) : HttpRequest :=
  mkHttpRequest "POST" [] (Ok payload).

(** Seven characters, six decimal digits and U+00B2, superscript
    two. *)
Definition superscript_number : string :=
  "123456" ++ String (ascii_of_N 178) "".

(** A storage that saves a file under every name, and one that has no
    room left. *)
Definition storage_accepts : string -> option exn := fun _ => None.

Definition storage_full : string -> option exn :=
  fun _ => Some (Exn OSError "No space left on device").

(** A POST whose body is not UTF-8: [json.loads] raises
    [UnicodeDecodeError]. *)
Definition post_not_utf8 : HttpRequest :=
  mkHttpRequest "POST" []
                (Raise (Exn UnicodeDecodeError
                            "'utf-8' codec can't decode byte 0xff")).

(** A WAHA event for a message of 40777777777 to the account. *)
Definition incoming_event_body : list (string * json) :=
  [("event", JStr "message"); ("session", JStr "default");
   ("payload",
    JDict [("id", JStr "false_40777777777@c.us_DDDD");
           ("timestamp", JNum 1666943582);
           ("from", JStr "40777777777@c.us"); ("fromMe", JBool false);
           ("to", JStr "40700000002@c.us"); ("body", JStr "hi");
           ("hasMedia", JBool false)]);
   ("me", JDict [("id", JStr "40700000002@c.us");
                 ("pushName", JStr "Bridge")])].

(** A WAHA event for a document of 40777777777, which the bridge offers
    for download under the given file name. *)
Definition document_event (filename : json) : json :=
  JDict [("event", JStr "message"); ("session", JStr "default");
         ("payload",
          JDict [("id", JStr "false_40777777777@c.us_FFFF");
                 ("timestamp", JNum 1666943582);
                 ("from", JStr "40777777777@c.us"); ("fromMe", JBool false);
                 ("to", JStr "40700000002@c.us"); ("body", JStr "");
                 ("hasMedia", JBool true);
                 ("media",
                  JDict [("url",
                          JStr "http://localhost:3000/api/files/FFFF.pdf");
                         ("mimetype", JStr "application/pdf");
                         ("filename", filename)])]);
         ("me", JDict [("id", JStr "40700000002@c.us");
                       ("pushName", JStr "Bridge")])].

(** An acknowledgement event of the session, and a message event of a
    session nobody has. *)
Definition ack_event_body : list (string * json) :=
  [("event", JStr "message.ack"); ("session", JStr "default");
   ("payload", JDict [("id", JStr "true_40777777777@c.us_AAAA");
                      ("ack", JNum 2)])].

Definition stranger_event_body : list (string * json) :=
  [("event", JStr "message"); ("session", JStr "elsewhere");
   ("payload", JDict [("id", JStr "false_40777777777@c.us_EEEE");
                      ("from", JStr "40777777777@c.us");
                      ("body", JStr "hi")])].

(** A stored contact, and a world that knows her. *)
Definition ana : ContactModel.Contact :=
  ContactModel.mkContact (Some 1) "Ana" (Some "40777777777") None.

Definition world_with_ana : World :=
  mkWorld [official_number; waha_number] [ana] [] quiet.

(** An event of the official API for the phone number id 9999, which is
    not that of [official_number]. *)
Definition foreign_changes : list json :=
  [JDict [("field", JStr "messages");
          ("value",
           JDict [("messaging_product", JStr "whatsapp");
                  ("metadata",
                   JDict [("display_phone_number", JStr "40700000009");
                          ("phone_number_id", JStr "9999")]);
                  ("messages",
                   JList [JDict [("from", JStr "40777777777");
                                 ("id", JStr "wamid.77");
                                 ("type", JStr "text")]])])]].

Definition foreign_entries : list json :=
  [JDict [("id", JStr "2001"); ("changes", JList foreign_changes)]].

Definition foreign_payload : list (string * json) :=
  [("object", JStr "whatsapp_business_account");
   ("entry", JList foreign_entries)].

(** Handlers that would fail if they were called. *)
Definition failing_contact : json -> M World unit :=
  fun _ => raise (Exn PlainException "process_contact was called").

Definition failing_message : PhoneNumber -> json -> M World unit :=
  fun _ _ => raise (Exn PlainException "process_message was called").

Definition no_templates : PhoneNumber -> M World json :=
  fun _ => ret JNull.

(** The stored echo of [echo_event]. *)
Definition stored_echo : Message :=
  outgoing 14 waha_number "true_40777777777@c.us_AAAA" "text"
           (Some "hello") "sent".

End Samples.

(* ===================================================================== *)
(** * Properties *)
(* ===================================================================== *)

Section ContactProperties.
Import ContactModel.

Lemma filter_chars_idem (pred : ascii -> bool) (s : string) :
  filter_chars pred (filter_chars pred s) = filter_chars pred s.
Proof.
  induction s as [|c s IH]; simpl; [reflexivity|].
  destruct (pred c) eqn:Hc; simpl; [rewrite Hc, IH|]; auto.
Qed.

Lemma filter_chars_all_digits (s : string) :
  all_digits (filter_chars isdigit_char s) = true.
Proof.
  induction s as [|c s IH]; simpl; [reflexivity|].
  destruct (isdigit_char c) eqn:Hc; simpl; [rewrite Hc|]; auto.
Qed.

Lemma normalize_phone_number_falsy (p : option string) :
  str_truthy p = false -> normalize_phone_number p = p.
Proof. unfold normalize_phone_number. intros ->. reflexivity. Qed.

Lemma normalize_phone_number_truthy (s : string) :
  s <> "" ->
  normalize_phone_number (Some s) = Some (filter_chars isdigit_char s).
Proof.
  intros Hs. unfold normalize_phone_number, str_truthy, nonempty.
  destruct (String.eqb_spec s ""); [contradiction|reflexivity].
Qed.

(** C5. Normalising a phone number twice gives the same result as
    normalising it once, for every argument the function accepts (a
    string or [None]); and "+40 777 777 777" normalises to
    "40777777777". *)
Theorem normalize_phone_number_idempotent :
  (forall x : option string,
      normalize_phone_number (normalize_phone_number x)
      = normalize_phone_number x)
  /\ normalize_phone_number (Some "+40 777 777 777") = Some "40777777777".
Proof.
  split; [|reflexivity].
  intros [s|]; [|reflexivity].
  destruct (String.eqb_spec s "") as [->|Hs]; [reflexivity|].
  rewrite (normalize_phone_number_truthy s Hs).
  destruct (String.eqb_spec (filter_chars isdigit_char s) "") as [He|Hf].
  - rewrite He. reflexivity.
  - rewrite (normalize_phone_number_truthy _ Hf), filter_chars_idem.
    reflexivity.
Qed.

Lemma str_isdigit_all_digits (value : string) :
  str_isdigit value = true <-> all_digits value = true /\ value <> "".
Proof.
  destruct value as [|c v]; simpl.
  - split; [discriminate|intros [_ H]; contradiction].
  - split; [intros H; split; [exact H|discriminate]|intros [H _]; exact H].
Qed.

(** What [validate_phone_number] accepts, in the terms of its own test:
    it succeeds exactly on the strings all of whose characters
    [str.isdigit] takes for digits and whose length lies between 7 and
    15; on every other string it raises a [ValidationError]. *)
Theorem validate_phone_number_accepts_exactly (value : string) :
  (validate_phone_number value = Ok tt
   <-> all_digits value = true /\ 7 <= String.length value <= 15)
  /\ (validate_phone_number value = Ok tt
      \/ exists msg, validate_phone_number value
                     = Raise (Exn ValidationError msg)).
Proof.
  unfold validate_phone_number.
  destruct (str_isdigit value) eqn:Hd; simpl.
  - apply str_isdigit_all_digits in Hd. destruct Hd as [Hd _].
    destruct (Nat.ltb_spec (String.length value) 7) as [H7|H7]; simpl.
    + split; [|right; eauto].
      split; [discriminate|intros [_ [H _]]; lia].
    + destruct (Nat.ltb_spec 15 (String.length value)) as [H15|H15]; simpl.
      * split; [|right; eauto].
        split; [discriminate|intros [_ [_ H]]; lia].
      * destruct (Nat.ltb_spec (String.length value) 3) as [H3|H3]; [lia|].
        split; [|left; reflexivity].
        split; [intros _; split; [exact Hd|lia]|reflexivity].
  - split; [|right; eauto].
    split; [discriminate|].
    intros [Ha Hl].
    assert (str_isdigit value = true) as Hs.
    { apply str_isdigit_all_digits. split; [exact Ha|].
      intros ->. simpl in Hl. lia. }
    congruence.
Qed.

Lemma all_decimal_all_digits (value : string) :
  all_decimal value = true -> all_digits value = true.
Proof.
  induction value as [|c v IH]; simpl; [reflexivity|].
  intros H. apply andb_true_iff in H. destruct H as [Hc Hv].
  rewrite (IH Hv), andb_true_r.
  unfold isdigit_char. unfold decimal_char in Hc. cbv zeta in *.
  rewrite Hc. reflexivity.
Qed.

(** The strings of 7 to 15 decimal digits are accepted, and nothing
    shorter or longer is. *)
Lemma validate_phone_number_accepts_decimal (value : string) :
  (all_decimal value = true -> 7 <= String.length value <= 15 ->
   validate_phone_number value = Ok tt)
  /\ (validate_phone_number value = Ok tt ->
      7 <= String.length value <= 15).
Proof.
  split.
  - intros Hd Hl.
    apply (proj1 (validate_phone_number_accepts_exactly value)).
    split; [apply all_decimal_all_digits, Hd|exact Hl].
  - intros Hok.
    apply (proj1 (validate_phone_number_accepts_exactly value)) in Hok.
    apply Hok.
Qed.

(** C6. [validate_phone_number] does not reject every string that
    contains a non-digit character: it accepts the seven characters
    [123456] followed by U+00B2 (superscript two), for which
    [str.isdigit] is true, although that character is not one of 0 to
    9. The [RegexValidator] that stands before it on the same field does
    reject that string. *)
Theorem validate_phone_number_accepts_superscript :
  validate_phone_number Samples.superscript_number = Ok tt
  /\ String.length Samples.superscript_number = 7
  /\ all_decimal Samples.superscript_number = false
  /\ regex_validator Samples.superscript_number
     = Raise (Exn ValidationError "Phone number must contain only digits").
Proof. repeat split; reflexivity. Qed.

Lemma filter_by_phone_app (t u : table) (p : string) :
  filter_by_phone (t ++ u)%list p
  = (filter_by_phone t p ++ filter_by_phone u p)%list.
Proof. apply filter_app. Qed.

Lemma filter_by_phone_replace_row (c : Contact) (t : table) (p : string) :
  contact_phone_number c = Some p ->
  filter_by_phone t p = [] ->
  filter_by_phone (replace_row c t) p = [c].
Proof.
  intros Hc. unfold filter_by_phone.
  induction t as [|r t IH]; simpl; intros Ht.
  - rewrite Hc. simpl. rewrite String.eqb_refl. reflexivity.
  - destruct (opt_str_eqb (contact_phone_number r) (Some p)) eqn:Hr;
      [discriminate|].
    destruct (opt_nat_eqb (contact_pk r) (contact_pk c)); simpl.
    + rewrite Hc. simpl. rewrite String.eqb_refl, Ht. reflexivity.
    + rewrite Hr. apply IH, Ht.
Qed.

(** C10. A falsy phone number is handed back unchanged by
    [normalize_phone_number] ([None] stays [None], the empty string stays
    empty), so the digits-only, 7 to 15 digit shape is not established
    for it: [Contact.save] stores the empty string, which
    [validate_phone_number] rejects, and [Contact.find_by_phone] looks
    the empty string up as it is. *)
Theorem normalize_phone_number_keeps_falsy_input :
  normalize_phone_number None = None
  /\ normalize_phone_number (Some "") = Some ""
  /\ (exists msg,
        validate_phone_number "" = Raise (Exn ValidationError msg))
  /\ (forall (c : Contact) (t : table),
        contact_phone_number c = Some "" ->
        filter_by_phone t "" = [] ->
        exists c' t',
          save c t = Ok (c', t')
          /\ contact_phone_number c' = Some ""
          /\ In c' t'
          /\ find_by_phone t' (Some "") = Ok (Some c')).
Proof.
  split; [reflexivity|]. split; [reflexivity|]. split; [eexists; reflexivity|].
  intros c t Hc Ht.
  destruct c as [pk name phone chat]. simpl in Hc. subst phone.
  unfold save, model_save, set_contact_phone, set_contact_pk.
  cbn [contact_phone_number normalize_phone_number str_truthy nonempty negb
    String.eqb contact_pk contact_name contact_whatsapp_chat_id].
  rewrite Ht. cbn [existsb].
  destruct pk as [k|].
  - eexists. eexists. split; [reflexivity|]. split; [reflexivity|].
    pose proof (filter_by_phone_replace_row
                  (mkContact (Some k) name (Some "") chat) t ""
                  eq_refl Ht) as Hf.
    split.
    + assert (In (mkContact (Some k) name (Some "") chat)
                 (filter_by_phone
                    (replace_row (mkContact (Some k) name (Some "") chat) t)
                    "")) as Hin by (rewrite Hf; left; reflexivity).
      apply filter_In in Hin. apply Hin.
    + unfold find_by_phone, objects_get.
      cbn [normalize_phone_number str_truthy nonempty negb String.eqb].
      rewrite Hf. reflexivity.
  - eexists. eexists. split; [reflexivity|]. split; [reflexivity|].
    split; [apply in_or_app; right; left; reflexivity|].
    unfold find_by_phone, objects_get.
    cbn [normalize_phone_number str_truthy nonempty negb String.eqb].
    rewrite filter_by_phone_app, Ht. reflexivity.
Qed.

Lemma normalize_phone_number_keeps_falsy_input_witness :
  exists c' t',
    save (mkContact None "Ana" (Some "") None) [] = Ok (c', t')
    /\ contact_phone_number c' = Some ""
    /\ In c' t'
    /\ find_by_phone t' (Some "") = Ok (Some c').
Proof.
  apply (proj2 (proj2 (proj2 normalize_phone_number_keeps_falsy_input)));
    reflexivity.
Defined.

(** *** Normalisation, validation and lookup together *)

Lemma filter_chars_length (pred : ascii -> bool) (s : string) :
  String.length (filter_chars pred s) <= String.length s.
Proof.
  induction s as [|c s IH]; simpl; [lia|].
  destruct (pred c); simpl; lia.
Qed.

Lemma filter_chars_fixed (s : string) :
  all_digits s = true -> filter_chars isdigit_char s = s.
Proof.
  induction s as [|c s IH]; simpl; [reflexivity|].
  intros H. apply andb_true_iff in H. destruct H as [Hc Hs].
  rewrite Hc, IH by exact Hs. reflexivity.
Qed.

Lemma normalize_phone_number_some (s : string) :
  normalize_phone_number (Some s) = Some (filter_chars isdigit_char s).
Proof.
  destruct (String.eqb_spec s "") as [->|Hs]; [reflexivity|].
  apply normalize_phone_number_truthy, Hs.
Qed.

(** X1. The normalised form of a string consists of digits only, is
    never longer than the string, and a string of digits is its own
    normalised form. *)
Theorem normalize_phone_number_digits_only (s : string) :
  exists t : string,
    normalize_phone_number (Some s) = Some t
    /\ all_digits t = true
    /\ String.length t <= String.length s
    /\ (all_digits s = true -> t = s).
Proof.
  exists (filter_chars isdigit_char s).
  split; [apply normalize_phone_number_some|].
  split; [apply filter_chars_all_digits|].
  split; [apply filter_chars_length|apply filter_chars_fixed].
Qed.

(** X2. After normalisation only the length decides: the normalised form
    of a string passes [validate_phone_number] exactly when it has 7 to
    15 characters. *)
Theorem validate_phone_number_after_normalize (s t : string) :
  normalize_phone_number (Some s) = Some t ->
  (validate_phone_number t = Ok tt <-> 7 <= String.length t <= 15).
Proof.
  rewrite normalize_phone_number_some. intros [= <-].
  set (t := filter_chars isdigit_char s).
  assert (all_digits t = true) as Hd by apply filter_chars_all_digits.
  unfold validate_phone_number.
  destruct (str_isdigit t) eqn:Hs; simpl.
  - destruct (Nat.ltb_spec (String.length t) 7) as [H7|H7]; simpl.
    + split; [discriminate|lia].
    + destruct (Nat.ltb_spec 15 (String.length t)) as [H15|H15]; simpl.
      * split; [discriminate|lia].
      * destruct (Nat.ltb_spec (String.length t) 3) as [H3|H3]; [lia|].
        split; [lia|reflexivity].
  - split; [discriminate|]. intros Hl.
    assert (str_isdigit t = true) as Hs'.
    { apply str_isdigit_all_digits. split; [exact Hd|].
      intros He. rewrite He in Hl. simpl in Hl. lia. }
    congruence.
Qed.

Lemma validate_phone_number_after_normalize_witness :
  validate_phone_number "40777777777" = Ok tt.
Proof.
  apply (proj2 (validate_phone_number_after_normalize
                  "+40 777 777 777" "40777777777" eq_refl)).
  simpl. lia.
Defined.

(** X3. A contact saved under a number that is not stored yet is found
    again by [find_by_phone] under every spelling of the number that has
    the same normalised form, and it is stored under that form. *)
Theorem save_then_find_by_phone (c : Contact) (t : table) (p q n : string) :
  contact_phone_number c = Some p ->
  normalize_phone_number (Some p) = Some n ->
  normalize_phone_number (Some q) = Some n ->
  filter_by_phone t n = [] ->
  exists c' t',
    save c t = Ok (c', t')
    /\ contact_phone_number c' = Some n
    /\ In c' t'
    /\ find_by_phone t' (Some q) = Ok (Some c').
Proof.
  intros Hc Hp Hq Ht.
  destruct c as [pk name phone chat]. simpl in Hc. subst phone.
  unfold save, model_save, set_contact_phone, set_contact_pk, find_by_phone.
  cbn [contact_phone_number contact_pk contact_name contact_whatsapp_chat_id].
  rewrite Hp, Hq. cbn [contact_phone_number contact_pk]. rewrite Ht.
  cbn [existsb]. unfold objects_get.
  destruct pk as [k|].
  - eexists. eexists. split; [reflexivity|]. split; [reflexivity|].
    pose proof (filter_by_phone_replace_row
                  (mkContact (Some k) name (Some n) chat) t n
                  eq_refl Ht) as Hf.
    split.
    + assert (In (mkContact (Some k) name (Some n) chat)
                 (filter_by_phone
                    (replace_row (mkContact (Some k) name (Some n) chat) t)
                    n)) as Hin by (rewrite Hf; left; reflexivity).
      apply filter_In in Hin. apply Hin.
    + rewrite Hf. reflexivity.
  - eexists. eexists. split; [reflexivity|]. split; [reflexivity|].
    split; [apply in_or_app; right; left; reflexivity|].
    rewrite filter_by_phone_app, Ht. simpl. rewrite String.eqb_refl.
    reflexivity.
Qed.

Lemma save_then_find_by_phone_witness :
  exists c' t',
    save (mkContact None "Ana" (Some "+40 777 777 777") None) [] = Ok (c', t')
    /\ contact_phone_number c' = Some "40777777777"
    /\ In c' t'
    /\ find_by_phone t' (Some "(+40) 777-777-777") = Ok (Some c').
Proof.
  apply (save_then_find_by_phone
           (mkContact None "Ana" (Some "+40 777 777 777") None) []
           "+40 777 777 777" "(+40) 777-777-777" "40777777777");
    reflexivity.
Defined.

Lemma opt_nat_eqb_eq (a b : option nat) :
  opt_nat_eqb a b = true <-> a = b.
Proof.
  destruct a as [x|], b as [y|]; simpl; try (split; congruence).
  rewrite Nat.eqb_eq. split; congruence.
Qed.

(** X4. A number that differs from a stored one only in its spelling
    cannot be stored a second time: saving a new contact, or another
    contact, whose number has the normalised form of a stored row raises
    [IntegrityError]. *)
Theorem save_rejects_duplicate_number (c r : Contact) (t : table)
        (p n : string) :
  contact_phone_number c = Some p ->
  normalize_phone_number (Some p) = Some n ->
  In r t ->
  contact_phone_number r = Some n ->
  contact_pk c = None \/ contact_pk r <> contact_pk c ->
  exists msg : string, save c t = Raise (Exn IntegrityError msg).
Proof.
  intros Hc Hp Hin Hr Hother.
  unfold save, model_save, set_contact_phone.
  rewrite Hc, Hp. cbn [contact_phone_number].
  assert (existsb
            (fun r0 =>
               negb (same_row r0
                       (mkContact (contact_pk c) (contact_name c) (Some n)
                                  (contact_whatsapp_chat_id c))))
            (filter_by_phone t n) = true) as ->; [|eauto].
  apply existsb_exists. exists r. split.
  - apply filter_In. split; [exact Hin|].
    rewrite Hr. simpl. apply String.eqb_refl.
  - unfold same_row. cbn [contact_pk].
    destruct (contact_pk c) as [k|] eqn:Hk; [|reflexivity].
    destruct Hother as [Hnone|Hdiff]; [discriminate|].
    destruct (opt_nat_eqb (contact_pk r) (Some k)) eqn:He; [|reflexivity].
    apply opt_nat_eqb_eq in He. contradiction.
Qed.

Lemma save_rejects_duplicate_number_witness :
  exists msg : string,
    save (mkContact None "Ana" (Some "+40 777 777 777") None)
         [mkContact (Some 1) "Ana-Maria" (Some "40777777777") None]
    = Raise (Exn IntegrityError msg).
Proof.
  apply (save_rejects_duplicate_number
           (mkContact None "Ana" (Some "+40 777 777 777") None)
           (mkContact (Some 1) "Ana-Maria" (Some "40777777777") None)
           [mkContact (Some 1) "Ana-Maria" (Some "40777777777") None]
           "+40 777 777 777" "40777777777");
    [reflexivity|reflexivity|left; reflexivity|reflexivity
    |left; reflexivity].
Defined.

(** X5. [find_by_phone] answers [None] exactly when no contact is
    stored under the normalised form of the number, and for the number
    [None]; the only exception it lets through is
    [MultipleObjectsReturned]. *)
Theorem find_by_phone_unknown_number (t : table) (q n : string) :
  normalize_phone_number (Some q) = Some n ->
  find_by_phone t None = Ok None
  /\ (find_by_phone t (Some q) = Ok None <-> filter_by_phone t n = [])
  /\ (forall e, find_by_phone t (Some q) = Raise e ->
                exn_class e = MultipleObjectsReturned).
Proof.
  intros Hq. unfold find_by_phone, objects_get. rewrite Hq.
  split; [reflexivity|].
  destruct (filter_by_phone t n) as [|c [|c' l]]; simpl.
  - split; [split; reflexivity|discriminate].
  - split; [split; discriminate|discriminate].
  - split; [split; discriminate|]. intros e [= <-]. reflexivity.
Qed.

Lemma find_by_phone_unknown_number_witness :
  find_by_phone [mkContact (Some 1) "Ana" (Some "40777777777") None]
                (Some "+40 777 000 000") = Ok None.
Proof.
  apply (proj1 (proj2 (find_by_phone_unknown_number
                         [mkContact (Some 1) "Ana" (Some "40777777777") None]
                         "+40 777 000 000" "40777000000" eq_refl))).
  reflexivity.
Defined.

End ContactProperties.

Section WahaClientProperties.
Import Waha.
Variable net : network.

Lemma _make_request_contract (self : WAHAService) (endpoint_ method : string)
      (data : option json) :
  method = "GET" \/ method = "POST" \/ method = "PUT" ->
  client_contract net (_make_request net self endpoint_ method data).
Proof.
  intros Hm w.
  set (url := endpoint self ++ "/api/" ++ endpoint_).
  set (headers := [("Content-Type", Literal "application/json");
                   ("Authorization", _get_auth_header self)]).
  assert (exists r,
             (if method =? "GET" then
                requests_send net (mkRequest "GET" url headers None)
              else if method =? "POST" then
                requests_send net (mkRequest "POST" url headers data)
              else if method =? "PUT" then
                requests_send net (mkRequest "PUT" url headers data)
              else raise (Exn ValueError
                              ("Unsupported HTTP method: " ++ method)))
             = requests_send net r) as [r Hr].
  { destruct Hm as [-> | [-> | ->]]; simpl; eauto. }
  unfold _make_request, try_except, bind. fold url headers. rewrite Hr.
  unfold requests_send.
  destruct (net (wire_requests w) r) as [resp|e] eqn:Hnet.
  - destruct ((status_code resp =? 200) || (status_code resp =? 201))%Z
      eqn:Hcode.
    + assert (200 <= status_code resp < 300)%Z as Hin
          by (apply orb_true_iff in Hcode; destruct Hcode as [H|H];
              apply Z.eqb_eq in H; lia).
      unfold response_json.
      destruct (parsed resp) as [v|]; simpl.
      * exists v, r. eexists. split; [reflexivity|]. split; [reflexivity|].
        intros Hbad. rewrite Hnet in Hbad. simpl in Hbad. contradiction.
      * eexists. exists r. eexists. split; [reflexivity|].
        split; [reflexivity|]. intros _. eexists. reflexivity.
    + simpl. eexists. exists r. eexists. split; [reflexivity|].
      split; [reflexivity|]. intros _. eexists. reflexivity.
  - simpl. eexists. exists r. eexists. split; [reflexivity|].
    split; [reflexivity|]. intros _. eexists. reflexivity.
Qed.

(** C9. Each request method of the WAHA client returns a value from
    every state and never raises; whenever the backend answers the
    request with a status outside 200..299, or the transport raises, the
    value returned is [{success: False, error: reason}]. *)
Theorem waha_client_uniform_failure (self : WAHAService) :
  (forall chat_id text_ link_preview,
      client_contract net (send_text net self chat_id text_ link_preview))
  /\ (forall chat_id image_url caption,
         client_contract net (send_image net self chat_id image_url caption))
  /\ (forall chat_id document_url filename,
         client_contract
           net (send_document net self chat_id document_url filename))
  /\ (forall chat_id video_url caption,
         client_contract net (send_video net self chat_id video_url caption))
  /\ (forall chat_id audio_url,
         client_contract net (send_audio net self chat_id audio_url))
  /\ (forall webhook_url events,
         client_contract
           net (configure_webhooks net self webhook_url events)).
Proof.
  repeat split; intros;
    apply _make_request_contract; auto.
Qed.

(** *** What a call of the client sends and returns *)

Lemma _make_request_call (self : WAHAService) (endpoint_ method : string)
      (data : option json) :
  method = "GET" \/ method = "POST" \/ method = "PUT" ->
  client_call net self method endpoint_
              (_make_request net self endpoint_ method data).
Proof.
  intros Hm w.
  set (url := endpoint self ++ "/api/" ++ endpoint_).
  set (headers := [("Content-Type", Literal "application/json");
                   ("Authorization", _get_auth_header self)]).
  assert (exists body,
             (if method =? "GET" then
                requests_send net (mkRequest "GET" url headers None)
              else if method =? "POST" then
                requests_send net (mkRequest "POST" url headers data)
              else if method =? "PUT" then
                requests_send net (mkRequest "PUT" url headers data)
              else raise (Exn ValueError
                              ("Unsupported HTTP method: " ++ method)))
             = requests_send net (mkRequest method url headers body))
    as [body Hr].
  { destruct Hm as [-> | [-> | ->]]; simpl; eauto. }
  unfold _make_request, try_except, bind. fold url headers. rewrite Hr.
  unfold requests_send, accepted_body.
  assert (In ("Authorization",
              Basic (username self ++ ":" ++ password self)) headers)
    as Hauth by (right; left; reflexivity).
  destruct (net (wire_requests w) (mkRequest method url headers body))
    as [resp|e] eqn:Hnet.
  - destruct ((status_code resp =? 200) || (status_code resp =? 201))%Z
      eqn:Hcode.
    + unfold response_json.
      destruct (parsed resp) as [v|] eqn:Hbody; simpl.
      * exists v. eexists. eexists. split; [reflexivity|].
        cbn [wire_requests req_method req_url req_headers].
        rewrite Hnet, Hcode, Hbody. auto 6.
      * eexists. eexists. eexists. split; [reflexivity|].
        cbn [wire_requests req_method req_url req_headers].
        rewrite Hnet, Hcode, Hbody.
        repeat (split; [reflexivity || exact Hauth|]). eexists. reflexivity.
    + simpl. eexists. eexists. eexists. split; [reflexivity|].
      cbn [wire_requests req_method req_url req_headers].
      rewrite Hnet, Hcode.
      repeat (split; [reflexivity || exact Hauth|]). eexists. reflexivity.
  - simpl. eexists. eexists. eexists. split; [reflexivity|].
    cbn [wire_requests req_method req_url req_headers].
    rewrite Hnet.
    repeat (split; [reflexivity || exact Hauth|]). eexists. reflexivity.
Qed.

(** X6. A request of the WAHA client with method GET, POST or PUT goes
    to [<endpoint>/api/<path>] with the Basic credentials of the client;
    the call returns the JSON body of an answer with status 200 or 201
    and the uniform failure for every other outcome (any other status,
    a body that is not JSON, a transport error). With any other method
    nothing is sent and the uniform failure is returned. *)
Theorem make_request_outcome (self : WAHAService) (endpoint_ : string)
        (data : option json) :
  (forall method : string,
      method = "GET" \/ method = "POST" \/ method = "PUT" ->
      client_call net self method endpoint_
                  (_make_request net self endpoint_ method data))
  /\ (forall (method : string) (w : Wire),
         method <> "GET" -> method <> "POST" -> method <> "PUT" ->
         exists w' : Wire,
           _make_request net self endpoint_ method data w
           = (Ok (error_dict ("Unsupported HTTP method: " ++ method)), w')
           /\ wire_requests w' = wire_requests w).
Proof.
  split; [intros method Hm; apply _make_request_call, Hm|].
  intros method w Hget Hpost Hput.
  unfold _make_request, try_except, bind.
  destruct (String.eqb_spec method "GET"); [contradiction|].
  destruct (String.eqb_spec method "POST"); [contradiction|].
  destruct (String.eqb_spec method "PUT"); [contradiction|].
  simpl. eexists. split; reflexivity.
Qed.

(** X7. The methods that query and control the session keep the
    contract of the client: each returns from every state, sends one
    request (GET or POST) to the path of the session, and returns the
    accepted body or the uniform failure. *)
Theorem waha_session_calls (self : WAHAService) :
  client_call net self "GET" ("getChats?session=" ++ session self)
              (WahaSession.get_chats net self)
  /\ client_call net self "GET" ("getContacts?session=" ++ session self)
                 (WahaSession.get_contacts net self)
  /\ (forall chat_id,
         client_call net self "POST" "getProfilePicture"
                     (WahaSession.get_profile_picture net self chat_id))
  /\ client_call net self "GET" ("sessions/" ++ session self ++ "/status")
                 (WahaSession.get_session_status net self)
  /\ client_call net self "POST" ("sessions/" ++ session self ++ "/start")
                 (WahaSession.start_session net self)
  /\ client_call net self "POST" ("sessions/" ++ session self ++ "/stop")
                 (WahaSession.stop_session net self).
Proof.
  repeat split; intros; apply _make_request_call; auto.
Qed.

Lemma contains_char_app (c : ascii) (a b : string) :
  contains_char c (a ++ b) = contains_char c a || contains_char c b.
Proof.
  induction a as [|x a IH]; simpl; [reflexivity|].
  rewrite IH. apply orb_assoc.
Qed.

(** X8. Formatting a chat id twice is formatting it once, and the
    formatted form of a non-empty id is a qualified id: it contains
    ["@"]. *)
Theorem format_chat_id_idempotent (chat_id : option string) :
  format_chat_id (format_chat_id chat_id) = format_chat_id chat_id
  /\ (str_truthy chat_id = true ->
      exists t : string,
        format_chat_id chat_id = Some t /\ contains_char "@" t = true).
Proof.
  destruct chat_id as [c|]; [|split; [reflexivity|discriminate]].
  unfold format_chat_id, str_truthy.
  destruct (nonempty c) eqn:Hc; cbn [andb].
  - destruct (contains_char "@" c) eqn:Hat; cbn [negb].
    + rewrite Hc, Hat. split; [reflexivity|]. intros _. eauto.
    + assert (contains_char "@" (remove_char " " (remove_char "+" c)
                                   ++ "@c.us") = true) as Hq
          by (rewrite contains_char_app; apply orb_true_r).
      rewrite Hq, andb_false_r.
      split; [reflexivity|]. intros _. eauto.
  - rewrite Hc. split; [reflexivity|discriminate].
Qed.

Lemma format_chat_id_idempotent_witness :
  exists t : string,
    format_chat_id (Some "+40 777 777 777") = Some t
    /\ contains_char "@" t = true.
Proof.
  apply (proj2 (format_chat_id_idempotent (Some "+40 777 777 777"))).
  reflexivity.
Defined.

Lemma rstrip_char_suffix (c : ascii) (s : string) :
  exists k : nat, s = rstrip_char c s ++ replicate k c.
Proof.
  induction s as [|a s [k IH]]; [exists 0; reflexivity|].
  simpl.
  destruct (Ascii.eqb_spec a c) as [->|Hac]; simpl.
  - destruct (String.eqb_spec (rstrip_char c s) "") as [He|Hne].
    + exists (S k). simpl. rewrite He in IH. simpl in IH.
      rewrite <- IH. reflexivity.
    + exists k. simpl. rewrite <- IH. reflexivity.
  - exists k. simpl. rewrite <- IH. reflexivity.
Qed.

Lemma rstrip_char_last (c : ascii) (s : string) :
  last_char (rstrip_char c s) <> Some c.
Proof.
  induction s as [|a s IH]; simpl; [discriminate|].
  destruct (rstrip_char c s) as [|b r] eqn:Hr.
  - rewrite andb_true_r. simpl.
    destruct (Ascii.eqb_spec a c) as [->|Hac]; simpl; congruence.
  - rewrite andb_false_r. exact IH.
Qed.

(** X9. The endpoint a client is built with loses exactly its trailing
    slashes: the stored endpoint does not end with ["/"] and the given
    one is the stored one followed by slashes only. *)
Theorem init_strips_trailing_slashes (e u p s : string) :
  last_char (endpoint (init e u p s)) <> Some "/"%char
  /\ exists k : nat, e = endpoint (init e u p s) ++ replicate k "/".
Proof.
  split; [apply rstrip_char_last|apply rstrip_char_suffix].
Qed.

End WahaClientProperties.

Lemma waha_client_uniform_failure_witness :
  exists reason w',
    Waha.send_text Samples.net_500
      (Waha.init "http://localhost:3000/" "admin" "secret" "default")
      (Some "+40 777 777 777") "hello" true (mkWire [] [])
    = (Ok (Waha.error_dict reason), w').
Proof.
  destruct (proj1 (waha_client_uniform_failure Samples.net_500
                     (Waha.init "http://localhost:3000/" "admin" "secret"
                                "default"))
              (Some "+40 777 777 777") "hello" true (mkWire [] []))
    as (v & r & w' & Hrun & _ & Hfail).
  destruct (Hfail ltac:(simpl; lia)) as [reason Hv].
  exists reason, w'. rewrite <- Hv. exact Hrun.
Defined.

(** ** Reasoning rules for effectful code *)

Section EffectRules.
Context {S : Type}.

Lemma wp_ret {A} (a : A) (Q : A -> S -> Prop) R s :
  Q a s -> wp (ret a) Q R s.
Proof. exact (fun H => H). Qed.

Lemma wp_raise {A} e (Q : A -> S -> Prop) R s : R e s -> wp (raise e) Q R s.
Proof. exact (fun H => H). Qed.

Lemma wp_bind {A B} (c : M S A) (k : A -> M S B) (Q : B -> S -> Prop) R s :
  wp c (fun a => wp (k a) Q R) R s -> wp (bind c k) Q R s.
Proof.
  unfold wp, bind. destruct (c s) as [[a|e] s']; auto.
Qed.

Lemma wp_try_except {A} (c : M S A) (h : exn -> M S A)
      (Q : A -> S -> Prop) R s :
  wp c Q (fun e => wp (h e) Q R) s -> wp (try_except c h) Q R s.
Proof.
  unfold wp, try_except. destruct (c s) as [[a|e] s']; auto.
Qed.

Lemma wp_get_state (Q : S -> S -> Prop) R s : Q s s -> wp get_state Q R s.
Proof. exact (fun H => H). Qed.

Lemma wp_lift_result {A} (r : result A) (Q : A -> S -> Prop) R s :
  match r with Ok a => Q a s | Raise e => R e s end ->
  wp (lift_result r) Q R s.
Proof. unfold wp, lift_result. destruct r; auto. Qed.

Lemma wp_mono {A} (c : M S A) (Q Q' : A -> S -> Prop) (R R' : exn -> S -> Prop)
      s :
  wp c Q R s ->
  (forall a s', Q a s' -> Q' a s') ->
  (forall e s', R e s' -> R' e s') ->
  wp c Q' R' s.
Proof.
  unfold wp. destruct (c s) as [[a|e] s']; auto.
Qed.

(** A [wp] with an unsatisfiable exceptional postcondition gives a
    result. *)
Lemma wp_returns {A} (c : M S A) (Q : A -> S -> Prop) s :
  wp c Q (fun _ _ => False) s -> exists a s', c s = (Ok a, s') /\ Q a s'.
Proof.
  unfold wp. destruct (c s) as [[a|e] s']; [eauto|contradiction].
Qed.

(** Properties of the state that every step keeps. *)

Lemma preserves_ret {A} (P : S -> Prop) (a : A) : preserves P (ret a).
Proof. intros s Hs. exact Hs. Qed.

Lemma preserves_raise {A} (P : S -> Prop) e : preserves P (@raise S A e).
Proof. intros s Hs. exact Hs. Qed.

Lemma preserves_lift_result {A} (P : S -> Prop) (r : result A) :
  preserves P (lift_result r).
Proof. intros s Hs. apply wp_lift_result. destruct r; exact Hs. Qed.

Lemma preserves_get_state (P : S -> Prop) : preserves P get_state.
Proof. intros s Hs. exact Hs. Qed.

Lemma preserves_bind {A B} (P : S -> Prop) (c : M S A) (k : A -> M S B) :
  preserves P c -> (forall a, preserves P (k a)) -> preserves P (bind c k).
Proof.
  intros Hc Hk s Hs. apply wp_bind.
  eapply wp_mono; [apply Hc, Hs| |auto].
  intros a s' Hs'. apply Hk, Hs'.
Qed.

Lemma preserves_try_except {A} (P : S -> Prop) (c : M S A)
      (h : exn -> M S A) :
  preserves P c -> (forall e, preserves P (h e)) ->
  preserves P (try_except c h).
Proof.
  intros Hc Hh s Hs. apply wp_try_except.
  eapply wp_mono; [apply Hc, Hs|auto|].
  intros e s' Hs'. apply Hh, Hs'.
Qed.

Lemma yields_ret {A} (Q : A -> Prop) (a : A) : Q a -> yields Q (@ret S A a).
Proof. intros Ha s. exact Ha. Qed.

Lemma yields_raise {A} (Q : A -> Prop) e : yields Q (@raise S A e).
Proof. intros s. exact I. Qed.

Lemma yields_bind {A B} (Q : B -> Prop) (c : M S A) (k : A -> M S B) :
  (forall a, yields Q (k a)) -> yields Q (bind c k).
Proof.
  intros Hk s. apply wp_bind. unfold wp at 1.
  destruct (c s) as [[a|e] s']; [apply Hk|exact I].
Qed.

Lemma yields_try_except {A} (Q : A -> Prop) (c : M S A) (h : exn -> M S A) :
  yields Q c -> (forall e, yields Q (h e)) -> yields Q (try_except c h).
Proof.
  intros Hc Hh s. apply wp_try_except.
  eapply wp_mono; [apply Hc|auto|].
  intros e s' _. apply Hh.
Qed.

(** A [try] whose handler always returns gives an answer. *)
Lemma try_except_answers {A} (Q : A -> Prop) (c : M S A) (h : exn -> M S A)
      s :
  yields Q c ->
  (forall e s1, exists a s2, h e s1 = (Ok a, s2) /\ Q a) ->
  exists a s', try_except c h s = (Ok a, s') /\ Q a.
Proof.
  intros Hc Hh. specialize (Hc s). unfold wp in Hc. unfold try_except.
  destruct (c s) as [[a|e] s1]; [eauto|apply Hh].
Qed.

(** The first statement of a sequence keeps [P]; the rest runs from a
    state with [P]. *)
Lemma wp_preserved {A B} (P : S -> Prop) (c : M S A) (k : A -> M S B)
      (Q : B -> S -> Prop) R s :
  preserves P c -> P s ->
  (forall a s', P s' -> wp (k a) Q R s') ->
  (forall e s', P s' -> R e s') ->
  wp (bind c k) Q R s.
Proof.
  intros Hc Hs Hk HR. apply wp_bind.
  eapply wp_mono; [apply Hc, Hs|exact Hk|exact HR].
Qed.

Lemma preserves_run {A} (P : S -> Prop) (c : M S A) s :
  preserves P c -> P s -> P (snd (c s)).
Proof.
  intros Hc Hs. specialize (Hc s Hs). unfold wp in Hc.
  destruct (c s) as [[a|e] s']; exact Hc.
Qed.

End EffectRules.

(** One step of a proof about the values a computation returns: along
    the continuations down to the returns. *)
Ltac yield_step :=
  cbv beta zeta;
  lazymatch goal with
  | |- yields _ (bind _ _) => apply yields_bind; intros ?
  | |- yields _ (ret _) => apply yields_ret
  | |- yields _ (raise _) => apply yields_raise
  | |- yields _ (try_except _ _) => apply yields_try_except; [|intros ?]
  | |- yields _ (if ?b then _ else _) => destruct b
  | |- yields _ (match ?x with _ => _ end) => destruct x
  end.

(** One step of a proof that a computation keeps a property: through
    the control structure down to the primitive steps. *)
Ltac preserve_step :=
  cbv beta zeta;
  lazymatch goal with
  | |- preserves _ (bind _ _) => apply preserves_bind; [|intros ?]
  | |- preserves _ (ret _) => apply preserves_ret
  | |- preserves _ (raise _) => apply preserves_raise
  | |- preserves _ (lift_result _) => apply preserves_lift_result
  | |- preserves _ get_state => apply preserves_get_state
  | |- preserves _ (try_except _ _) =>
      apply preserves_try_except; [|intros ?]
  | |- preserves _ (try_except_only _ _ _) => unfold try_except_only
  | |- preserves _ (try_except_kinds _ _ _) => unfold try_except_kinds
  | |- preserves _ (if ?b then _ else _) => destruct b
  | |- preserves _ (match ?x with _ => _ end) => destruct x
  end.


(** ** Outbound dispatch *)

Section DispatchProperties.
Import ContactModel Waha Dispatch.
Local Open Scope eff_scope.
Variable pf : Platform.
Variable net : network.

Lemma copy_field_pk src f r : msg_pk (copy_field src f r) = msg_pk r.
Proof. destruct f; reflexivity. Qed.

Lemma copy_fields_pk src fs r : msg_pk (copy_fields src fs r) = msg_pk r.
Proof.
  unfold copy_fields. revert r.
  induction fs as [|f fs IH]; intros r; simpl; [reflexivity|].
  rewrite IH. apply copy_field_pk.
Qed.

Lemma existsb_has_pk_map pk (g : Message -> Message) rows :
  (forall r, msg_pk (g r) = msg_pk r) ->
  existsb (has_pk pk) (map (fun r => if has_pk pk r then g r else r) rows)
  = existsb (has_pk pk) rows.
Proof.
  intros Hg. induction rows as [|r rows IH]; simpl; [reflexivity|].
  rewrite IH. f_equal.
  destruct (has_pk pk r) eqn:Hr; [|exact Hr].
  unfold has_pk in *. rewrite Hg. exact Hr.
Qed.

Lemma has_pk_iff pk r : has_pk pk r = true <-> msg_pk r = Some pk.
Proof.
  unfold has_pk. destruct (msg_pk r) as [k|]; simpl.
  - rewrite Nat.eqb_eq. split; congruence.
  - split; discriminate.
Qed.

(** What an update of the columns [fs] leaves behind when it goes
    through, for column lists that contain [status]. *)
Lemma save_update_fields_ok fs inst rows rows' pk :
  msg_pk inst = Some pk ->
  (forall src r, msg_status (copy_fields src fs r) = msg_status src) ->
  save_update_fields fs inst rows = Ok rows' ->
  existsb (has_pk pk) rows' = existsb (has_pk pk) rows
  /\ forall r, In r rows' -> msg_pk r = Some pk ->
               msg_status r = msg_status inst.
Proof.
  intros Hpk Hst. unfold save_update_fields. rewrite Hpk.
  assert (forall rows0,
             rows0 = map (fun r => if has_pk pk r
                                   then copy_fields inst fs r else r) rows ->
             existsb (has_pk pk) rows0 = existsb (has_pk pk) rows
             /\ forall r, In r rows0 -> msg_pk r = Some pk ->
                          msg_status r = msg_status inst) as Hmap.
  { intros rows0 ->. split.
    - apply existsb_has_pk_map. intros r. apply copy_fields_pk.
    - intros r Hin Hr. apply in_map_iff in Hin.
      destruct Hin as (r0 & Heq & _).
      destruct (has_pk pk r0) eqn:H0.
      + subst r. apply Hst.
      + subst r. apply has_pk_iff in Hr. congruence. }
  destruct (existsb (has_pk pk) rows); simpl; [|discriminate].
  destruct (existsb is_message_id fs).
  - destruct (msg_message_id inst) as [mid|]; [|discriminate].
    destruct (existsb _ (filter_by_message_id rows mid)); [discriminate|].
    intros [= <-]. apply Hmap. reflexivity.
  - intros [= <-]. apply Hmap. reflexivity.
Qed.

Lemma save_update_fields_status inst rows pk :
  msg_pk inst = Some pk ->
  existsb (has_pk pk) rows = true ->
  exists rows', save_update_fields [F_status] inst rows = Ok rows'.
Proof.
  intros Hpk Hex. unfold save_update_fields. rewrite Hpk, Hex. simpl.
  eauto.
Qed.

(** *** Rules for the primitive steps, over persisted frames *)

Lemma wp_log lvl msg (Q : unit -> Frame -> Prop) R fr :
  persisted fr ->
  (forall fr', persisted fr' ->
               instance fr' = instance fr ->
               w_messages (world fr') = w_messages (world fr) ->
               requests_of fr' = requests_of fr -> Q tt fr') ->
  wp (log lvl msg) Q R fr.
Proof.
  intros Hp HQ. unfold wp. simpl. apply HQ; auto.
Qed.

Lemma wp_network {A} (c : M Wire A) (Q : A -> Frame -> Prop) R fr :
  persisted fr ->
  (forall a fr', persisted fr' -> instance fr' = instance fr -> Q a fr') ->
  (forall e fr', persisted fr' -> instance fr' = instance fr -> R e fr') ->
  wp (on_world (on_wire c)) Q R fr.
Proof.
  intros Hp HQ HR. unfold wp, on_world, on_wire, zoom.
  destruct (c (w_wire (world fr))) as [[a|e] w']; simpl;
    [apply HQ|apply HR]; auto.
Qed.

Lemma wp_assign_status s (Q : unit -> Frame -> Prop) R fr :
  persisted fr ->
  (forall fr', persisted fr' -> msg_status (instance fr') = s ->
               w_messages (world fr') = w_messages (world fr) ->
               requests_of fr' = requests_of fr -> Q tt fr') ->
  wp (assign (set_status s)) Q R fr.
Proof.
  intros Hp HQ. unfold wp. simpl. apply HQ; auto.
Qed.

Lemma wp_assign_message_id v (Q : unit -> Frame -> Prop) R fr :
  persisted fr ->
  (forall fr', persisted fr' -> Q tt fr') ->
  wp (assign (set_message_id v)) Q R fr.
Proof.
  intros Hp HQ. unfold wp. simpl. apply HQ; auto.
Qed.

Lemma wp_save_cases fs (Q : unit -> Frame -> Prop) R fr :
  persisted fr ->
  (forall src r, msg_status (copy_fields src fs r) = msg_status src) ->
  (forall fr', persisted fr' ->
               status_is (msg_status (instance fr)) fr' ->
               requests_of fr' = requests_of fr -> Q tt fr') ->
  (forall e,
      save_update_fields fs (instance fr) (w_messages (world fr)) = Raise e ->
      R e fr) ->
  wp (save fs) Q R fr.
Proof.
  intros (pk & Hpk & Hex) Hst HQ HR. unfold wp, save.
  destruct (save_update_fields fs (instance fr) (w_messages (world fr)))
    as [rows'|e] eqn:Hsave; [|apply HR; reflexivity].
  destruct (save_update_fields_ok _ _ _ _ _ Hpk Hst Hsave) as [Hex' Hrows].
  apply HQ.
  - exists pk. simpl. split; [exact Hpk|]. rewrite Hex'. exact Hex.
  - split; [reflexivity|]. simpl. intros r Hin Hr. apply Hrows; auto.
    congruence.
  - reflexivity.
Qed.

Lemma wp_save fs (Q : unit -> Frame -> Prop) R fr :
  persisted fr ->
  (forall src r, msg_status (copy_fields src fs r) = msg_status src) ->
  (forall fr', persisted fr' ->
               status_is (msg_status (instance fr)) fr' ->
               requests_of fr' = requests_of fr -> Q tt fr') ->
  (forall e, R e fr) ->
  wp (save fs) Q R fr.
Proof.
  intros Hp Hst HQ HR. apply wp_save_cases; auto.
Qed.

Lemma wp_save_status (Q : unit -> Frame -> Prop) R fr :
  persisted fr ->
  (forall fr', persisted fr' ->
               status_is (msg_status (instance fr)) fr' ->
               requests_of fr' = requests_of fr -> Q tt fr') ->
  wp (save [F_status]) Q R fr.
Proof.
  intros Hp HQ. apply wp_save_cases; auto.
  intros e He. destruct Hp as (pk & Hpk & Hex).
  destruct (save_update_fields_status _ _ _ Hpk Hex) as [rows' Hsave].
  congruence.
Qed.

Lemma wp_contact_get to_number (Q : Contact -> Frame -> Prop) R fr :
  (forall c, Q c fr) -> (forall e, R e fr) ->
  wp (contact_get to_number) Q R fr.
Proof.
  intros HQ HR. unfold wp, contact_get.
  destruct (ContactModel.objects_get _ _); auto.
Qed.

Ltac wp_step :=
  cbv beta;
  lazymatch goal with
  | |- wp (bind _ _) _ _ _ => apply wp_bind
  | |- wp (ret _) _ _ _ => apply wp_ret
  | |- wp (raise _) _ _ _ => apply wp_raise
  | |- wp (try_except _ _) _ _ _ => apply wp_try_except
  | |- wp get_state _ _ _ => apply wp_get_state
  | |- wp (lift_result ?r) _ _ _ => apply wp_lift_result; destruct r
  | |- wp (log _ _) _ _ _ => apply wp_log; [assumption|intros]
  | |- wp (assign (set_status _)) _ _ _ =>
      apply wp_assign_status; [assumption|intros]
  | |- wp (assign (set_message_id _)) _ _ _ =>
      apply wp_assign_message_id; [assumption|intros]
  | |- wp (save [F_status]) _ _ _ =>
      apply wp_save_status; [assumption|intros]
  | |- wp (save _) _ _ _ =>
      apply wp_save; [assumption|reflexivity|intros|intros]
  | |- wp (on_world (on_wire _)) _ _ _ =>
      apply wp_network; [assumption|intros|intros]
  | |- wp (contact_get _) _ _ _ => apply wp_contact_get; intros
  | |- wp (response_json _) _ _ _ => unfold response_json
  | |- wp (if ?b then _ else _) _ _ _ => destruct b eqn:?
  | |- wp (match ?x with _ => _ end) _ _ _ => destruct x eqn:?
  end.

(** Close a leaf: the invariant, and the status the last save wrote. *)
Ltac wp_leaf :=
  cbv beta;
  repeat match goal with
         | |- _ /\ _ => split
         end;
  try assumption;
  try reflexivity;
  try match goal with
      | H : status_is (msg_status (instance ?f)) ?g,
        E : msg_status (instance ?f) = ?s |- status_is ?s ?g =>
          rewrite E in H; exact H
      end;
  try congruence.

(** The three statements every failure exit runs. *)
Lemma fail_message_spec why fr :
  persisted fr ->
  wp (fail_message why)
     (fun b fr' => b = false /\ persisted fr' /\ status_is "failed" fr'
                   /\ requests_of fr' = requests_of fr)
     (fun _ _ => False) fr.
Proof.
  intros Hp. unfold fail_message.
  repeat wp_step. wp_leaf.
Qed.

Lemma _send_official_api_message_spec self to_number message_text
      template_name template_params media_url media_type fr :
  persisted fr ->
  wp (_send_official_api_message pf net self to_number message_text
        template_name template_params media_url media_type true)
     (fun _ fr' => persisted fr' /\ status_is "sent" fr')
     (fun _ fr' => persisted fr') fr.
Proof.
  intros Hp. unfold _send_official_api_message. cbv zeta.
  repeat wp_step; wp_leaf.
Qed.

Lemma _send_waha_api_message_spec self to_number message_text
      template_name template_params media_url media_type fr :
  persisted fr ->
  wp (_send_waha_api_message pf net self to_number message_text
        template_name template_params media_url media_type true)
     (fun _ fr' => persisted fr' /\ status_is "sent" fr')
     (fun _ fr' => persisted fr') fr.
Proof.
  intros Hp. unfold _send_waha_api_message, try_except_only. cbv zeta.
  repeat wp_step; wp_leaf.
Qed.

Lemma _send_message_without_record_spec self to_number message_text
      template_name template_params media_url media_type fr :
  persisted fr ->
  wp (_send_message_without_record pf net self to_number message_text
        template_name template_params media_url media_type true)
     (fun _ fr' => persisted fr' /\ status_is "sent" fr')
     (fun _ fr' => persisted fr') fr.
Proof.
  intros Hp. unfold _send_message_without_record.
  destruct (is_official_api self);
    [apply _send_official_api_message_spec; exact Hp|].
  destruct (is_waha_api self);
    [apply _send_waha_api_message_spec; exact Hp|].
  apply wp_raise. exact Hp.
Qed.

Ltac dispatch_step :=
  first
    [ wp_step
    | lazymatch goal with
      | |- wp (fail_message _) _ _ _ =>
          eapply wp_mono;
          [ apply fail_message_spec; assumption
          | cbv beta;
            let b := fresh "b" in
            let fr := fresh "fr" in
            let Hb := fresh "Hb" in
            intros b fr (Hb & ? & ? & ?); subst b
          | intros; contradiction ]
      | |- wp (_send_message_without_record _ _ _ _ _ _ _ _ _ _) _ _ _ =>
          eapply wp_mono;
          [ apply _send_message_without_record_spec; assumption
          | cbv beta; intros ? ? (? & ?)
          | cbv beta; intros ]
      end ].

Lemma process_message_for_sending_spec self fr :
  persisted fr ->
  wp (process_message_for_sending pf net self) dispatched (fun _ _ => False)
     fr.
Proof.
  intros Hp. unfold process_message_for_sending, dispatched. cbv zeta.
  repeat dispatch_step; wp_leaf.
Qed.

(** A WAHA number never sends a template: the message fails before any
    request is made. *)
Lemma process_message_for_sending_waha_template self fr :
  persisted fr ->
  is_waha_api self = true ->
  msg_message_type (instance fr) = "template" ->
  wp (process_message_for_sending pf net self)
     (fun b fr' => b = false /\ status_is "failed" fr'
                   /\ requests_of fr' = requests_of fr)
     (fun _ _ => False) fr.
Proof.
  intros Hp Hwaha Hty. unfold process_message_for_sending.
  rewrite Hwaha.
  assert (is_official_api self = false) as ->.
  { unfold is_official_api, is_waha_api in *.
    apply String.eqb_eq in Hwaha. rewrite Hwaha. reflexivity. }
  cbn [andb].
  destruct (negb (is_active self));
    [repeat dispatch_step; wp_leaf|].
  destruct (negb (waha_credentials self));
    [repeat dispatch_step; wp_leaf|].
  apply wp_try_except, wp_bind, wp_get_state. cbv beta zeta.
  rewrite Hty. cbn [String.eqb Ascii.eqb Bool.eqb].
  repeat dispatch_step; wp_leaf.
Qed.

(** C3. Dispatch of a stored message returns a boolean and never raises,
    whatever the API type of the phone number and the type of the
    message; a template message on a WAHA number always gives [False],
    leaves the message with status "failed" and makes no HTTP request. *)
Theorem process_message_for_sending_total (self : PhoneNumber) (fr : Frame) :
  persisted fr ->
  (exists (b : bool) (fr' : Frame),
      process_message_for_sending pf net self fr = (Ok b, fr'))
  /\ (is_waha_api self = true ->
      msg_message_type (instance fr) = "template" ->
      exists fr' : Frame,
        process_message_for_sending pf net self fr = (Ok false, fr')
        /\ status_is "failed" fr'
        /\ requests_of fr' = requests_of fr).
Proof.
  intros Hp. split.
  - destruct (wp_returns _ _ _ (process_message_for_sending_spec self fr Hp))
      as (b & fr' & Hrun & _).
    eauto.
  - intros Hwaha Hty.
    destruct (wp_returns _ _ _
                (process_message_for_sending_waha_template self fr Hp
                   Hwaha Hty))
      as (b & fr' & Hrun & Hb & Hst & Hreq).
    subst b. eauto.
Qed.



(** *** Dispatches that make no request *)

Lemma fail_message_quiet why fr (Q : bool -> Frame -> Prop) R :
  persisted fr ->
  (forall fr', status_is "failed" fr' ->
               requests_of fr' = requests_of fr -> Q false fr') ->
  wp (fail_message why) Q R fr.
Proof.
  intros Hp HQ.
  eapply wp_mono; [apply fail_message_spec, Hp| |intros ? ? []].
  cbv beta. intros b fr' (-> & _ & Hst & Hreq). apply HQ; assumption.
Qed.

(** X10. A phone number that is not active, an official number without
    access token and a WAHA number without its three credentials send
    nothing: the dispatch of a stored message returns [False], leaves the
    message "failed" and makes no HTTP request. *)
Theorem process_message_for_sending_unconfigured
        (self : PhoneNumber) (fr : Frame) :
  persisted fr ->
  is_active self = false
  \/ (is_official_api self = true /\ access_token self = "")
  \/ (is_waha_api self = true /\ waha_credentials self = false) ->
  exists fr' : Frame,
    process_message_for_sending pf net self fr = (Ok false, fr')
    /\ status_is "failed" fr'
    /\ requests_of fr' = requests_of fr.
Proof.
  intros Hp Hcfg.
  assert (wp (process_message_for_sending pf net self)
             (fun b fr' => b = false /\ status_is "failed" fr'
                           /\ requests_of fr' = requests_of fr)
             (fun _ _ => False) fr) as H.
  { unfold process_message_for_sending.
    destruct (is_active self); cbn [negb];
      [|apply fail_message_quiet; auto].
    destruct (is_official_api self && negb (nonempty (access_token self)))
      eqn:Hoff; [apply fail_message_quiet; auto|].
    destruct (is_waha_api self && negb (waha_credentials self)) eqn:Hwaha;
      [apply fail_message_quiet; auto|].
    exfalso. destruct Hcfg as [Ha | [[Ho Ht] | [Hw Hc]]].
    - discriminate.
    - rewrite Ho, Ht in Hoff. discriminate.
    - rewrite Hw, Hc in Hwaha. discriminate. }
  destruct (wp_returns _ _ _ H) as (b & fr' & Hrun & -> & Hst & Hreq).
  eauto.
Qed.

(** X11. What cannot be sent is not sent: for a message whose type is
    none of text, template, image, audio, video and document, and for a
    phone number whose API type is neither "official" nor "waha", the
    dispatch of a stored message returns [False], leaves the message
    "failed" and makes no HTTP request. *)
Theorem process_message_for_sending_unsupported
        (self : PhoneNumber) (fr : Frame) :
  persisted fr ->
  existsb (String.eqb (msg_message_type (instance fr)))
          ["text"; "template"; "image"; "audio"; "video"; "document"] = false
  \/ (is_official_api self = false /\ is_waha_api self = false) ->
  exists fr' : Frame,
    process_message_for_sending pf net self fr = (Ok false, fr')
    /\ status_is "failed" fr'
    /\ requests_of fr' = requests_of fr.
Proof.
  intros Hp Hun.
  assert (wp (process_message_for_sending pf net self)
             (fun b fr' => b = false /\ status_is "failed" fr'
                           /\ requests_of fr' = requests_of fr)
             (fun _ _ => False) fr) as H.
  { unfold process_message_for_sending.
    destruct (negb (is_active self)); [apply fail_message_quiet; auto|].
    destruct (is_official_api self && negb (nonempty (access_token self)));
      [apply fail_message_quiet; auto|].
    destruct (is_waha_api self && negb (waha_credentials self));
      [apply fail_message_quiet; auto|].
    apply wp_try_except, wp_bind, wp_get_state. cbv beta zeta.
    destruct Hun as [Hty | [Hoff Hwaha]].
    - cbn [existsb] in Hty.
      repeat (apply orb_false_iff in Hty;
              let H := fresh "Hty" in destruct Hty as [H Hty]).
      cbn [existsb].
      repeat match goal with
             | H : (_ =? _) = false |- _ => rewrite H; clear H
             end.
      cbn [orb]. apply fail_message_quiet; auto.
    - unfold _send_message_without_record. rewrite Hoff, Hwaha.
      repeat first [ lazymatch goal with
                     | |- wp (fail_message _) _ _ _ =>
                         apply fail_message_quiet; [assumption|intros]
                     end
                   | wp_step ];
        wp_leaf. }
  destruct (wp_returns _ _ _ H) as (b & fr' & Hrun & -> & Hst & Hreq).
  eauto.
Qed.

(** X12. [retry_send] leaves a message that is not outgoing alone: it
    returns [False], writes nothing to the message or to the Message
    table and makes no HTTP request. *)
Theorem retry_send_not_outgoing (fr : Frame) :
  msg_direction (instance fr) <> "outgoing" ->
  exists fr' : Frame,
    retry_send pf net fr = (Ok false, fr')
    /\ instance fr' = instance fr
    /\ w_messages (world fr') = w_messages (world fr)
    /\ requests_of fr' = requests_of fr.
Proof.
  intros Hdir. unfold retry_send, bind, get_state.
  destruct (String.eqb_spec (msg_direction (instance fr)) "outgoing");
    [contradiction|].
  cbn [negb]. eexists. split; [reflexivity|]. repeat split.
Qed.

(** *** Dispatches the backend does not confirm *)

Lemma refused_not_accepted (o : http_outcome) :
  refused o -> accepted_body o = None.
Proof.
  destruct o as [resp|e]; simpl; [|reflexivity].
  intros Hno.
  destruct ((status_code resp =? 200) || (status_code resp =? 201))%Z
    eqn:Hcode; [|reflexivity].
  exfalso. apply Hno.
  apply orb_true_iff in Hcode. destruct Hcode as [H|H];
    apply Z.eqb_eq in H; lia.
Qed.

Lemma wp_requests_send r (Q : http_response -> Frame -> Prop) R fr :
  persisted fr ->
  (forall resp fr', persisted fr' -> instance fr' = instance fr ->
                    net (requests_of fr) r = Responds resp -> Q resp fr') ->
  (forall e fr', persisted fr' -> instance fr' = instance fr -> R e fr') ->
  wp (on_world (on_wire (requests_send net r))) Q R fr.
Proof.
  intros Hp HQ HR. unfold wp, on_world, on_wire, zoom, requests_send.
  unfold requests_of in HQ.
  destruct (net (wire_requests (w_wire (world fr))) r) as [resp|e] eqn:Hnet;
    simpl; [apply HQ|apply HR]; auto.
Qed.

Lemma wp_client_call self method path (c : M Wire json)
      (Q : json -> Frame -> Prop) R fr :
  persisted fr ->
  client_call net self method path c ->
  (forall h r b, accepted_body (net h r) = Some b ->
                 reports_success b = false) ->
  (forall v fr', persisted fr' -> instance fr' = instance fr ->
                 reports_success v = false -> Q v fr') ->
  wp (on_world (on_wire c)) Q R fr.
Proof.
  intros Hp Hc Hflag HQ. unfold wp, on_world, on_wire, zoom.
  destruct (Hc (w_wire (world fr)))
    as (v & r & w' & Hrun & _ & _ & _ & _ & Hv).
  rewrite Hrun. simpl. apply HQ; auto.
  destruct (accepted_body (net (wire_requests (w_wire (world fr))) r))
    as [b|] eqn:Ha.
  - subst v. eapply Hflag, Ha.
  - destruct Hv as [reason ->]. reflexivity.
Qed.

Ltac flag_contradiction :=
  match goal with
  | Hr : reports_success ?v = false, Hg : get ?v "success" = Ok ?s,
    Ht : truthy ?s = true |- _ =>
      unfold reports_success in Hr; rewrite Hg in Hr; congruence
  end.

Lemma _send_waha_api_message_unconfirmed self to_number message_text
      template_name template_params media_url media_type fr :
  (forall h r b, accepted_body (net h r) = Some b ->
                 reports_success b = false) ->
  persisted fr ->
  wp (_send_waha_api_message pf net self to_number message_text
        template_name template_params media_url media_type true)
     (fun _ _ => False) (fun _ fr' => persisted fr') fr.
Proof.
  intros Hflag Hp. unfold _send_waha_api_message, try_except_only. cbv zeta.
  repeat
    (cbv beta;
     first
       [ lazymatch goal with
         | |- wp (on_world (on_wire _)) _ _ _ =>
             eapply wp_client_call;
             [ assumption
             | apply _make_request_call; auto
             | exact Hflag
             | intros ]
         | |- wp (lift_result (get ?v "success")) _ _ _ =>
             apply wp_lift_result; destruct (get v "success") eqn:?
         | |- wp (if truthy ?s then _ else _) _ _ _ =>
             destruct (truthy s) eqn:?; [exfalso; flag_contradiction|]
         end
       | wp_step ]);
    wp_leaf.
Qed.

Lemma _send_official_api_message_unconfirmed self to_number message_text
      template_name template_params media_url media_type fr :
  (forall h r resp, net h r = Responds resp -> status_code resp <> 200%Z) ->
  persisted fr ->
  wp (_send_official_api_message pf net self to_number message_text
        template_name template_params media_url media_type true)
     (fun _ _ => False) (fun _ fr' => persisted fr') fr.
Proof.
  intros Hno Hp. unfold _send_official_api_message. cbv zeta.
  repeat
    (cbv beta;
     first
       [ lazymatch goal with
         | |- wp (on_world (on_wire (requests_send _ _))) _ _ _ =>
             apply wp_requests_send; [assumption|intros|intros]
         | Hnet : net _ _ = Responds ?resp
           |- wp (if (status_code ?resp =? 200)%Z then _ else _) _ _ _ =>
             destruct (Z.eqb_spec (status_code resp) 200);
             [exfalso; eapply Hno; eassumption|]
         end
       | wp_step ]);
    wp_leaf.
Qed.

(** The dispatch when the send path cannot come back with an answer. *)
Lemma process_message_for_sending_fails self fr :
  (forall to_number message_text template_name template_params media_url
          media_type fr0,
      persisted fr0 ->
      wp (_send_message_without_record pf net self to_number message_text
            template_name template_params media_url media_type true)
         (fun _ _ => False) (fun _ fr' => persisted fr') fr0) ->
  persisted fr ->
  wp (process_message_for_sending pf net self)
     (fun b fr' => b = false /\ status_is "failed" fr')
     (fun _ _ => False) fr.
Proof.
  intros Hsend Hp. unfold process_message_for_sending. cbv zeta.
  repeat
    first
      [ lazymatch goal with
        | |- wp (_send_message_without_record _ _ _ _ _ _ _ _ _ _) _ _ _ =>
            eapply wp_mono;
            [ apply Hsend; assumption
            | cbv beta; intros ? ? []
            | cbv beta; intros ]
        | |- wp (fail_message _) _ _ _ =>
            apply fail_message_quiet; [assumption|intros]
        end
      | wp_step ];
    wp_leaf.
Qed.

Lemma refused_dispatch self fr :
  persisted fr ->
  (forall h r, refused (net h r)) ->
  wp (process_message_for_sending pf net self)
     (fun b fr' => b = false /\ status_is "failed" fr')
     (fun _ _ => False) fr.
Proof.
  intros Hp Hnet.
  assert (forall h r b, accepted_body (net h r) = Some b ->
                        reports_success b = false) as Hflag.
  { intros h r b Ha. rewrite (refused_not_accepted _ (Hnet h r)) in Ha.
    discriminate. }
  assert (forall h r resp, net h r = Responds resp ->
                           status_code resp <> 200%Z) as Hno.
  { intros h r resp Hr Hc. specialize (Hnet h r). rewrite Hr in Hnet.
    simpl in Hnet. lia. }
  apply process_message_for_sending_fails; [|exact Hp].
  intros. unfold _send_message_without_record.
  destruct (is_official_api self);
    [apply _send_official_api_message_unconfirmed; auto|].
  destruct (is_waha_api self);
    [apply _send_waha_api_message_unconfirmed; auto|].
  apply wp_raise; assumption.
Qed.

(** X13. When the backend refuses every request (a status outside
    200..299 or a transport error), the dispatch of a stored message
    returns [False] and leaves the message "failed", whatever the API
    type of the phone number and the type of the message. *)
Theorem process_message_for_sending_refused
        (self : PhoneNumber) (fr : Frame) :
  persisted fr ->
  (forall h r, refused (net h r)) ->
  exists fr' : Frame,
    process_message_for_sending pf net self fr = (Ok false, fr')
    /\ status_is "failed" fr'.
Proof.
  intros Hp Hnet.
  destruct (wp_returns _ _ _ (refused_dispatch self fr Hp Hnet))
    as (b & fr' & Hrun & -> & Hst).
  eauto.
Qed.

(** X14. A WAHA send counts as gone out only when the answer of the
    backend carries a truthy [success] entry: if no accepted answer
    (status 200 or 201 with a JSON body) does, the dispatch of a stored
    message on a WAHA number returns [False] and leaves the message
    "failed", although the backend accepted the request. *)
Theorem waha_dispatch_needs_success_flag (self : PhoneNumber) (fr : Frame) :
  persisted fr ->
  is_waha_api self = true ->
  (forall h r b, accepted_body (net h r) = Some b ->
                 reports_success b = false) ->
  exists fr' : Frame,
    process_message_for_sending pf net self fr = (Ok false, fr')
    /\ status_is "failed" fr'.
Proof.
  intros Hp Hwaha Hflag.
  assert (is_official_api self = false) as Hoff.
  { unfold is_official_api, is_waha_api in *.
    apply String.eqb_eq in Hwaha. rewrite Hwaha. reflexivity. }
  destruct (wp_returns _ _ _
              (process_message_for_sending_fails self fr
                 ltac:(intros; unfold _send_message_without_record;
                       rewrite Hoff, Hwaha;
                       apply _send_waha_api_message_unconfirmed; auto)
                 Hp))
    as (b & fr' & Hrun & -> & Hst).
  eauto.
Qed.

(** *** A dispatch the backend confirms *)

Lemma official_text_dispatch_run
        (self : PhoneNumber) (fr : Frame) (pk : nat) (resp : http_response)
        (body first : list (string * json)) (rest : list json)
        (new_id : string) :
  msg_pk (instance fr) = Some pk ->
  existsb (has_pk pk) (w_messages (world fr)) = true ->
  is_active self = true ->
  is_official_api self = true ->
  access_token self <> "" ->
  msg_message_type (instance fr) = "text" ->
  str_truthy (msg_content (instance fr)) = true ->
  (forall r, net (requests_of fr) r = Responds resp) ->
  status_code resp = 200%Z ->
  parsed resp = Some (JDict body) ->
  assoc "messages" body = Some (JList (JDict first :: rest)) ->
  assoc "id" first = Some (JStr new_id) ->
  (forall r, In r (w_messages (world fr)) ->
             msg_message_id r = Some new_id -> msg_pk r = Some pk) ->
  exists (fr' : Frame) (r : http_request) (payload : list (string * json)),
    process_message_for_sending pf net self fr = (Ok true, fr')
    /\ status_is "sent" fr'
    /\ msg_message_id (instance fr') = Some new_id
    /\ (forall row, In row (w_messages (world fr')) ->
                    msg_pk row = Some pk -> msg_message_id row = Some new_id)
    /\ requests_of fr' = (requests_of fr ++ [r])%list
    /\ req_method r = "POST"
    /\ req_url r = WHATSAPP_API_URL pf ++ "/"
                   ++ opt_str_text (phone_number_id self) ++ "/messages"
    /\ In ("Authorization", Bearer (access_token self)) (req_headers r)
    /\ req_json r = Some (JDict payload)
    /\ field_of payload "to" = json_of_opt_str (msg_to_number (instance fr))
    /\ field_of payload "type" = JStr "text"
    /\ field_of payload "text"
       = JDict [("body", json_of_opt_str (msg_content (instance fr)))].
Proof.
  intros Hpk Hex Hact Hoff Htok Hty Hcontent Hnet Hcode Hbody Hmsgs Hid Huniq.
  assert (is_waha_api self = false) as Hwaha.
  { unfold is_official_api, is_waha_api in *.
    apply String.eqb_eq in Hoff. rewrite Hoff. reflexivity. }
  assert (nonempty (access_token self) = true) as Hne.
  { unfold nonempty. destruct (String.eqb_spec (access_token self) ""); auto. }
  assert (existsb (fun r => negb (has_pk pk r))
            (filter_by_message_id (w_messages (world fr)) new_id) = false)
    as Hfree.
  { apply not_true_is_false. intros Hsome.
    apply existsb_exists in Hsome. destruct Hsome as (r & Hin & Hr).
    apply filter_In in Hin. destruct Hin as [Hin Hmid].
    destruct (msg_message_id r) as [x|] eqn:Hx; [|discriminate].
    simpl in Hmid. apply String.eqb_eq in Hmid. subst x.
    rewrite (proj2 (has_pk_iff pk r) (Huniq r Hin Hx)) in Hr.
    discriminate. }
  unfold process_message_for_sending.
  rewrite Hact, Hoff, Hwaha, Hne. cbn [negb andb].
  unfold try_except at 1, bind at 1, get_state.
  rewrite Hty. rewrite String.eqb_refl.
  unfold bind at 1.
  unfold _send_message_without_record. rewrite Hoff.
  unfold _send_official_api_message. rewrite Hne. cbn [negb].
  rewrite Hcontent.
  unfold bind at 1, ret at 1.
  unfold try_except at 1. unfold bind at 1.
  unfold on_world, on_wire, zoom, requests_send.
  unfold requests_of in Hnet. rewrite Hnet.
  unfold bind at 1. unfold response_json. rewrite Hbody. unfold ret at 1.
  rewrite Hcode. cbn [Z.eqb Pos.eqb].
  unfold bind, lift_result, get_default, ret. rewrite Hmsgs.
  cbn [item0]. rewrite Hid.
  unfold assign, modify, save. cbn [instance world to_char py_str].
  unfold save_update_fields.
  cbn [msg_pk set_status set_message_id msg_message_id w_messages set_w_wire
       existsb is_message_id orb].
  rewrite Hpk, Hex, Hfree. cbn [negb].
  eexists. eexists. eexists. split; [reflexivity|].
  assert (forall row,
             In row (map (fun r =>
                            if has_pk pk r
                            then copy_fields
                                   (set_status "sent"
                                      (set_message_id (Some new_id)
                                                      (instance fr)))
                                   [F_message_id; F_status] r
                            else r) (w_messages (world fr))) ->
             msg_pk row = Some pk ->
             msg_status row = "sent" /\ msg_message_id row = Some new_id)
    as Hrows.
  { intros row Hin Hrow. apply in_map_iff in Hin.
    destruct Hin as (r0 & <- & _).
    destruct (has_pk pk r0) eqn:H0; [split; reflexivity|].
    apply has_pk_iff in Hrow. congruence. }
  split.
  { split; [reflexivity|]. cbn [instance world w_messages set_w_messages].
    intros row Hin Hrow. apply Hrows; [exact Hin|].
    rewrite Hrow. cbn. exact Hpk. }
  split; [reflexivity|].
  split.
  { cbn [instance world w_messages set_w_messages].
    intros row Hin Hrow. apply Hrows; assumption. }
  split; [reflexivity|]. split; [reflexivity|]. split; [reflexivity|].
  split; [left; reflexivity|]. split; [reflexivity|].
  repeat split.
Qed.

(** X15. A text message on an active official number with an access
    token goes out when the backend answers 200 with the id of the
    message: the dispatch returns [True], one POST with the Bearer token
    went to [<api>/<phone_number_id>/messages] carrying the recipient and
    the text, and the message and its row have status "sent" and the id
    the backend gave. *)
Theorem official_text_dispatch_succeeds
        (self : PhoneNumber) (fr : Frame) (pk : nat) (resp : http_response)
        (body first : list (string * json)) (rest : list json)
        (new_id : string) :
  msg_pk (instance fr) = Some pk ->
  existsb (has_pk pk) (w_messages (world fr)) = true ->
  is_active self = true ->
  is_official_api self = true ->
  access_token self <> "" ->
  msg_message_type (instance fr) = "text" ->
  str_truthy (msg_content (instance fr)) = true ->
  (forall r, net (requests_of fr) r = Responds resp) ->
  status_code resp = 200%Z ->
  parsed resp = Some (JDict body) ->
  assoc "messages" body = Some (JList (JDict first :: rest)) ->
  assoc "id" first = Some (JStr new_id) ->
  (forall r, In r (w_messages (world fr)) ->
             msg_message_id r = Some new_id -> msg_pk r = Some pk) ->
  exists (fr' : Frame) (r : http_request) (payload : list (string * json)),
    process_message_for_sending pf net self fr = (Ok true, fr')
    /\ status_is "sent" fr'
    /\ msg_message_id (instance fr') = Some new_id
    /\ (forall row, In row (w_messages (world fr')) ->
                    msg_pk row = Some pk -> msg_message_id row = Some new_id)
    /\ requests_of fr' = (requests_of fr ++ [r])%list
    /\ req_method r = "POST"
    /\ req_url r = WHATSAPP_API_URL pf ++ "/"
                   ++ opt_str_text (phone_number_id self) ++ "/messages"
    /\ In ("Authorization", Bearer (access_token self)) (req_headers r)
    /\ req_json r = Some (JDict payload)
    /\ field_of payload "to" = json_of_opt_str (msg_to_number (instance fr))
    /\ field_of payload "type" = JStr "text"
    /\ field_of payload "text"
       = JDict [("body", json_of_opt_str (msg_content (instance fr)))].
Proof. apply official_text_dispatch_run. Qed.

(** *** The manual retry *)





End DispatchProperties.

(** ** The official webhook *)

Section OfficialWebhookProperties.
Import OfficialWebhook.
Local Open Scope eff_scope.
Variable pf : Platform.

Lemma opt_str_eqb_eq (a b : option string) :
  ContactModel.opt_str_eqb a b = true <-> a = b.
Proof.
  destruct a as [x|], b as [y|]; simpl; try (split; congruence).
  rewrite String.eqb_eq. split; congruence.
Qed.

(** C7. On a GET request whose URL token selects a stored official
    phone number, the view answers 200 exactly when [hub.verify_token] is
    that number's verify token and [hub.mode] is "subscribe", and then
    the body is the [hub.challenge] parameter; in every other case it
    answers 403. *)
Theorem webhook_verification_handshake
        (process_webhook_data : json -> PhoneNumber -> M World unit)
        (request : HttpRequest) (url_token : string) (w : World)
        (p : PhoneNumber) :
  method request = "GET" ->
  phone_numbers_get (fun q => (webhook_token q =? url_token)
                              && (api_type q =? "official"))
                    (w_phone_numbers w) = Ok p ->
  exists (resp : HttpResponse) (w' : World),
    webhook process_webhook_data request url_token w = (Ok resp, w')
    /\ (resp_status resp = 200%Z
        <-> query_get "hub.verify_token" (GET request)
            = Some (verify_token p)
            /\ query_get "hub.mode" (GET request) = Some "subscribe")
    /\ (resp_status resp = 200%Z ->
        resp_content resp
        = Text (opt_str_text (query_get "hub.challenge" (GET request))))
    /\ (resp_status resp = 200%Z \/ resp_status resp = 403%Z).
Proof.
  intros Hget Hfound.
  unfold webhook, try_except_only, try_except, bind, get_state, lift_result.
  rewrite Hfound. cbn. rewrite Hget. cbn.
  destruct (ContactModel.opt_str_eqb
              (query_get "hub.verify_token" (GET request))
              (Some (verify_token p))) eqn:Htok; cbn.
  - apply opt_str_eqb_eq in Htok.
    destruct (ContactModel.opt_str_eqb
                (query_get "hub.mode" (GET request)) (Some "subscribe"))
             eqn:Hmode; cbn.
    + apply opt_str_eqb_eq in Hmode.
      eexists. eexists. split; [reflexivity|]. cbn.
      split; [split; auto|]. split; auto.
    + eexists. eexists. split; [reflexivity|]. cbn.
      split; [|split; [discriminate|right; reflexivity]].
      split; [discriminate|].
      intros [_ Hm]. apply opt_str_eqb_eq in Hm. congruence.
  - eexists. eexists. split; [reflexivity|]. cbn.
    split; [|split; [discriminate|right; reflexivity]].
    split; [discriminate|].
    intros [Ht _]. apply opt_str_eqb_eq in Ht. congruence.
Qed.

(** X20. A POST to the webhook of a stored official number is always
    answered, whatever the reading and the processing of the body do.
    When [json.loads] raises, nothing is processed and the answer is 400
    "Invalid JSON" for a [JSONDecodeError] and 500 with the text of the
    exception for any other (a body that is not UTF-8, a document nested
    too deep). When the body is read, the answer is 200 "OK" if the
    processing returns and, if it raises, again 400 for a
    [JSONDecodeError] and 500 with the text for any other; what a failed
    processing wrote before it raised stays written. *)
Theorem webhook_post_outcome
        (process_webhook_data : json -> PhoneNumber -> M World unit)
        (request : HttpRequest) (url_token : string) (w : World)
        (p : PhoneNumber) :
  method request = "POST" ->
  phone_numbers_get (fun q => (webhook_token q =? url_token)
                              && (api_type q =? "official"))
                    (w_phone_numbers w) = Ok p ->
  exists (resp : HttpResponse) (w' : World),
    webhook process_webhook_data request url_token w = (Ok resp, w')
    /\ (forall e, body request = Raise e ->
          resp = post_error_answer e
          /\ w_messages w' = w_messages w
          /\ w_contacts w' = w_contacts w)
    /\ (forall data, body request = Ok data ->
          match process_webhook_data
                  data p
                  (logged INFO "Received WhatsApp webhook"
                          (logged INFO "Found phone number" w)) with
          | (Ok _, w2) =>
              resp = mkHttpResponse (Text "OK") 200
              /\ w_messages w' = w_messages w2
              /\ w_contacts w' = w_contacts w2
          | (Raise e, w2) =>
              resp = post_error_answer e
              /\ w_messages w' = w_messages w2
              /\ w_contacts w' = w_contacts w2
          end).
Proof.
  intros Hpost Hfound.
  unfold webhook, try_except_only, try_except, bind, get_state, lift_result.
  rewrite Hfound. cbn. rewrite Hpost. cbn.
  destruct (body request) as [data|e0].
  - cbn.
    change (set_w_wire _ (set_w_wire _ w))
      with (logged INFO "Received WhatsApp webhook"
                   (logged INFO "Found phone number" w)).
    destruct (process_webhook_data data p _) as [[[]|e] w2] eqn:Hrun.
    + eexists. eexists. split; [reflexivity|].
      split; [discriminate|]. intros data' [= <-]. rewrite Hrun.
      repeat split.
    + unfold post_error_answer.
      destruct (exn_kind_eqb (exn_class e) JSONDecodeError) eqn:He; cbn;
        (eexists; eexists; split; [reflexivity|]);
        (split; [discriminate|]); intros data' [= <-]; rewrite Hrun, He;
        repeat split.
  - unfold post_error_answer.
    destruct (exn_kind_eqb (exn_class e0) JSONDecodeError) eqn:He; cbn;
      (eexists; eexists; split; [reflexivity|]);
      (split; [intros e' [= <-]; rewrite He; repeat split|discriminate]).
Qed.

(** X21. A request whose URL token belongs to no official phone number
    (an unknown token, or the token of a WAHA number) is answered 403
    whatever its method and body; nothing is processed, one warning is
    logged. A request for a stored number with a method other than GET
    and POST is answered 405. *)
Theorem webhook_rejects
        (process_webhook_data : json -> PhoneNumber -> M World unit)
        (request : HttpRequest) (url_token : string) (w : World) :
  ((forall q, In q (w_phone_numbers w) -> webhook_token q = url_token ->
              api_type q <> "official") ->
   webhook process_webhook_data request url_token w
   = (Ok (mkHttpResponse (Text "Invalid webhook token") 403),
      logged WARNING "No phone number found with webhook_token" w))
  /\ (forall p,
         phone_numbers_get (fun q => (webhook_token q =? url_token)
                                     && (api_type q =? "official"))
                           (w_phone_numbers w) = Ok p ->
         method request <> "GET" -> method request <> "POST" ->
         webhook process_webhook_data request url_token w
         = (Ok (mkHttpResponse (Text "Method not allowed") 405),
            logged INFO "Found phone number" w)).
Proof.
  split.
  - intros Hnone.
    assert (filter (fun q => (webhook_token q =? url_token)
                             && (api_type q =? "official"))
                   (w_phone_numbers w) = []) as Hf.
    { destruct (filter _ (w_phone_numbers w)) as [|q l] eqn:Hq;
        [reflexivity|].
      assert (In q (filter (fun q => (webhook_token q =? url_token)
                                     && (api_type q =? "official"))
                           (w_phone_numbers w))) as Hin
          by (rewrite Hq; left; reflexivity).
      apply filter_In in Hin. destruct Hin as [Hin Hm].
      apply andb_true_iff in Hm. destruct Hm as [Ht Ha].
      apply String.eqb_eq in Ht. apply String.eqb_eq in Ha.
      exfalso. exact (Hnone q Hin Ht Ha). }
    unfold webhook, try_except_only, try_except, bind, get_state,
      lift_result, phone_numbers_get.
    rewrite Hf. reflexivity.
  - intros p Hfound Hget Hpost.
    unfold webhook, try_except_only, try_except, bind, get_state,
      lift_result.
    rewrite Hfound. cbn.
    destruct (String.eqb_spec (method request) "GET"); [contradiction|].
    destruct (String.eqb_spec (method request) "POST"); [contradiction|].
    reflexivity.
Qed.

End OfficialWebhookProperties.

Section StatusUpdateProperties.
Import OfficialWebhook.
Local Open Scope eff_scope.
Variable pf : Platform.

Lemma get_dict (d : list (string * json)) (k : string) :
  get (JDict d) k = Ok (field_of d k).
Proof.
  unfold get, get_default, field_of. destruct (assoc k d); reflexivity.
Qed.

Lemma on_wire_logger lvl msg w :
  on_wire (logger lvl msg) w = (Ok tt, logged lvl msg w).
Proof. reflexivity. Qed.

(** C8. A status update whose message id matches no stored message does
    nothing but log one warning: the call returns, it does not raise,
    and the database is as before. *)
Theorem process_status_update_unknown_message
        (phone_number : PhoneNumber) (d : list (string * json)) (w : World) :
  filter_by_message_id (w_messages w) (py_str pf (field_of d "id")) = [] ->
  exists text : string,
    process_status_update pf phone_number (JDict d) w
    = (Ok tt, logged WARNING text w).
Proof.
  intros Hnone. unfold process_status_update.
  rewrite !get_dict. unfold bind at 1 2 3 4. unfold lift_result at 1 2 3 4.
  destruct (negb (forallb truthy
                    [field_of d "id"; field_of d "status";
                     field_of d "timestamp"])).
  - eexists. apply on_wire_logger.
  - unfold try_except_only, try_except, bind at 1, get_state.
    unfold bind at 1, lift_result at 1, objects_get_by_message_id.
    rewrite Hnone. cbn [exn_class exn_kind_eqb].
    eexists. apply on_wire_logger.
Qed.

(** *** A status update overwrites the status *)

Lemma copy_field_message_id src f r :
  is_message_id f = false ->
  msg_message_id (copy_field src f r) = msg_message_id r.
Proof. destruct f; simpl; intros H; [reflexivity|discriminate|..];
         reflexivity. Qed.

Lemma copy_fields_message_id src fs r :
  existsb is_message_id fs = false ->
  msg_message_id (copy_fields src fs r) = msg_message_id r.
Proof.
  unfold copy_fields. revert r.
  induction fs as [|f fs IH]; intros r; simpl; [reflexivity|].
  intros H. apply orb_false_iff in H. destruct H as [Hf Hfs].
  rewrite IH by exact Hfs. apply copy_field_message_id, Hf.
Qed.

Lemma copy_fields_keeps_status src fs r :
  msg_status r = msg_status src ->
  msg_status (copy_fields src fs r) = msg_status src.
Proof.
  unfold copy_fields. revert r.
  induction fs as [|f fs IH]; intros r Hr; simpl; [exact Hr|].
  apply IH. destruct f; simpl; auto.
Qed.

Lemma copy_fields_status src fs r :
  In F_status fs -> msg_status (copy_fields src fs r) = msg_status src.
Proof.
  unfold copy_fields. revert r.
  induction fs as [|f fs IH]; intros r Hin; simpl; [contradiction|].
  destruct Hin as [->|Hin].
  - apply (copy_fields_keeps_status src fs). reflexivity.
  - apply IH, Hin.
Qed.

Lemma filter_by_message_id_map (g : Message -> Message) rows mid :
  (forall r, msg_message_id (g r) = msg_message_id r) ->
  filter_by_message_id (map g rows) mid
  = map g (filter_by_message_id rows mid).
Proof.
  intros Hg. unfold filter_by_message_id.
  induction rows as [|r rows IH]; simpl; [reflexivity|].
  rewrite Hg. destruct (ContactModel.opt_str_eqb _ _); simpl; rewrite IH;
    reflexivity.
Qed.

(** Looking a message up again after an update that wrote its status. *)
Lemma save_update_fields_lookup fs message rows rows' m pk mid :
  filter_by_message_id rows mid = [m] ->
  msg_pk m = Some pk ->
  msg_pk message = Some pk ->
  existsb is_message_id fs = false ->
  In F_status fs ->
  save_update_fields fs message rows = Ok rows' ->
  exists m', objects_get_by_message_id rows' mid = Ok m'
             /\ msg_status m' = msg_status message.
Proof.
  intros Hm Hpk Hmsg Hnoid Hst. unfold save_update_fields.
  rewrite Hmsg, Hnoid.
  destruct (negb (existsb (has_pk pk) rows)); [discriminate|].
  intros [= <-].
  unfold objects_get_by_message_id.
  rewrite filter_by_message_id_map, Hm.
  - simpl. assert (has_pk pk m = true) as ->.
    { unfold has_pk. rewrite Hpk. simpl. apply Nat.eqb_refl. }
    eexists. split; [reflexivity|]. apply copy_fields_status, Hst.
  - intros r. destruct (has_pk pk r); [|reflexivity].
    apply copy_fields_message_id, Hnoid.
Qed.

Lemma keeps_refl m : keeps m m.
Proof. split; reflexivity. Qed.

Lemma keeps_trans m1 m2 m3 : keeps m1 m2 -> keeps m2 m3 -> keeps m1 m3.
Proof. intros [? ?] [? ?]. split; congruence. Qed.

Lemma store_in_metadata_keeps k v m m' :
  store_in_metadata k v m = Ok m' -> keeps m m'.
Proof.
  unfold store_in_metadata.
  destruct (truthy (msg_metadata m)).
  - destruct (set_item (msg_metadata m) k v); [|discriminate].
    intros [= <-]. split; reflexivity.
  - intros [= <-]. split; reflexivity.
Qed.

Lemma wp_on_wire_logger lvl msg (Q : unit -> World -> Prop) R w :
  (forall w', w_messages w' = w_messages w -> Q tt w') ->
  wp (on_wire (logger lvl msg)) Q R w.
Proof. intros HQ. unfold wp. rewrite on_wire_logger. apply HQ. reflexivity. Qed.

Lemma wp_message_save fs message (Q : unit -> World -> Prop) R w :
  (forall rows, save_update_fields fs message (w_messages w) = Ok rows ->
                Q tt (set_w_messages rows w)) ->
  (forall e, save_update_fields fs message (w_messages w) = Raise e ->
             R e w) ->
  wp (message_save fs message) Q R w.
Proof.
  intros HQ HR. unfold wp, message_save.
  destruct (save_update_fields fs message (w_messages w)); auto.
Qed.

Lemma wp_try_except_kinds {S A} ks (c : M S A) (h : exn -> M S A) Q R s :
  wp c Q (fun e s' => if existsb (exn_kind_eqb (exn_class e)) ks
                      then wp (h e) Q R s' else R e s') s ->
  wp (try_except_kinds ks c h) Q R s.
Proof.
  intros H. unfold try_except_kinds. apply wp_try_except.
  eapply wp_mono; [exact H|auto|].
  intros e s'. cbv beta.
  destruct (existsb _ ks); auto.
Qed.

Lemma fromtimestamp_raises z e :
  fromtimestamp pf z = Raise e -> exn_class e <> DoesNotExist.
Proof.
  unfold fromtimestamp.
  destruct (localtime pf z) as [t|[]]; intros [= <-]; discriminate.
Qed.

Lemma py_int_raises v e :
  py_int pf v = Raise e -> exn_class e <> DoesNotExist.
Proof.
  destruct v; simpl; try (intros [= <-]; discriminate).
  destruct (int_of_str pf s); [discriminate|intros [= <-]; discriminate].
Qed.

Lemma py_int_raises_kinds v e :
  py_int pf v = Raise e ->
  existsb (exn_kind_eqb (exn_class e)) [ValueError; TypeError] = true.
Proof.
  destruct v; simpl; try (intros [= <-]; reflexivity).
  destruct (int_of_str pf s); [discriminate|intros [= <-]; reflexivity].
Qed.

Lemma get_default_raises v k dflt e :
  get_default v k dflt = Raise e -> exn_class e <> DoesNotExist.
Proof.
  destruct v; simpl; try (intros [= <-]; discriminate).
  destruct (assoc k d); discriminate.
Qed.

Lemma store_in_metadata_raises k v m e :
  store_in_metadata k v m = Raise e -> exn_class e <> DoesNotExist.
Proof.
  unfold store_in_metadata.
  destruct (truthy (msg_metadata m)); [|discriminate].
  destruct (msg_metadata m); simpl; try (intros [= <-]; discriminate).
Qed.

Lemma py_in_raises k v e :
  py_in k v = Raise e -> exn_class e <> DoesNotExist.
Proof. destruct v; simpl; try discriminate; intros [= <-]; discriminate. Qed.

Lemma save_update_fields_raises fs m rows e :
  save_update_fields fs m rows = Raise e -> exn_class e <> DoesNotExist.
Proof.
  unfold save_update_fields.
  destruct (msg_pk m); [|intros [= <-]; discriminate].
  destruct (negb _); [intros [= <-]; discriminate|].
  destruct (existsb is_message_id fs); [|discriminate].
  destruct (msg_message_id m); [|intros [= <-]; discriminate].
  destruct (existsb _ _); [intros [= <-]; discriminate|discriminate].
Qed.

Lemma nonempty_true s : s <> "" -> nonempty s = true.
Proof.
  intros H. unfold nonempty. destruct (String.eqb_spec s ""); auto.
Qed.

Lemma exn_kind_eqb_eq a b : exn_kind_eqb a b = true -> a = b.
Proof. destruct a, b; simpl; intros H; try discriminate; reflexivity. Qed.

Ltac world_step :=
  cbv beta; cbn [truthy];
  lazymatch goal with
  | |- wp (bind _ _) _ _ _ => apply wp_bind
  | |- wp (lift_result (Ok _)) _ _ _ => apply wp_lift_result
  | |- wp (lift_result (Raise _)) _ _ _ => apply wp_lift_result
  | |- wp (ret _) _ _ _ => apply wp_ret
  | |- wp (raise _) _ _ _ => apply wp_raise
  | |- wp (try_except_kinds _ _ _) _ _ _ => apply wp_try_except_kinds
  | |- wp get_state _ _ _ => apply wp_get_state
  | |- wp (lift_result ?r) _ _ _ => apply wp_lift_result; destruct r eqn:?
  | |- wp (on_wire (logger _ _)) _ _ _ => apply wp_on_wire_logger; intros
  | |- wp (message_save _ _) _ _ _ => apply wp_message_save; intros
  | |- wp (if ?b then _ else _) _ _ _ => destruct b eqn:?
  | |- wp (match ?x with _ => _ end) _ _ _ => destruct x eqn:?
  | |- if ?b then _ else _ => destruct b eqn:?
  end.

Ltac not_does_not_exist :=
  lazymatch goal with
  | |- exn_class _ <> DoesNotExist =>
      first [ eapply fromtimestamp_raises; eassumption
            | eapply py_int_raises; eassumption
            | eapply get_default_raises; eassumption
            | eapply store_in_metadata_raises; eassumption
            | eapply py_in_raises; eassumption
            | eapply save_update_fields_raises; eassumption ]
  end.

Ltac status_written :=
  repeat match goal with
         | H : store_in_metadata _ _ _ = Ok _ |- _ =>
             apply store_in_metadata_keeps in H; destruct H as [? ?]
         end;
  repeat match goal with
         | H : w_messages _ = w_messages _ |- _ => rewrite H in *
         end;
  repeat match goal with
         | H : context [if truthy ?v then _ else _] |- _ =>
             destruct (truthy v)
         end;
  cbn [fst snd] in *;
  lazymatch goal with
  | Hs : save_update_fields _ _ _ = Ok _ |- _ =>
      eapply save_update_fields_lookup in Hs;
      [ destruct Hs as (m' & Hget & Hstatus);
        exists m'; split; [exact Hget|];
        rewrite Hstatus; cbn in *; congruence
      | eassumption
      | eassumption
      | cbn in *; congruence
      | repeat match goal with
               | |- context [match ?x with _ => _ end] => destruct x
               end; reflexivity
      | left; reflexivity ]
  end.

Lemma process_status_update_overwrites phone_number d w m pk mid st :
  field_of d "id" = JStr mid -> mid <> "" ->
  field_of d "status" = JStr st -> st <> "" ->
  truthy (field_of d "timestamp") = true ->
  filter_by_message_id (w_messages w) mid = [m] ->
  msg_pk m = Some pk ->
  wp (process_status_update pf phone_number (JDict d))
     (fun _ w' =>
        exists m', objects_get_by_message_id (w_messages w') mid = Ok m'
                   /\ msg_status m' = st)
     (fun _ _ => True) w.
Proof.
  intros Hid Hmid Hst Hne Hts Hm Hpk.
  unfold process_status_update.
  rewrite !get_dict, Hid, Hst.
  do 4 (apply wp_bind, wp_lift_result; cbv beta).
  cbn [forallb truthy]. rewrite Hts, !nonempty_true by assumption.
  cbn [andb negb]. unfold try_except_only.
  apply wp_try_except.
  eapply wp_mono with
    (Q := fun _ w' =>
            exists m', objects_get_by_message_id (w_messages w') mid = Ok m'
                       /\ msg_status m' = st)
    (R := fun e _ => exn_class e <> DoesNotExist);
    [|auto|].
  - apply wp_bind, wp_get_state. cbv beta.
    apply wp_bind. cbn [py_str]. unfold objects_get_by_message_id.
    rewrite Hm. apply wp_lift_result. cbv beta zeta.
    repeat world_step; try exact I; try not_does_not_exist;
      status_written.
  - intros e s' Hk. cbv beta.
    destruct (exn_kind_eqb (exn_class e) DoesNotExist) eqn:He.
    + apply exn_kind_eqb_eq in He. contradiction.
    + apply wp_raise. exact I.
Qed.

Lemma get_default_absent d k dflt :
  assoc k d = None -> get_default (JDict d) k dflt = Ok dflt.
Proof. intros H. unfold get_default. rewrite H. reflexivity. Qed.

Lemma filter_by_message_id_in rows mid m :
  filter_by_message_id rows mid = [m] -> In m rows.
Proof.
  intros H. assert (In m (filter_by_message_id rows mid)) as Hin
      by (rewrite H; left; reflexivity).
  apply filter_In in Hin. apply Hin.
Qed.

Lemma save_update_fields_succeeds fs message rows m pk :
  In m rows -> msg_pk m = Some pk -> msg_pk message = Some pk ->
  existsb is_message_id fs = false ->
  exists rows', save_update_fields fs message rows = Ok rows'.
Proof.
  intros Hin Hpk Hmsg Hfs. unfold save_update_fields.
  rewrite Hmsg, Hfs.
  assert (existsb (has_pk pk) rows = true) as ->.
  { apply existsb_exists. exists m. split; [exact Hin|].
    unfold has_pk. rewrite Hpk. simpl. apply Nat.eqb_refl. }
  simpl. eauto.
Qed.

(** A status update that carries nothing but the id, the status and a
    time stamp the platform can convert is processed to the end. *)
Lemma process_status_update_plain_returns phone_number d w m pk mid st :
  field_of d "id" = JStr mid -> mid <> "" ->
  field_of d "status" = JStr st -> st <> "" ->
  truthy (field_of d "timestamp") = true ->
  (forall z, py_int pf (field_of d "timestamp") = Ok z ->
             exists t, fromtimestamp pf z = Ok t) ->
  assoc "conversation" d = None ->
  assoc "pricing" d = None ->
  assoc "errors" d = None ->
  filter_by_message_id (w_messages w) mid = [m] ->
  msg_pk m = Some pk ->
  wp (process_status_update pf phone_number (JDict d))
     (fun _ _ => True) (fun _ _ => False) w.
Proof.
  intros Hid Hmid Hst Hne Hts Htime Hconv Hprice Herr Hm Hpk.
  unfold process_status_update.
  rewrite !get_dict, Hid, Hst.
  rewrite (get_default_absent d "conversation") by exact Hconv.
  rewrite (get_default_absent d "pricing") by exact Hprice.
  assert (py_in "errors" (JDict d) = Ok false) as ->
      by (simpl; rewrite Herr; reflexivity).
  do 4 (apply wp_bind, wp_lift_result; cbv beta).
  cbn [forallb truthy]. rewrite Hts, !nonempty_true by assumption.
  cbn [andb negb]. unfold try_except_only.
  apply wp_try_except.
  apply wp_bind, wp_get_state. cbv beta.
  apply wp_bind. cbn [py_str]. unfold objects_get_by_message_id.
  rewrite Hm. apply wp_lift_result. cbv beta zeta.
  apply wp_bind.
  eapply wp_mono with
    (Q := fun message w' => msg_pk message = Some pk
                            /\ w_messages w' = w_messages w)
    (R := fun _ _ => False).
  - repeat world_step; try (split; [exact Hpk|]; congruence).
    all: first [ destruct (Htime _ eq_refl) as [t Ht]; congruence
               | match goal with
                 | H : py_int _ _ = Raise _ |- _ =>
                     apply py_int_raises_kinds in H; congruence
                 end ].
  - intros message w1 [Hmsg Hw1]. cbv beta.
    repeat world_step; try exact I;
      try (exfalso; cbn [truthy] in *; congruence).
    exfalso.
    match goal with
    | H : save_update_fields ?fs ?msg ?rows = Raise _ |- _ =>
        destruct (save_update_fields_succeeds fs msg rows m pk) as [r Hr];
        [ | | | |congruence]
    end.
    + rewrite Hw1. eapply filter_by_message_id_in, Hm.
    + exact Hpk.
    + exact Hmsg.
    + cbn. destruct (msg_delivered_at message), (msg_read_at message);
        reflexivity.
  - intros e s' [].
Qed.

(** C1, as the code has it. The status of a status update is written
    over the stored status, whatever that was: when a message with
    status "read" receives an update with status "delivered", the
    processing, if it comes to its end, leaves the message with status
    "delivered"; and it does come to its end for an update that carries
    only id, status and a convertible time stamp. *)
Theorem process_status_update_reverts_read
        (phone_number : PhoneNumber) (d : list (string * json)) (w : World)
        (m : Message) (pk : nat) (mid : string) :
  field_of d "id" = JStr mid -> mid <> "" ->
  field_of d "status" = JStr "delivered" ->
  truthy (field_of d "timestamp") = true ->
  filter_by_message_id (w_messages w) mid = [m] ->
  msg_pk m = Some pk ->
  msg_status m = "read" ->
  (forall w', process_status_update pf phone_number (JDict d) w = (Ok tt, w') ->
              stored_status (w_messages w') mid = Ok "delivered")
  /\ ((forall z, py_int pf (field_of d "timestamp") = Ok z ->
                 exists t, fromtimestamp pf z = Ok t) ->
      assoc "conversation" d = None ->
      assoc "pricing" d = None ->
      assoc "errors" d = None ->
      exists w', process_status_update pf phone_number (JDict d) w
                 = (Ok tt, w')).
Proof.
  intros Hid Hmid Hst Hts Hm Hpk _.
  assert ("delivered" <> "") as Hne by discriminate.
  split.
  - intros w' Hrun.
    pose proof (process_status_update_overwrites phone_number d w m pk mid
                  "delivered" Hid Hmid Hst Hne Hts Hm Hpk) as H.
    unfold wp in H. rewrite Hrun in H.
    destruct H as (m' & Hget & Hstatus).
    unfold stored_status. rewrite Hget. simpl. rewrite Hstatus.
    reflexivity.
  - intros Htime Hconv Hprice Herr.
    destruct (wp_returns _ _ _
                (process_status_update_plain_returns phone_number d w m pk
                   mid "delivered" Hid Hmid Hst Hne Hts Htime Hconv Hprice
                   Herr Hm Hpk))
      as ([] & w' & Hrun & _).
    eauto.
Qed.

(** *** What a status update leaves alone *)

Lemma copy_field_clear src f r :
  status_column f = true ->
  clear_status_columns (copy_field src f r) = clear_status_columns r.
Proof. destruct f; simpl; intros H; try discriminate; reflexivity. Qed.

Lemma copy_fields_clear src fs r :
  forallb status_column fs = true ->
  clear_status_columns (copy_fields src fs r) = clear_status_columns r.
Proof.
  unfold copy_fields. revert r.
  induction fs as [|f fs IH]; intros r; simpl; [reflexivity|].
  intros H. apply andb_true_iff in H. destruct H as [Hf Hfs].
  rewrite IH by exact Hfs. apply copy_field_clear, Hf.
Qed.

Lemma save_update_fields_clear fs message rows rows' :
  forallb status_column fs = true ->
  save_update_fields fs message rows = Ok rows' ->
  map clear_status_columns rows' = map clear_status_columns rows.
Proof.
  intros Hfs. unfold save_update_fields.
  assert (forall pk,
             map clear_status_columns
                 (map (fun r => if has_pk pk r
                                then copy_fields message fs r else r) rows)
             = map clear_status_columns rows) as Hmap.
  { intros pk. rewrite map_map. apply map_ext. intros r.
    destruct (has_pk pk r); [apply copy_fields_clear, Hfs|reflexivity]. }
  destruct (msg_pk message) as [pk|]; [|discriminate].
  destruct (negb _); [discriminate|].
  destruct (existsb is_message_id fs).
  - destruct (msg_message_id message); [|discriminate].
    destruct (existsb _ _); [discriminate|].
    intros [= <-]. apply Hmap.
  - intros [= <-]. apply Hmap.
Qed.

Lemma status_frame_refl w : status_frame w w.
Proof. repeat split. Qed.

Lemma preserves_logger_frame w0 lvl msg :
  preserves (status_frame w0) (on_wire (logger lvl msg)).
Proof. intros w Hw. unfold wp. rewrite on_wire_logger. exact Hw. Qed.

Lemma preserves_message_save_frame w0 fs message :
  forallb status_column fs = true ->
  preserves (status_frame w0) (message_save fs message).
Proof.
  intros Hfs w (Hrows & Hc & Hp & Hreq). unfold wp, message_save.
  destruct (save_update_fields fs message (w_messages w)) as [rows|e] eqn:Hs;
    [|repeat split; assumption].
  repeat split; try assumption. cbn [w_messages set_w_messages].
  rewrite (save_update_fields_clear _ _ _ _ Hfs Hs). exact Hrows.
Qed.

Ltac frame_step :=
  first
    [ preserve_step
    | lazymatch goal with
      | |- preserves _ (on_wire (logger _ _)) => apply preserves_logger_frame
      | |- preserves _ (message_save _ _) =>
          apply preserves_message_save_frame;
          unfold error_code_in_locals; cbn [andb];
          repeat match goal with
                 | |- context [match ?x with _ => _ end] => destruct x
                 end;
          reflexivity
      end ].

(** X16. Whatever the status object holds and however the processing
    ends, a status update writes nothing but the log and the columns
    status, metadata, delivered_at, read_at and conversation_id: it adds
    and removes no message, leaves [message_id], [error_code],
    [error_message] and every other column of every row as they were,
    does not touch contacts or phone numbers and makes no HTTP
    request. *)
Theorem process_status_update_frame
        (phone_number : PhoneNumber) (status_data : json) (w : World) :
  status_frame w (snd (process_status_update pf phone_number status_data w)).
Proof.
  apply preserves_run; [|apply status_frame_refl].
  unfold process_status_update.
  repeat frame_step.
Qed.

(** *** The time columns *)

Lemma store_in_metadata_carries k v m m' pk st da ra :
  store_in_metadata k v m = Ok m' ->
  carries pk st da ra m -> carries pk st da ra m'.
Proof.
  unfold store_in_metadata.
  destruct (truthy (msg_metadata m)).
  - destruct (set_item (msg_metadata m) k v); [|discriminate].
    intros [= <-]. exact (fun H => H).
  - intros [= <-]. exact (fun H => H).
Qed.

(** The row found under [mid] after an update that did not write the
    message id. *)
Lemma save_update_fields_row fs message rows rows' m pk mid :
  filter_by_message_id rows mid = [m] ->
  msg_pk m = Some pk ->
  msg_pk message = Some pk ->
  existsb is_message_id fs = false ->
  save_update_fields fs message rows = Ok rows' ->
  objects_get_by_message_id rows' mid = Ok (copy_fields message fs m).
Proof.
  intros Hm Hpk Hmsg Hnoid. unfold save_update_fields.
  rewrite Hmsg, Hnoid.
  destruct (negb (existsb (has_pk pk) rows)); [discriminate|].
  intros [= <-].
  unfold objects_get_by_message_id.
  rewrite filter_by_message_id_map, Hm.
  - simpl. assert (has_pk pk m = true) as ->.
    { unfold has_pk. rewrite Hpk. simpl. apply Nat.eqb_refl. }
    reflexivity.
  - intros r. destruct (has_pk pk r); [|reflexivity].
    apply copy_fields_message_id, Hnoid.
Qed.

Lemma stamped_written pf' ts hit (old : option Z) :
  match stamped pf' ts hit old with
  | Some x => Some x
  | None => old
  end = stamped pf' ts hit old.
Proof.
  unfold stamped. destruct (status_time pf' ts) as [t|]; [|destruct old; auto].
  destruct hit; [reflexivity|destruct old; reflexivity].
Qed.

Lemma process_status_update_stamps phone_number d w m pk mid st :
  field_of d "id" = JStr mid -> mid <> "" ->
  field_of d "status" = JStr st -> st <> "" ->
  truthy (field_of d "timestamp") = true ->
  filter_by_message_id (w_messages w) mid = [m] ->
  msg_pk m = Some pk ->
  wp (process_status_update pf phone_number (JDict d))
     (fun _ w' =>
        exists m', objects_get_by_message_id (w_messages w') mid = Ok m'
                   /\ msg_status m' = st
                   /\ msg_delivered_at m'
                      = stamped pf (field_of d "timestamp")
                                (st =? "delivered") (msg_delivered_at m)
                   /\ msg_read_at m'
                      = stamped pf (field_of d "timestamp")
                                (st =? "read") (msg_read_at m))
     (fun _ _ => True) w.
Proof.
  intros Hid Hmid Hst Hne Hts Hm Hpk.
  set (da := stamped pf (field_of d "timestamp") (st =? "delivered")
                     (msg_delivered_at m)).
  set (ra := stamped pf (field_of d "timestamp") (st =? "read")
                     (msg_read_at m)).
  unfold process_status_update.
  rewrite !get_dict, Hid, Hst.
  do 4 (apply wp_bind, wp_lift_result; cbv beta).
  cbn [forallb truthy]. rewrite Hts, !nonempty_true by assumption.
  cbn [andb negb]. unfold try_except_only.
  apply wp_try_except.
  eapply wp_mono with
    (Q := fun _ w' =>
            exists m', objects_get_by_message_id (w_messages w') mid = Ok m'
                       /\ msg_status m' = st
                       /\ msg_delivered_at m' = da
                       /\ msg_read_at m' = ra)
    (R := fun e _ => exn_class e <> DoesNotExist);
    [|auto|].
  - apply wp_bind, wp_get_state. cbv beta.
    apply wp_bind. cbn [py_str]. unfold objects_get_by_message_id.
    rewrite Hm. apply wp_lift_result. cbv beta zeta.
    apply wp_bind.
    eapply wp_mono with
      (Q := fun message w' => w_messages w' = w_messages w
                              /\ carries pk st da ra message)
      (R := fun e _ => exn_class e <> DoesNotExist).
    + unfold da, ra, stamped, status_time, carries.
      repeat world_step; try not_does_not_exist;
        cbn [msg_pk msg_status msg_delivered_at msg_read_at set_status
             set_delivered_at set_read_at is_str];
        repeat split; congruence.
    + intros message w1 [Hw1 Hcarry]. cbv beta.
      pose proof (stamped_written pf (field_of d "timestamp")
                    (st =? "delivered") (msg_delivered_at m)) as Hda.
      pose proof (stamped_written pf (field_of d "timestamp")
                    (st =? "read") (msg_read_at m)) as Hra.
      fold da in Hda. fold ra in Hra. clearbody da ra.
      repeat world_step; try not_does_not_exist.
      all: repeat match goal with
                  | H : context [if truthy ?v then _ else _] |- _ =>
                      destruct (truthy v)
                  end;
        cbn [fst snd] in *.
      all: repeat match goal with
                  | H : store_in_metadata _ _ ?src = Ok ?dst |- _ =>
                      assert (carries pk st da ra dst)
                        by (eapply store_in_metadata_carries;
                            [exact H|assumption]);
                      clear H
                  end.
      all: rewrite Hw1 in *.
      all: match goal with
           | Hs : save_update_fields ?fs ?msg _ = Ok ?rows,
             Hw : w_messages ?w' = w_messages (set_w_messages ?rows _)
             |- _ =>
               rewrite Hw; cbn [w_messages set_w_messages];
               assert (carries pk st da ra msg) as Hc
                   by (match goal with
                       | C : carries _ _ _ _ _ |- _ => exact C
                       end);
               destruct Hc as (Hc0 & Hc1 & Hc2 & Hc3);
               assert (existsb is_message_id fs = false) as Hnoid
                   by (unfold error_code_in_locals; cbn [andb];
                       repeat match goal with
                              | |- context [match ?x with _ => _ end] =>
                                  destruct x
                              end; reflexivity);
               pose proof (save_update_fields_row
                             fs msg _ rows m pk mid Hm Hpk Hc0 Hnoid Hs)
                 as Hrow;
               unfold objects_get_by_message_id in Hrow; rewrite Hrow
           end.
      all: eexists; (split; [reflexivity|]).
      all: unfold error_code_in_locals; cbn [andb]; rewrite Hc2, Hc3.
      all: destruct da, ra; cbn in Hda, Hra;
        repeat match goal with
               | |- context [if ?x then _ else _] => destruct x
               end;
        cbn in Hc1, Hc2, Hc3 |- *; repeat split; congruence.
    + auto.
  - intros e s' Hk. cbv beta.
    destruct (exn_kind_eqb (exn_class e) DoesNotExist) eqn:He.
    + apply exn_kind_eqb_eq in He. contradiction.
    + apply wp_raise. exact I.
Qed.

(** X18. A status update whose time the platform can convert sets
    [delivered_at] when its status is "delivered" and [read_at] when its
    status is "read", and leaves the other time column (both, for any
    other status) as it was; the status is written in every case. The
    processing comes to its end when the update carries no conversation,
    pricing or errors entry. *)
Theorem process_status_update_sets_times
        (phone_number : PhoneNumber) (d : list (string * json)) (w : World)
        (m : Message) (pk : nat) (mid st : string) (t : Z) :
  field_of d "id" = JStr mid -> mid <> "" ->
  field_of d "status" = JStr st -> st <> "" ->
  truthy (field_of d "timestamp") = true ->
  status_time pf (field_of d "timestamp") = Some t ->
  filter_by_message_id (w_messages w) mid = [m] ->
  msg_pk m = Some pk ->
  (forall w',
      process_status_update pf phone_number (JDict d) w = (Ok tt, w') ->
      exists m',
        objects_get_by_message_id (w_messages w') mid = Ok m'
        /\ msg_status m' = st
        /\ msg_delivered_at m'
           = (if st =? "delivered" then Some t else msg_delivered_at m)
        /\ msg_read_at m'
           = (if st =? "read" then Some t else msg_read_at m))
  /\ (assoc "conversation" d = None ->
      assoc "pricing" d = None ->
      assoc "errors" d = None ->
      exists w', process_status_update pf phone_number (JDict d) w
                 = (Ok tt, w')).
Proof.
  intros Hid Hmid Hst Hne Hts Htime Hm Hpk. split.
  - intros w' Hrun.
    pose proof (process_status_update_stamps phone_number d w m pk mid st
                  Hid Hmid Hst Hne Hts Hm Hpk) as H.
    unfold wp in H. rewrite Hrun in H. unfold stamped in H.
    rewrite Htime in H. exact H.
  - intros Hconv Hprice Herr.
    destruct (wp_returns _ _ _
                (process_status_update_plain_returns phone_number d w m pk
                   mid st Hid Hmid Hst Hne Hts
                   ltac:(intros z Hz; unfold status_time in Htime;
                         rewrite Hz in Htime;
                         destruct (fromtimestamp pf z) as [t0|];
                         [eauto|discriminate])
                   Hconv Hprice Herr Hm Hpk))
      as ([] & w' & Hrun & _).
    eauto.
Qed.

(** X19. A status update whose timestamp is not a number still updates
    the status: the conversion error is caught, the two time columns stay
    as they were and the status is written. The processing comes to its
    end when the update carries no conversation, pricing or errors
    entry. *)
Theorem process_status_update_invalid_timestamp
        (phone_number : PhoneNumber) (d : list (string * json)) (w : World)
        (m : Message) (pk : nat) (mid st : string) (e : exn) :
  field_of d "id" = JStr mid -> mid <> "" ->
  field_of d "status" = JStr st -> st <> "" ->
  truthy (field_of d "timestamp") = true ->
  py_int pf (field_of d "timestamp") = Raise e ->
  filter_by_message_id (w_messages w) mid = [m] ->
  msg_pk m = Some pk ->
  (forall w',
      process_status_update pf phone_number (JDict d) w = (Ok tt, w') ->
      exists m',
        objects_get_by_message_id (w_messages w') mid = Ok m'
        /\ msg_status m' = st
        /\ msg_delivered_at m' = msg_delivered_at m
        /\ msg_read_at m' = msg_read_at m)
  /\ (assoc "conversation" d = None ->
      assoc "pricing" d = None ->
      assoc "errors" d = None ->
      exists w', process_status_update pf phone_number (JDict d) w
                 = (Ok tt, w')).
Proof.
  intros Hid Hmid Hst Hne Hts Hint Hm Hpk. split.
  - intros w' Hrun.
    pose proof (process_status_update_stamps phone_number d w m pk mid st
                  Hid Hmid Hst Hne Hts Hm Hpk) as H.
    unfold wp in H. rewrite Hrun in H. unfold stamped, status_time in H.
    rewrite Hint in H. exact H.
  - intros Hconv Hprice Herr.
    destruct (wp_returns _ _ _
                (process_status_update_plain_returns phone_number d w m pk
                   mid st Hid Hmid Hst Hne Hts
                   ltac:(intros z Hz; congruence)
                   Hconv Hprice Herr Hm Hpk))
      as ([] & w' & Hrun & _).
    eauto.
Qed.

(** X17. A status update that lacks one of id, status and timestamp (the
    entry is missing, null or empty) is dropped: it logs one warning and
    changes nothing else, whatever is stored. *)
Theorem process_status_update_missing_fields
        (phone_number : PhoneNumber) (d : list (string * json)) (w : World) :
  truthy (field_of d "id") = false
  \/ truthy (field_of d "status") = false
  \/ truthy (field_of d "timestamp") = false ->
  process_status_update pf phone_number (JDict d) w
  = (Ok tt, logged WARNING "Status data missing required fields" w).
Proof.
  intros Hmiss. unfold process_status_update.
  rewrite !get_dict. unfold bind at 1 2 3 4. unfold lift_result at 1 2 3 4.
  assert (forallb truthy [field_of d "id"; field_of d "status";
                          field_of d "timestamp"] = false) as ->.
  { cbn [forallb].
    destruct Hmiss as [-> | [-> | ->]];
      rewrite ?andb_false_r; reflexivity. }
  apply on_wire_logger.
Qed.

End StatusUpdateProperties.

(** ** The WAHA webhook *)

Section WahaWebhookProperties.
Import ContactModel WahaWebhook.
Local Open Scope eff_scope.
Variable pf : Platform.
Variable net : network.
Variable storage_error : string -> option exn.

Lemma waha_message_data_get payload md :
  get_default payload "payload" (JDict []) = Ok md ->
  md = waha_message_data payload.
Proof.
  destruct payload; simpl; try discriminate.
  destruct (assoc "payload" d); intros [= <-]; reflexivity.
Qed.

Lemma waha_field_get payload k v :
  get (waha_message_data payload) k = Ok v -> v = waha_field payload k.
Proof.
  unfold waha_field. destruct (waha_message_data payload); simpl;
    try discriminate.
  unfold field_of. destruct (assoc k d); intros [= <-]; reflexivity.
Qed.

Lemma waha_me_id_get payload me v :
  get_default payload "me" (JDict []) = Ok me ->
  get me "id" = Ok v ->
  v = waha_me_id payload.
Proof.
  destruct payload; simpl; try discriminate.
  destruct (assoc "me" d) as [x|]; intros [= <-].
  - destruct x; simpl; try discriminate.
    unfold field_of. destruct (assoc "id" d0); intros [= <-]; reflexivity.
  - simpl. intros [= <-]. reflexivity.
Qed.

Lemma fresh_message_pk_bound rows r k :
  In r rows -> msg_pk r = Some k -> k < fresh_message_pk rows.
Proof.
  unfold fresh_message_pk.
  induction rows as [|x rows IH]; simpl; [contradiction|].
  intros [->|Hin] Hk.
  - rewrite Hk. lia.
  - specialize (IH Hin Hk). destruct (msg_pk x); lia.
Qed.

Lemma media_file_save_rows (m : Message) rows name :
  msg_pk m = Some (fresh_message_pk rows) ->
  map (fun r => if opt_nat_eqb (msg_pk r)
                               (msg_pk (set_media_file name m))
                then set_media_file name m else r)
      (rows ++ [m])%list
  = (rows ++ [set_media_file name m])%list.
Proof.
  intros Hpk. rewrite map_app. f_equal.
  - rewrite <- (map_id rows) at 2. apply map_ext_in.
    intros r Hin. change (msg_pk (set_media_file name m)) with (msg_pk m).
    rewrite Hpk. destruct (msg_pk r) as [k|] eqn:Hk; simpl; [|reflexivity].
    pose proof (fresh_message_pk_bound rows r k Hin Hk) as Hlt.
    destruct (Nat.eqb_spec k (fresh_message_pk rows)); [lia|reflexivity].
  - simpl. change (msg_pk (set_media_file name m)) with (msg_pk m).
    rewrite Hpk. simpl. rewrite Nat.eqb_refl. reflexivity.
Qed.

(** *** Rules for the steps of the view *)

Lemma wp_message_create m (Q : Message -> World -> Prop) R w :
  (forall rows m', objects_create m (w_messages w) = Ok (m', rows) ->
                   Q m' (set_w_messages rows w)) ->
  (forall e, R e w) ->
  wp (message_create m) Q R w.
Proof.
  intros HQ HR. unfold wp, message_create.
  destruct (objects_create m (w_messages w)) as [[m' rows]|e];
    [apply HQ; reflexivity|apply HR].
Qed.

Lemma wp_media_file_save name m (Q : Message -> World -> Prop) R w :
  (forall s,
      name = JStr s -> storage_error s = None ->
      Q (set_media_file (Some (storage_name pf s)) m)
        (set_w_messages
           (map (fun r => if opt_nat_eqb
                               (msg_pk r)
                               (msg_pk (set_media_file
                                          (Some (storage_name pf s)) m))
                          then set_media_file (Some (storage_name pf s)) m
                          else r)
                (w_messages w)) w)) ->
  (forall e, R e w) ->
  wp (media_file_save pf storage_error name m) Q R w.
Proof.
  intros HQ HR. unfold media_file_save.
  destruct name as [| | |s| |]; try (apply wp_raise, HR).
  destruct (storage_error s) eqn:He; [apply wp_raise, HR|].
  apply HQ; [reflexivity|exact He].
Qed.

(** *** What a message event stores *)

Lemma waha_from_me_value payload v :
  get_default (waha_message_data payload) "fromMe" (JBool false) = Ok v ->
  v = waha_from_me payload.
Proof.
  unfold waha_from_me. destruct (waha_message_data payload); simpl;
    try discriminate.
  destruct (assoc "fromMe" d); intros [= <-]; reflexivity.
Qed.

Lemma event_frame_refl fm w : event_frame fm w w.
Proof. split; reflexivity. Qed.

Lemma preserves_on_wire_event {A} fm w (c : M Wire A) :
  preserves (event_frame fm w) (on_wire c).
Proof.
  intros w1 Hw1. unfold wp, on_wire, zoom.
  destruct (c (w_wire w1)) as [[a|e] wire']; exact Hw1.
Qed.

Lemma preserves_contact_create_event w phone name :
  preserves (event_frame false w) (contact_create pf phone name).
Proof.
  intros w1 [Hm _]. unfold wp, contact_create, bind, lift_result.
  destruct (normalize_value phone); [|split; [exact Hm|discriminate]].
  destruct (model_save _ _) as [[c t]|e];
    (split; [exact Hm|discriminate]).
Qed.

Ltac keep_step :=
  first
    [ preserve_step
    | lazymatch goal with
      | |- preserves _ (on_wire _) => apply preserves_on_wire_event
      | |- preserves _ (contact_create _ _ _) =>
          apply preserves_contact_create_event
      | |- preserves _ (download_media _ _ _ _ _ _ _) =>
          unfold download_media
      end ].

(** The next statement of the view, up to the creation of the message:
    a pure step is taken with its value, any other is only known to keep
    the frame. *)
Ltac event_block fm w0 :=
  lazymatch goal with
  | |- wp (bind (message_create _) _) _ _ _ => fail
  | |- wp (bind (lift_result ?r) _) _ _ _ =>
      apply wp_bind, wp_lift_result; destruct r eqn:?;
      [cbv beta|left; assumption]
  | |- wp (bind _ _) _ _ _ =>
      eapply wp_preserved with (P := event_frame fm w0);
      [ solve [repeat keep_step]
      | assumption
      | intros ? ? ?; cbv beta
      | intros ? ? HP; left; exact HP ]
  end.

Lemma _handle_incoming_message_stores payload phone_number w :
  wp (_handle_incoming_message pf net storage_error payload phone_number)
     (stored_event pf payload phone_number w) (fun _ _ => False) w.
Proof.
  unfold _handle_incoming_message, stored_event.
  remember (truthy (waha_from_me payload)) as fm eqn:Hfm.
  pose proof (event_frame_refl fm w) as Hw.
  apply wp_try_except.
  eapply wp_mono with
    (R := fun _ w' => event_raised pf payload phone_number fm w w');
    [|intros ? ? H; exact H|].
  - event_block fm w.
    match goal with
    | H : get_default payload "payload" _ = Ok ?v |- _ =>
        apply waha_message_data_get in H; subst v
    end.
    do 3 (event_block fm w;
          match goal with
          | H : get (waha_message_data payload) _ = Ok ?v |- _ =>
              apply waha_field_get in H; subst v
          end).
    apply wp_bind.
    eapply wp_mono with
      (Q := fun v w' => v = py_or (waha_field payload "to")
                                  (waha_me_id payload)
                        /\ w' = w)
      (R := fun _ w' => event_frame fm w w').
    { unfold py_or.
      destruct (truthy (waha_field payload "to")).
      - apply wp_ret. split; reflexivity.
      - apply wp_bind, wp_lift_result.
        destruct (get_default payload "me" (JDict [])) eqn:Hme;
          [cbv beta|exact Hw].
        apply wp_lift_result.
        destruct (get a "id") eqn:Hmid; [|exact Hw].
        split; [|reflexivity].
        eapply waha_me_id_get; eassumption. }
    2: { intros ? ? H; left; exact H. }
    intros to_number w1 [-> ->]. cbv beta.
    event_block fm w.
    match goal with
    | H : get_default (waha_message_data payload) "fromMe" _ = Ok ?v
      |- _ =>
        apply waha_from_me_value in H; subst v
    end.
    rewrite <- Hfm.
    destruct fm; cbv beta iota zeta;
      change ("outgoing" =? "outgoing") with true;
      change ("outgoing" =? "incoming") with false;
      change ("incoming" =? "outgoing") with false;
      change ("incoming" =? "incoming") with true;
      cbv iota;
      [repeat event_block true w|repeat event_block false w].
    all: apply wp_bind, wp_message_create; [|intros; left; assumption].
    all: intros rows m' Hcreate; cbv beta;
      unfold objects_create in Hcreate;
      cbn [msg_message_id msg_from_number msg_to_number] in Hcreate;
      match goal with
      | Hf : event_frame _ _ ?s |- context [set_w_messages _ ?s] =>
          destruct Hf as [Hrows Hcontacts]
      end;
      rewrite Hrows in Hcreate;
      repeat match type of Hcreate with
             | match ?x with Some _ => _ | None => _ end = Ok _ =>
                 destruct x eqn:?; [|discriminate]
             end;
      match type of Hcreate with
      | match ?x with [] => _ | _ :: _ => _ end = Ok _ =>
          destruct x eqn:Hfree; [|discriminate]
      end;
      injection Hcreate as <- <-;
      apply wp_bind;
      match goal with
      | |- wp (match ?x with Some _ => _ | None => _ end) _ _ _ =>
          destruct x
      end;
      [ apply wp_bind, wp_media_file_save;
        [ intros name _ _; cbv beta;
          unfold wp, bind, on_wire, zoom, logger, modify, ret; cbn;
          (split; [exact Hcontacts|]); right
        | intros e; right; (split; [exact Hcontacts|]) ]
      | unfold wp, bind, on_wire, zoom, logger, modify, ret; cbn;
        (split; [exact Hcontacts|]); right ];
      eexists; eexists;
      (split;
       [ first
           [ reflexivity
           | match goal with
             | |- map (fun r => if _ then set_media_file ?name ?m0 else r)
                      (?rows0 ++ [_])%list = _ =>
                 exact (media_file_save_rows m0 rows0 name eq_refl)
             end ]
       | split;
         [ first [left; reflexivity|reflexivity]
         | unfold event_row; rewrite <- Hfm;
           repeat split; first [reflexivity|assumption|cbn; congruence] ] ]).
  - intros e w' [[Hrows Hcontacts]|[Hcontacts Hstored]]; cbv beta;
      unfold wp, bind, on_wire, zoom, logger, modify, ret; cbn;
      (split; [exact Hcontacts|]).
    + left. split; [reflexivity|exact Hrows].
    + right. destruct Hstored as (m & mid & Hrows & Hfile & Hrow).
      exists m, mid. split; [exact Hrows|].
      split; [right; split; [reflexivity|exact Hfile]|exact Hrow].
Qed.


(** X25. A message event whose id is already stored (a redelivery), or
    that carries no id, is answered 500 and stores no second message:
    the Message table is as before. *)
Theorem handle_incoming_message_duplicate
        (payload : json) (phone_number : PhoneNumber) (w : World) :
  (forall mid, to_char pf (waha_field payload "id") = Some mid ->
               filter_by_message_id (w_messages w) mid <> []) ->
  exists (resp : HttpResponse) (w' : World),
    _handle_incoming_message pf net storage_error payload phone_number w
    = (Ok resp, w')
    /\ resp_status resp = 500%Z
    /\ w_messages w' = w_messages w.
Proof.
  intros Hdup.
  destruct (wp_returns _ _ _
              (_handle_incoming_message_stores payload phone_number w))
    as (resp & w' & Hrun & _ & [[H500 Hrows] | Hstored]).
  - eauto.
  - destruct Hstored as (m & mid & _ & _ & _ & Hmid & Hfree & _).
    exfalso. exact (Hdup mid Hmid Hfree).
Qed.

(** X26. A message event that is not of the account itself ([fromMe]
    missing or falsy) is answered, and stores at most one message. The
    message it stores belongs to the phone number of the session, has
    direction "incoming", status "received", the id of the event, as
    [from_number] the raw [from] field and as [to_number] the [to] field
    or, when that is falsy, the id of [me]: the numbers are not swapped.
    The answer is 200 with the message stored, 500 with nothing stored,
    and 500 with the message stored without file when the save of the
    downloaded file raised after the row was created. *)
Theorem handle_incoming_message_incoming
        (payload : json) (phone_number : PhoneNumber) (w : World) :
  truthy (waha_from_me payload) = false ->
  exists (resp : HttpResponse) (w' : World),
    _handle_incoming_message pf net storage_error payload phone_number w
    = (Ok resp, w')
    /\ ((resp_status resp = 500%Z /\ w_messages w' = w_messages w)
        \/ (exists m : Message,
                w_messages w' = (w_messages w ++ [m])%list
                /\ stored_answer resp m
                /\ msg_phone_number m = phone_number
                /\ msg_direction m = "incoming"
                /\ msg_status m = "received"
                /\ msg_message_id m = to_char pf (waha_field payload "id")
                /\ msg_from_number m
                   = to_char pf (waha_field payload "from")
                /\ msg_to_number m
                   = to_char pf (py_or (waha_field payload "to")
                                       (waha_me_id payload)))).
Proof.
  intros Hfm.
  destruct (wp_returns _ _ _
              (_handle_incoming_message_stores payload phone_number w))
    as (resp & w' & Hrun & _ & Hcases).
  exists resp, w'. split; [exact Hrun|].
  destruct Hcases as [H500 | (m & mid & Hrows & Hanswer & Hrow)];
    [left; exact H500|].
  right. unfold event_row in Hrow. rewrite Hfm in Hrow.
  destruct Hrow as (Hid & Hmid & _ & Hpn & Hdir & Hst & Hfrom & Hto).
  exists m. repeat split; congruence.
Qed.

(** X27. An event of a message the account itself sent ([fromMe]
    truthy) never creates or changes a contact, whether the message is
    stored or not. *)
Theorem handle_incoming_message_echo_keeps_contacts
        (payload : json) (phone_number : PhoneNumber) (w : World) :
  truthy (waha_from_me payload) = true ->
  exists (resp : HttpResponse) (w' : World),
    _handle_incoming_message pf net storage_error payload phone_number w
    = (Ok resp, w')
    /\ w_contacts w' = w_contacts w.
Proof.
  intros Hfm.
  destruct (wp_returns _ _ _
              (_handle_incoming_message_stores payload phone_number w))
    as (resp & w' & Hrun & Hcontacts & _).
  eauto.
Qed.

(** *** The answers of the view *)

Lemma _handle_incoming_message_yields payload phone_number :
  yields (fun resp => In (resp_status resp) [200; 400; 404; 405; 500]%Z)
         (_handle_incoming_message pf net storage_error payload phone_number).
Proof.
  unfold _handle_incoming_message.
  repeat yield_step; simpl; tauto.
Qed.

(** X22. The WAHA webhook answers every request: it never raises, and
    the status of the answer is one of 200, 400, 404, 405 and 500. *)
Theorem waha_webhook_always_answers (request : HttpRequest) (w : World) :
  exists (resp : HttpResponse) (w' : World),
    waha_webhook pf net storage_error request w = (Ok resp, w')
    /\ In (resp_status resp) [200; 400; 404; 405; 500]%Z.
Proof.
  unfold waha_webhook.
  destruct (negb (method request =? "POST")).
  - eexists. eexists. split; [reflexivity|]. simpl. tauto.
  - apply try_except_answers.
    + repeat first
        [ lazymatch goal with
          | |- yields _ (_handle_incoming_message _ _ _ _ _) =>
              apply _handle_incoming_message_yields
          end
        | yield_step ];
        simpl; tauto.
    + intros e s1.
      destruct (exn_kind_eqb (exn_class e) JSONDecodeError);
        (eexists; eexists; split; [reflexivity|]); simpl; tauto.
Qed.

(** X23. An event without session (missing, null or empty) is answered
    400 and an event of a session no WAHA phone number has is answered
    404; in both cases nothing is stored and no request is made, whatever
    the event is. *)
Theorem waha_webhook_unknown_session
        (request : HttpRequest) (pd : list (string * json)) (w : World) :
  method request = "POST" ->
  body request = Ok (JDict pd) ->
  truthy (field_of pd "session") = false
  \/ (forall q, In q (w_phone_numbers w) ->
                waha_session q = py_str pf (field_of pd "session") ->
                api_type q <> "waha") ->
  exists (resp : HttpResponse) (w' : World),
    waha_webhook pf net storage_error request w = (Ok resp, w')
    /\ resp_status resp
       = (if truthy (field_of pd "session") then 404 else 400)%Z
    /\ w_messages w' = w_messages w
    /\ w_contacts w' = w_contacts w
    /\ w_phone_numbers w' = w_phone_numbers w
    /\ wire_requests (w_wire w') = wire_requests (w_wire w).
Proof.
  intros Hpost Hbody Hunknown.
  unfold waha_webhook. rewrite Hpost, Hbody.
  cbn [String.eqb Ascii.eqb Bool.eqb negb].
  unfold try_except at 1. unfold bind at 1, lift_result at 1.
  rewrite !get_dict.
  unfold bind at 1, lift_result at 1.
  unfold bind at 1, lift_result at 1.
  unfold bind at 1. rewrite on_wire_logger.
  destruct (truthy (field_of pd "session")) eqn:Hs; cbn [negb].
  - destruct Hunknown as [Hf|Hnone]; [discriminate|].
    assert (filter (fun p => (waha_session p
                              =? py_str pf (field_of pd "session"))
                             && (api_type p =? "waha"))
                   (w_phone_numbers w) = []) as Hfil.
    { destruct (filter _ (w_phone_numbers w)) as [|q l] eqn:Hq;
        [reflexivity|].
      assert (In q (filter (fun p => (waha_session p
                                      =? py_str pf (field_of pd "session"))
                                     && (api_type p =? "waha"))
                           (w_phone_numbers w))) as Hin
          by (rewrite Hq; left; reflexivity).
      apply filter_In in Hin. destruct Hin as [Hin Hm].
      apply andb_true_iff in Hm. destruct Hm as [Ht Ha].
      apply String.eqb_eq in Ht. apply String.eqb_eq in Ha.
      exfalso. exact (Hnone q Hin Ht Ha). }
    unfold try_except_only, try_except, bind, get_state, lift_result,
      phone_numbers_get.
    unfold logged at 1. cbn [w_phone_numbers set_w_wire]. rewrite Hfil. cbn.
    eexists. eexists. split; [reflexivity|]. repeat split.
  - cbn. eexists. eexists. split; [reflexivity|]. repeat split.
Qed.

(** X24. Only "message" events are processed: an event of any other
    type (a session status, an acknowledgement) stores nothing, changes no
    contact and no phone number and makes no request; for a known session
    it is answered 200. *)
Theorem waha_webhook_ignores_other_events
        (request : HttpRequest) (pd : list (string * json)) (w : World) :
  method request = "POST" ->
  body request = Ok (JDict pd) ->
  is_str (field_of pd "event") "message" = false ->
  exists (resp : HttpResponse) (w' : World),
    waha_webhook pf net storage_error request w = (Ok resp, w')
    /\ w_messages w' = w_messages w
    /\ w_contacts w' = w_contacts w
    /\ w_phone_numbers w' = w_phone_numbers w
    /\ wire_requests (w_wire w') = wire_requests (w_wire w)
    /\ (forall p,
          truthy (field_of pd "session") = true ->
          phone_numbers_get
            (fun q => (waha_session q =? py_str pf (field_of pd "session"))
                      && (api_type q =? "waha"))
            (w_phone_numbers w) = Ok p ->
          resp_status resp = 200%Z).
Proof.
  intros Hpost Hbody Hevent.
  unfold waha_webhook. rewrite Hpost, Hbody.
  cbn [String.eqb Ascii.eqb Bool.eqb negb].
  unfold try_except at 1. unfold bind at 1, lift_result at 1.
  rewrite !get_dict.
  unfold bind at 1, lift_result at 1.
  unfold bind at 1, lift_result at 1.
  unfold bind at 1. rewrite on_wire_logger. rewrite Hevent.
  destruct (truthy (field_of pd "session")) eqn:Hs; cbn [negb].
  - unfold try_except_only, try_except, bind, get_state, lift_result.
    unfold logged at 1. cbn [w_phone_numbers set_w_wire].
    destruct (phone_numbers_get _ (w_phone_numbers w)) as [p|e] eqn:Hp.
    + cbn. eexists. eexists. split; [reflexivity|]. repeat split.
    + destruct (exn_kind_eqb (exn_class e) DoesNotExist); cbn;
        [|destruct (exn_kind_eqb (exn_class e) JSONDecodeError); cbn];
        (eexists; eexists; split; [reflexivity|]);
        repeat split; intros; discriminate.
  - cbn. eexists. eexists. split; [reflexivity|].
    repeat split; intros; discriminate.
Qed.

End WahaWebhookProperties.

(** ** Creating outgoing messages *)

Section OutgoingProperties.
Import ContactModel Dispatch Outgoing.
Local Open Scope eff_scope.
Variable pf : Platform.
Variable net : network.




(** X29. [PhoneNumber.send_message] never returns a message: every call
    raises, stores no message and makes no HTTP request. With the
    credentials in place and the recipient stored as a contact the
    exception is the [TypeError] of the call of
    [create_outgoing_message] with a keyword that method does not have,
    and nothing at all has changed. *)
Theorem send_message_never_returns
        (self : PhoneNumber) (to_number : option string)
        (message_text template_name : option string)
        (template_params : json) (media_url media_type : option string)
        (template : option Template) (w : World) :
  exists (e : exn) (w' : World),
    send_message self to_number message_text template_name template_params
                 media_url media_type template w = (Raise e, w')
    /\ w_messages w' = w_messages w
    /\ wire_requests (w_wire w') = wire_requests (w_wire w)
    /\ (forall c,
          is_official_api self && negb (nonempty (access_token self))
          = false ->
          is_waha_api self && negb (waha_credentials self) = false ->
          objects_get (w_contacts w) to_number = Ok c ->
          exn_class e = TypeError /\ w' = w).
Proof.
  unfold send_message.
  destruct (is_official_api self && negb (nonempty (access_token self)));
    [eexists; eexists; split; [reflexivity|];
     repeat split; intros; discriminate|].
  destruct (is_waha_api self && negb (waha_credentials self));
    [eexists; eexists; split; [reflexivity|];
     repeat split; intros; discriminate|].
  cbv [contacts_get_or_create try_except_only try_except bind
       contacts_get contacts_create get_state lift_result ret raise].
  destruct (objects_get (w_contacts w) to_number) as [c|e1] eqn:Hget.
  - eexists. eexists. split; [reflexivity|]. repeat split.
  - destruct (exn_kind_eqb (exn_class e1) DoesNotExist);
      [|eexists; eexists; split; [reflexivity|];
        repeat split; intros; discriminate].
    destruct (ContactModel.save _ (w_contacts w)) as [[c t]|e2].
    + eexists. eexists. split; [reflexivity|].
      repeat split; intros; discriminate.
    + destruct (exn_kind_eqb (exn_class e2) IntegrityError);
        [|eexists; eexists; split; [reflexivity|];
          repeat split; intros; discriminate].
      rewrite Hget.
      destruct (exn_kind_eqb (exn_class e1) DoesNotExist);
        eexists; eexists; (split; [reflexivity|]);
        repeat split; intros; discriminate.
Qed.

End OutgoingProperties.

(** ** The events of the official webhook *)

Section OfficialEventsProperties.
Import OfficialWebhook OfficialEvents.
Local Open Scope eff_scope.
Variable pf : Platform.
Variable process_contact : json -> M World unit.
Variable process_message : PhoneNumber -> json -> M World unit.
Variable fetch_templates : PhoneNumber -> M World json.

Lemma same_database_refl w : same_database w w.
Proof. repeat split. Qed.

Lemma differs_iff (a : option string) (v : json) :
  v <> json_of_opt_str a -> differs a v = true.
Proof.
  unfold differs. destruct a as [s|], v; simpl; try reflexivity.
  - intros Hne. destruct (String.eqb_spec s s0); [|reflexivity].
    subst. contradiction.
  - intros Hne. contradiction.
Qed.

Lemma process_change_foreign p change w :
  foreign_change p change ->
  process_change pf process_contact process_message fetch_templates p change
                 w
  = (Ok tt, logged WARNING "Phone number ID mismatch" w).
Proof.
  intros (c & v & md & -> & Hfield & Hvalue & Hmeta & Hid).
  unfold process_change.
  rewrite get_dict, Hfield. unfold bind at 1, lift_result at 1.
  unfold get_default at 1. rewrite Hvalue.
  unfold bind at 1, lift_result at 1.
  cbn [is_str String.eqb Ascii.eqb Bool.eqb].
  unfold get_default at 1. rewrite Hmeta.
  unfold bind at 1, lift_result at 1.
  rewrite get_dict. unfold bind at 1, lift_result at 1.
  rewrite (differs_iff _ _ Hid). cbn [andb].
  apply on_wire_logger.
Qed.

Lemma for_each_foreign_changes p changes w :
  Forall (foreign_change p) changes ->
  exists w',
    for_each changes
      (process_change pf process_contact process_message fetch_templates p) w
    = (Ok tt, w')
    /\ same_database w w'.
Proof.
  intros Hall. revert w.
  induction Hall as [|change changes Hc _ IH]; intros w.
  - exists w. split; [reflexivity|apply same_database_refl].
  - cbn [for_each]. unfold bind.
    rewrite (process_change_foreign p change w Hc).
    destruct (IH (logged WARNING "Phone number ID mismatch" w))
      as (w' & Hrun & Hsame).
    exists w'. split; [exact Hrun|exact Hsame].
Qed.

(** X30. Events that are not for this phone number are not processed.
    A payload whose [object] is not "whatsapp_business_account" only
    logs a warning; and when every change of every entry is a [messages]
    change whose metadata name another phone number id, the processing
    returns without having handled any contact, message or status: the
    database is as before and no request was made, whatever the handlers
    would have done. *)
Theorem process_webhook_data_skips_foreign
        (p : PhoneNumber) (d : list (string * json)) (w : World) :
  (is_str (field_of d "object") "whatsapp_business_account" = false ->
   process_webhook_data pf process_contact process_message fetch_templates
                        (JDict d) p w
   = (Ok tt, logged WARNING "Received webhook for unsupported object type"
                    w))
  /\ (forall entries,
         field_of d "object" = JStr "whatsapp_business_account" ->
         assoc "entry" d = Some (JList entries) ->
         Forall (foreign_entry p) entries ->
         exists w',
           process_webhook_data pf process_contact process_message
                                fetch_templates (JDict d) p w
           = (Ok tt, w')
           /\ same_database w w').
Proof.
  split.
  - intros Hobject. unfold process_webhook_data.
    rewrite get_dict. unfold bind at 1, lift_result at 1.
    rewrite Hobject. apply on_wire_logger.
  - intros entries Hobject Hentry Hall. unfold process_webhook_data.
    rewrite get_dict, Hobject. unfold bind at 1, lift_result at 1.
    cbn [is_str String.eqb Ascii.eqb Bool.eqb negb].
    unfold get_default. rewrite Hentry.
    unfold bind at 1 2, lift_result at 1 2. cbn [py_iter].
    clear Hentry Hobject. revert w.
    induction Hall as [|entry entries He _ IH]; intros w.
    + exists w. split; [reflexivity|apply same_database_refl].
    + destruct He as (e & changes & -> & Hchanges & Hforeign).
      cbn [for_each]. unfold bind at 1. rewrite get_dict.
      unfold bind at 1, lift_result at 1. rewrite Hchanges.
      unfold bind at 1 2, lift_result at 1 2. cbn [py_iter].
      destruct (for_each_foreign_changes p changes w Hforeign)
        as (w1 & Hrun & Hsame).
      rewrite Hrun.
      destruct (IH w1) as (w' & Hrun' & Hsame').
      exists w'. split; [exact Hrun'|].
      destruct Hsame as (? & ? & ? & ?). destruct Hsame' as (? & ? & ? & ?).
      repeat split; congruence.
Qed.

End OfficialEventsProperties.

(** ** The properties on the sample data *)

Section Runs.
Import Samples Dispatch OfficialWebhook WahaWebhook.
Local Open Scope eff_scope.

Lemma process_message_for_sending_total_witness :
  (exists (b : bool) (fr' : Frame),
      process_message_for_sending sample_platform net_500 waha_number
                                  (frame_of pending_template)
      = (Ok b, fr'))
  /\ exists fr' : Frame,
      process_message_for_sending sample_platform net_500 waha_number
                                  (frame_of pending_template)
      = (Ok false, fr')
      /\ status_is "failed" fr'
      /\ requests_of fr' = requests_of (frame_of pending_template).
Proof.
  destruct (process_message_for_sending_total
              sample_platform net_500 waha_number (frame_of pending_template)
              (ex_intro _ 8 (conj eq_refl eq_refl))) as [Hany Htemplate].
  split; [exact Hany|].
  apply Htemplate; reflexivity.
Defined.



Lemma webhook_verification_handshake_witness :
  exists (resp : HttpResponse) (w' : World),
    webhook (fun _ _ => ret tt) handshake "hook-1" (world_of [])
    = (Ok resp, w')
    /\ resp_status resp = 200%Z
    /\ resp_content resp = Text "1158201444".
Proof.
  destruct (webhook_verification_handshake
              (fun _ _ => ret tt) handshake "hook-1" (world_of [])
              official_number eq_refl eq_refl)
    as (resp & w' & Hrun & Hiff & Hecho & _).
  exists resp, w'. split; [exact Hrun|].
  assert (resp_status resp = 200%Z) as Hok
      by (apply Hiff; split; reflexivity).
  split; [exact Hok|]. apply Hecho, Hok.
Defined.

Lemma process_status_update_unknown_message_witness :
  exists text : string,
    process_status_update sample_platform official_number
                          (JDict stray_update) (world_of [read_text])
    = (Ok tt, logged WARNING text (world_of [read_text])).
Proof.
  apply (process_status_update_unknown_message
           sample_platform official_number stray_update
           (world_of [read_text])).
  reflexivity.
Defined.

Lemma process_status_update_reverts_read_witness :
  exists w' : World,
    process_status_update sample_platform official_number
                          (JDict delivered_update) (world_of [read_text])
    = (Ok tt, w')
    /\ stored_status (w_messages w') "wamid.9" = Ok "delivered".
Proof.
  destruct (process_status_update_reverts_read
              sample_platform official_number delivered_update
              (world_of [read_text]) read_text 9 "wamid.9"
              eq_refl ltac:(discriminate) eq_refl eq_refl eq_refl eq_refl
              eq_refl) as [Hwritten Hreturns].
  destruct (Hreturns (fun z _ => ex_intro _ z eq_refl) eq_refl eq_refl
                     eq_refl) as [w' Hrun].
  exists w'. split; [exact Hrun|]. apply Hwritten, Hrun.
Defined.

(** A message that was read is back at "delivered" after a late
    "delivered" update. *)
Lemma delivered_after_read_reverts_status :
  stored_status (w_messages (world_of [read_text])) "wamid.9" = Ok "read"
  /\ stored_status
       (w_messages
          (snd (process_status_update sample_platform official_number
                                      (JDict delivered_update)
                                      (world_of [read_text]))))
       "wamid.9"
     = Ok "delivered".
Proof. split; reflexivity. Qed.


(** An empty [to] in the event counts as absent: the stored
    [from_number] is the id of [me]. *)
Lemma outgoing_echo_empty_to_uses_me :
  waha_field echo_event_empty_to "fromMe" = JBool true
  /\ waha_field echo_event_empty_to "to" = JStr ""
  /\ map msg_from_number
         (w_messages
            (snd (_handle_incoming_message
                    sample_platform net_500 storage_accepts
                    echo_event_empty_to waha_number (world_of []))))
     = [Some "40700000002@c.us"].
Proof. repeat split; reflexivity. Qed.

(** ** The further properties on the sample data *)

Lemma make_request_outcome_witness :
  exists w' : Wire,
    Waha._make_request net_500 sample_service "sendText" "DELETE" None quiet
    = (Ok (Waha.error_dict "Unsupported HTTP method: DELETE"), w')
    /\ wire_requests w' = wire_requests quiet.
Proof.
  apply (proj2 (make_request_outcome net_500 sample_service "sendText" None)
               "DELETE" quiet);
    discriminate.
Defined.

Lemma process_message_for_sending_unconfigured_witness :
  exists fr' : Frame,
    process_message_for_sending sample_platform net_500 inactive_number
                                (frame_of pending_text)
    = (Ok false, fr')
    /\ status_is "failed" fr'
    /\ requests_of fr' = requests_of (frame_of pending_text).
Proof.
  apply (process_message_for_sending_unconfigured
           sample_platform net_500 inactive_number (frame_of pending_text)
           (ex_intro _ 12 (conj eq_refl eq_refl))).
  left. reflexivity.
Defined.

Lemma process_message_for_sending_unsupported_witness :
  exists fr' : Frame,
    process_message_for_sending sample_platform net_500 official_number
                                (frame_of pending_location)
    = (Ok false, fr')
    /\ status_is "failed" fr'
    /\ requests_of fr' = requests_of (frame_of pending_location).
Proof.
  apply (process_message_for_sending_unsupported
           sample_platform net_500 official_number
           (frame_of pending_location)
           (ex_intro _ 10 (conj eq_refl eq_refl))).
  left. reflexivity.
Defined.

Lemma retry_send_not_outgoing_witness :
  exists fr' : Frame,
    retry_send sample_platform net_500 (frame_of received_text)
    = (Ok false, fr')
    /\ instance fr' = instance (frame_of received_text)
    /\ w_messages (world fr') = w_messages (world (frame_of received_text))
    /\ requests_of fr' = requests_of (frame_of received_text).
Proof.
  apply (retry_send_not_outgoing sample_platform net_500
                                 (frame_of received_text)).
  discriminate.
Defined.

Lemma process_message_for_sending_refused_witness :
  exists fr' : Frame,
    process_message_for_sending sample_platform net_500 official_number
                                (frame_of pending_text)
    = (Ok false, fr')
    /\ status_is "failed" fr'.
Proof.
  apply (process_message_for_sending_refused
           sample_platform net_500 official_number (frame_of pending_text)
           (ex_intro _ 12 (conj eq_refl eq_refl))).
  intros h r. simpl. lia.
Defined.

Lemma waha_dispatch_needs_success_flag_witness :
  exists fr' : Frame,
    process_message_for_sending sample_platform net_bridge_ok waha_number
                                (frame_of pending_waha_text)
    = (Ok false, fr')
    /\ status_is "failed" fr'.
Proof.
  apply (waha_dispatch_needs_success_flag
           sample_platform net_bridge_ok waha_number
           (frame_of pending_waha_text)
           (ex_intro _ 13 (conj eq_refl eq_refl)) eq_refl).
  intros h r b Hb. simpl in Hb. injection Hb as <-. reflexivity.
Defined.

Lemma official_text_dispatch_succeeds_witness :
  exists fr' : Frame,
    process_message_for_sending sample_platform net_official_ok
                                official_number (frame_of pending_text)
    = (Ok true, fr')
    /\ status_is "sent" fr'
    /\ msg_message_id (instance fr') = Some "wamid.NEW".
Proof.
  destruct (official_text_dispatch_succeeds
              sample_platform net_official_ok official_number
              (frame_of pending_text) 12
              (mkResponse 200 "{...}"
                 (Some (JDict [("messaging_product", JStr "whatsapp");
                               ("messages",
                                JList [JDict [("id", JStr "wamid.NEW")]])])))
              [("messaging_product", JStr "whatsapp");
               ("messages", JList [JDict [("id", JStr "wamid.NEW")]])]
              [("id", JStr "wamid.NEW")] [] "wamid.NEW"
              eq_refl eq_refl eq_refl eq_refl ltac:(discriminate) eq_refl
              eq_refl (fun _ => eq_refl) eq_refl eq_refl eq_refl eq_refl
              ltac:(intros r [<-|[]] _; reflexivity))
    as (fr' & r & payload & Hrun & Hst & Hid & _).
  exists fr'. auto.
Defined.

Lemma process_status_update_missing_fields_witness :
  process_status_update sample_platform official_number
                        (JDict update_without_time) (world_of [read_text])
  = (Ok tt, logged WARNING "Status data missing required fields"
                   (world_of [read_text])).
Proof.
  apply (process_status_update_missing_fields
           sample_platform official_number update_without_time
           (world_of [read_text])).
  right. right. reflexivity.
Defined.

Lemma process_status_update_sets_times_witness :
  exists (w' : World) (m' : Message),
    process_status_update sample_platform official_number
                          (JDict delivered_update) (world_of [read_text])
    = (Ok tt, w')
    /\ objects_get_by_message_id (w_messages w') "wamid.9" = Ok m'
    /\ msg_delivered_at m' = Some 1700000100%Z
    /\ msg_read_at m' = Some 1700000050%Z.
Proof.
  destruct (process_status_update_sets_times
              sample_platform official_number delivered_update
              (world_of [read_text]) read_text 9 "wamid.9" "delivered"
              1700000100%Z
              eq_refl ltac:(discriminate) eq_refl ltac:(discriminate)
              eq_refl eq_refl eq_refl eq_refl) as [Hwritten Hreturns].
  destruct (Hreturns eq_refl eq_refl eq_refl) as [w' Hrun].
  destruct (Hwritten w' Hrun) as (m' & Hget & _ & Hd & Hr).
  exists w', m'. auto.
Defined.

Lemma process_status_update_invalid_timestamp_witness :
  exists (w' : World) (m' : Message),
    process_status_update sample_platform official_number
                          (JDict update_with_bad_time)
                          (world_of [read_text])
    = (Ok tt, w')
    /\ objects_get_by_message_id (w_messages w') "wamid.9" = Ok m'
    /\ msg_status m' = "delivered"
    /\ msg_delivered_at m' = None
    /\ msg_read_at m' = Some 1700000050%Z.
Proof.
  destruct (process_status_update_invalid_timestamp
              sample_platform official_number update_with_bad_time
              (world_of [read_text]) read_text 9 "wamid.9" "delivered"
              (Exn ValueError "invalid literal for int()")
              eq_refl ltac:(discriminate) eq_refl ltac:(discriminate)
              eq_refl eq_refl eq_refl eq_refl) as [Hwritten Hreturns].
  destruct (Hreturns eq_refl eq_refl eq_refl) as [w' Hrun].
  destruct (Hwritten w' Hrun) as (m' & Hget & Hst & Hd & Hr).
  exists w', m'. auto.
Defined.

Lemma webhook_post_outcome_witness :
  (exists (resp : HttpResponse) (w' : World),
      webhook (fun _ _ => ret tt) (post_of (JDict [])) "hook-1"
              (world_of [])
      = (Ok resp, w')
      /\ resp = mkHttpResponse (Text "OK") 200)
  /\ (exists (resp : HttpResponse) (w' : World),
         webhook (fun _ _ => ret tt) post_not_utf8 "hook-1" (world_of [])
         = (Ok resp, w')
         /\ resp = mkHttpResponse
                     (Text "'utf-8' codec can't decode byte 0xff") 500
         /\ w_messages w' = []).
Proof.
  split.
  - destruct (webhook_post_outcome
                (fun _ _ => ret tt) (post_of (JDict [])) "hook-1"
                (world_of []) official_number eq_refl eq_refl)
      as (resp & w' & Hrun & _ & Hbody).
    exists resp, w'. split; [exact Hrun|].
    apply (Hbody (JDict []) eq_refl).
  - destruct (webhook_post_outcome
                (fun _ _ => ret tt) post_not_utf8 "hook-1"
                (world_of []) official_number eq_refl eq_refl)
      as (resp & w' & Hrun & Hraise & _).
    exists resp, w'. split; [exact Hrun|].
    destruct (Hraise _ eq_refl) as (Hresp & Hrows & _).
    split; [exact Hresp|exact Hrows].
Defined.

Lemma webhook_rejects_witness :
  webhook (fun _ _ => ret tt) (post_of (JDict [])) "hook-2" (world_of [])
  = (Ok (mkHttpResponse (Text "Invalid webhook token") 403),
     logged WARNING "No phone number found with webhook_token"
            (world_of [])).
Proof.
  apply (proj1 (webhook_rejects (fun _ _ => ret tt) (post_of (JDict []))
                                "hook-2" (world_of []))).
  intros q [<-|[<-|[]]] Htoken; discriminate.
Defined.

Lemma waha_webhook_unknown_session_witness :
  exists (resp : HttpResponse) (w' : World),
    waha_webhook sample_platform net_500 storage_accepts
                 (post_of (JDict stranger_event_body))
                 (world_of [])
    = (Ok resp, w')
    /\ resp_status resp = 404%Z
    /\ w_messages w' = [].
Proof.
  assert (forall q,
             In q (w_phone_numbers (world_of [])) ->
             waha_session q
             = py_str sample_platform
                      (field_of stranger_event_body "session") ->
             api_type q <> "waha") as Hnone
      by (intros q [<-|[<-|[]]] Hs; discriminate).
  destruct (waha_webhook_unknown_session
              sample_platform net_500 storage_accepts
              (post_of (JDict stranger_event_body))
              stranger_event_body (world_of []) eq_refl eq_refl
              (or_intror Hnone))
    as (resp & w' & Hrun & Hst & Hrows & _).
  exists resp, w'. auto.
Defined.

Lemma waha_webhook_ignores_other_events_witness :
  exists (resp : HttpResponse) (w' : World),
    waha_webhook sample_platform net_500 storage_accepts
                 (post_of (JDict ack_event_body))
                 (world_of [stored_echo])
    = (Ok resp, w')
    /\ w_messages w' = [stored_echo]
    /\ resp_status resp = 200%Z.
Proof.
  destruct (waha_webhook_ignores_other_events
              sample_platform net_500 storage_accepts
              (post_of (JDict ack_event_body))
              ack_event_body (world_of [stored_echo]) eq_refl eq_refl
              eq_refl)
    as (resp & w' & Hrun & Hrows & _ & _ & _ & Hknown).
  exists resp, w'. split; [exact Hrun|]. split; [exact Hrows|].
  apply (Hknown waha_number); reflexivity.
Defined.

Lemma handle_incoming_message_duplicate_witness :
  exists (resp : HttpResponse) (w' : World),
    _handle_incoming_message sample_platform net_500 storage_accepts
                             echo_event waha_number (world_of [stored_echo])
    = (Ok resp, w')
    /\ resp_status resp = 500%Z
    /\ w_messages w' = [stored_echo].
Proof.
  apply (handle_incoming_message_duplicate
           sample_platform net_500 storage_accepts echo_event waha_number
           (world_of [stored_echo])).
  intros mid Hmid. injection Hmid as <-. discriminate.
Defined.

Lemma handle_incoming_message_incoming_witness :
  exists (resp : HttpResponse) (w' : World),
    _handle_incoming_message sample_platform net_500 storage_accepts
                             (JDict incoming_event_body) waha_number
                             (world_of [])
    = (Ok resp, w')
    /\ ((resp_status resp = 500%Z /\ w_messages w' = [])
        \/ (exists m : Message,
                w_messages w' = [m]
                /\ stored_answer resp m
                /\ msg_phone_number m = waha_number
                /\ msg_direction m = "incoming"
                /\ msg_status m = "received"
                /\ msg_message_id m = Some "false_40777777777@c.us_DDDD"
                /\ msg_from_number m = Some "40777777777@c.us"
                /\ msg_to_number m = Some "40700000002@c.us")).
Proof.
  apply (handle_incoming_message_incoming
           sample_platform net_500 storage_accepts
           (JDict incoming_event_body) waha_number (world_of [])).
  reflexivity.
Defined.

(** The event with a document is answered 200 with the file stored when
    the storage takes it; when the storage has no room, and when the
    event names the file by a number, the save of the file raises after
    the row was created: the answer is 500 and the row is stored without
    file. *)
Lemma unsaved_file_keeps_row :
  (let run := _handle_incoming_message
                sample_platform net_official_ok storage_accepts
                (document_event (JStr "offer.pdf")) waha_number
                (world_of []) in
   result_map resp_status (fst run) = Ok 200%Z
   /\ map msg_media_file (w_messages (snd run))
      = [Some (storage_name sample_platform "offer.pdf")])
  /\ (let run := _handle_incoming_message
                   sample_platform net_official_ok storage_full
                   (document_event (JStr "offer.pdf")) waha_number
                   (world_of []) in
      result_map resp_status (fst run) = Ok 500%Z
      /\ map msg_media_file (w_messages (snd run)) = [None])
  /\ (let run := _handle_incoming_message
                   sample_platform net_official_ok storage_accepts
                   (document_event (JNum 5)) waha_number (world_of []) in
      result_map resp_status (fst run) = Ok 500%Z
      /\ map msg_media_file (w_messages (snd run)) = [None]).
Proof. repeat split; reflexivity. Qed.

Lemma handle_incoming_message_echo_keeps_contacts_witness :
  exists (resp : HttpResponse) (w' : World),
    _handle_incoming_message sample_platform net_500 storage_accepts
                             echo_event waha_number (world_of [])
    = (Ok resp, w')
    /\ w_contacts w' = [].
Proof.
  apply (handle_incoming_message_echo_keeps_contacts
           sample_platform net_500 storage_accepts echo_event waha_number
           (world_of [])).
  reflexivity.
Defined.


Lemma send_message_never_returns_witness :
  exists (e : exn) (w' : World),
    Outgoing.send_message official_number (Some "40777777777")
                          (Some "hello") None JNull None None None
                          world_with_ana
    = (Raise e, w')
    /\ exn_class e = TypeError
    /\ w' = world_with_ana.
Proof.
  destruct (send_message_never_returns
              official_number (Some "40777777777") (Some "hello") None JNull
              None None None world_with_ana)
    as (e & w' & Hrun & _ & _ & Hknown).
  exists e, w'. split; [exact Hrun|].
  apply (Hknown ana); reflexivity.
Defined.

Lemma process_webhook_data_skips_foreign_witness :
  exists w' : World,
    OfficialEvents.process_webhook_data
      sample_platform failing_contact failing_message no_templates
      (JDict foreign_payload) official_number (world_of [read_text])
    = (Ok tt, w')
    /\ same_database (world_of [read_text]) w'.
Proof.
  apply (proj2 (process_webhook_data_skips_foreign
                  sample_platform failing_contact failing_message
                  no_templates official_number foreign_payload
                  (world_of [read_text]))
               foreign_entries eq_refl eq_refl).
  constructor; [|constructor].
  eexists. eexists. split; [reflexivity|]. split; [reflexivity|].
  constructor; [|constructor].
  eexists. eexists. eexists.
  split; [reflexivity|]. split; [reflexivity|]. split; [reflexivity|].
  split; [reflexivity|]. discriminate.
Defined.

End Runs.
